(** * Purchase orchestration service: a shallow embedding and its properties

    The development follows [src/application/services/PurchaseService.ts]
    and the order-detail adapter it writes through.  Asynchronous methods
    run to completion one at a time, so every method is a function from the
    state of the world (the database tables, the logs of the calls made to
    the payment gateway and to the e-mail service, the clock and the random
    source) to an outcome and a new state.  A thrown exception keeps the
    writes made before it: the service has no transaction and no rollback. *)

From Stdlib Require Import ZArith NArith List String Ascii Bool Lia.
From Stdlib Require Import DecimalString Sorting.Sorted Permutation.
From stdpp Require Import base list strings gmap sorting.

Import ListNotations.
Local Open Scope string_scope.
Local Open Scope list_scope.

(** ** JavaScript strings

    A JavaScript string is a sequence of UTF-16 code units.  Here a string
    is given by the bytes of its UTF-8 encoding (a lone surrogate is encoded
    in three bytes, like any other code unit above U+07FF): [codeUnits]
    reads the code units back, [length] counts them, and white space is the
    class [\s] of ECMAScript, which is also what [trim] removes.  Bytes
    that are no encoding stand for U+FFFD each. *)

Module JSString.

(** The white space of ECMAScript, by code unit: TAB, LF, VT, FF, CR,
    SPACE, U+00A0, U+1680, U+2000 to U+200A, U+2028, U+2029, U+202F,
    U+205F, U+3000 and U+FEFF. *)
Definition isSpace (u : N) : bool :=
  ((9 <=? u)%N && (u <=? 13)%N) || (u =? 32)%N || (u =? 160)%N || (u =? 5760)%N
  || ((8192 <=? u)%N && (u <=? 8202)%N) || (u =? 8232)%N || (u =? 8233)%N
  || (u =? 8239)%N || (u =? 8287)%N || (u =? 12288)%N || (u =? 65279)%N.

Definition isContinuation (b : N) : bool := (128 <=? b)%N && (b <=? 191)%N.

(** The code point that two, three and four bytes encode, when they are
    an encoding and not a longer form of a shorter one. *)
Definition decode2 (a b : N) : option N :=
  if (194 <=? a)%N && (a <=? 223)%N && isContinuation b
  then Some ((a - 192) * 64 + (b - 128))%N
  else None.

Definition decode3 (a b c : N) : option N :=
  if (224 <=? a)%N && (a <=? 239)%N && isContinuation b && isContinuation c
     && negb ((a =? 224)%N && (b <? 160)%N)
  then Some ((a - 224) * 4096 + (b - 128) * 64 + (c - 128))%N
  else None.

Definition decode4 (a b c d : N) : option N :=
  if (240 <=? a)%N && (a <=? 244)%N
     && isContinuation b && isContinuation c && isContinuation d
     && negb ((a =? 240)%N && (b <? 144)%N) && negb ((a =? 244)%N && (143 <? b)%N)
  then Some ((a - 240) * 262144 + (b - 128) * 4096 + (c - 128) * 64 + (d - 128))%N
  else None.

(** The code units of a code point: itself, or a pair of surrogates. *)
Definition unitsOf (cp : N) : list N :=
  if (cp <? 65536)%N then [cp]
  else [(55296 + (cp - 65536) / 1024)%N; (56320 + (cp - 65536) mod 1024)%N].

Definition replacement : N := 65533%N.

Fixpoint codeUnits (s : string) : list N :=
  match s with
  | EmptyString => []
  | String a r =>
      let x := N_of_ascii a in
      if (x <? 128)%N then x :: codeUnits r
      else
        match r with
        | String b r2 =>
            match decode2 x (N_of_ascii b) with
            | Some cp => cp :: codeUnits r2
            | None =>
                match r2 with
                | String c r3 =>
                    match decode3 x (N_of_ascii b) (N_of_ascii c) with
                    | Some cp => cp :: codeUnits r3
                    | None =>
                        match r3 with
                        | String d r4 =>
                            match decode4 x (N_of_ascii b) (N_of_ascii c)
                                    (N_of_ascii d) with
                            | Some cp => unitsOf cp ++ codeUnits r4
                            | None => replacement :: codeUnits r
                            end
                        | EmptyString => replacement :: codeUnits r
                        end
                    end
                | EmptyString => replacement :: codeUnits r
                end
            end
        | EmptyString => [replacement]
        end
  end.

(** [s.length] *)
Definition length (s : string) : nat := List.length (codeUnits s).

(** The white space of one byte, TAB, LF, VT, FF, CR and SPACE, and the
    encodings of the white space of two and of three bytes. *)
Definition isWhiteSpace (c : ascii) : bool :=
  let n := nat_of_ascii c in
  Nat.eqb n 9 || Nat.eqb n 10 || Nat.eqb n 11 || Nat.eqb n 12
  || Nat.eqb n 13 || Nat.eqb n 32.

Definition isWhiteSpace2 (a b : ascii) : bool :=
  match decode2 (N_of_ascii a) (N_of_ascii b) with
  | Some cp => isSpace cp
  | None => false
  end.

Definition isWhiteSpace3 (a b c : ascii) : bool :=
  match decode3 (N_of_ascii a) (N_of_ascii b) (N_of_ascii c) with
  | Some cp => isSpace cp
  | None => false
  end.

Definition isDigit (c : ascii) : bool :=
  let n := nat_of_ascii c in Nat.leb 48 n && Nat.leb n 57.

Definition isLower (c : ascii) : bool :=
  let n := nat_of_ascii c in Nat.leb 97 n && Nat.leb n 122.

Definition isUpper (c : ascii) : bool :=
  let n := nat_of_ascii c in Nat.leb 65 n && Nat.leb n 90.

(** Lower-case letters and digits: the digits of radix 36. *)
Definition isBase36 (c : ascii) : bool := isDigit c || isLower c.

Definition isAlphaNum (c : ascii) : bool := isDigit c || isLower c || isUpper c.

Fixpoint all (p : ascii -> bool) (s : string) : bool :=
  match s with
  | EmptyString => true
  | String c r => p c && all p r
  end.

(** A string used as a condition: only the empty string is falsy. *)
Definition truthy (s : string) : bool :=
  match s with EmptyString => false | _ => true end.

(** An optional string used as a condition: [undefined], [null] and the
    empty string are falsy. *)
Definition truthyOpt (o : option string) : bool :=
  match o with Some s => truthy s | None => false end.

(** [s.trimStart()] *)
Fixpoint trimStart (s : string) : string :=
  match s with
  | String a r =>
      if isWhiteSpace a then trimStart r
      else
        match r with
        | String b r2 =>
            if isWhiteSpace2 a b then trimStart r2
            else
              match r2 with
              | String c r3 => if isWhiteSpace3 a b c then trimStart r3 else s
              | EmptyString => s
              end
        | EmptyString => s
        end
  | EmptyString => EmptyString
  end.

(** [s.trimEnd()]: the string is cut where only white space follows. *)
Fixpoint trimEnd (s : string) : string :=
  match s with
  | String c r =>
      match trimStart s with
      | EmptyString => EmptyString
      | _ => String c (trimEnd r)
      end
  | EmptyString => EmptyString
  end.

(** [s.trim()] *)
Definition trim (s : string) : string := trimEnd (trimStart s).

(** [s.toUpperCase()], for the letters [a] to [z]: the statuses and the
    HTTP methods that the code compares in upper case are made of these. *)
Definition upperChar (c : ascii) : ascii :=
  if isLower c then ascii_of_nat (nat_of_ascii c - 32) else c.

Fixpoint toUpperCase (s : string) : string :=
  match s with
  | String c r => String (upperChar c) (toUpperCase r)
  | EmptyString => EmptyString
  end.

(** [s.substr(start, len)] for non-negative arguments. *)
Definition substr (start len : nat) (s : string) : string :=
  String.substring start len s.

(** [s.includes(t)]: [t] occurs in [s] as a substring. *)
Fixpoint includes (s t : string) : bool :=
  String.prefix t s
  || match s with
     | String _ r => includes r t
     | EmptyString => false
     end.

(** A non-negative integer in a template literal: its decimal digits. *)
Definition ofN (n : N) : string := NilZero.string_of_uint (N.to_uint n).

(** An integer row id in a template literal. *)
Definition ofZ (z : Z) : string := NilZero.string_of_int (Z.to_int z).

End JSString.

(** ** Regular expressions

    The pattern of the service uses character classes, concatenation and
    [+] only; it has no flag, so it is matched code unit by code unit, here
    by Brzozowski derivatives.  It is anchored at [^] and [$], so [test] is
    a match of the whole string. *)

Module RegExp.

Inductive regex : Type :=
| Void : regex
| Eps : regex
| Class (p : N -> bool) : regex
| Cat (r1 r2 : regex) : regex
| Alt (r1 r2 : regex) : regex
| Star (r : regex) : regex.

Definition Plus (r : regex) : regex := Cat r (Star r).

Definition Chr (c : ascii) : regex := Class (N.eqb (N_of_ascii c)).

Fixpoint nullable (r : regex) : bool :=
  match r with
  | Void => false
  | Eps => true
  | Class _ => false
  | Cat r1 r2 => nullable r1 && nullable r2
  | Alt r1 r2 => nullable r1 || nullable r2
  | Star _ => true
  end.

Fixpoint deriv (u : N) (r : regex) : regex :=
  match r with
  | Void => Void
  | Eps => Void
  | Class p => if p u then Eps else Void
  | Cat r1 r2 =>
      if nullable r1
      then Alt (Cat (deriv u r1) r2) (deriv u r2)
      else Cat (deriv u r1) r2
  | Alt r1 r2 => Alt (deriv u r1) (deriv u r2)
  | Star r1 => Cat (deriv u r1) (Star r1)
  end.

Fixpoint matchUnits (r : regex) (units : list N) : bool :=
  match units with
  | [] => nullable r
  | u :: rest => matchUnits (deriv u r) rest
  end.

(** [r.test(s)] *)
Definition test (r : regex) (s : string) : bool :=
  matchUnits r (JSString.codeUnits s).

(** The class [[^\s@]]. *)
Definition notSpaceAt (u : N) : bool :=
  negb (JSString.isSpace u) && negb (N.eqb u (N_of_ascii "@")).

(** [/^[^\s@]+@[^\s@]+\.[^\s@]+$/] *)
Definition emailRegex : regex :=
  Cat (Plus (Class notSpaceAt))
    (Cat (Chr "@")
       (Cat (Plus (Class notSpaceAt))
          (Cat (Chr ".") (Plus (Class notSpaceAt))))).

End RegExp.

Arguments RegExp.test : simpl never.
Arguments JSString.length : simpl never.

(** ** [JSON.parse]

    The grammar of ECMA-404 as [JSON.parse] accepts it.  [None] stands for
    the [SyntaxError] that [JSON.parse] throws.  A number keeps its lexeme:
    no caller in the service looks into it. *)

Module JSON.

#[warnings="-register-all"] Inductive value : Type :=
| JNull : value
| JBool (b : bool) : value
| JNumber (lexeme : string) : value
| JString (s : string) : value
| JArray (items : list value) : value
| JObject (members : list (string * value)) : value.

Definition quote : ascii := ascii_of_nat 34.
Definition backslash : ascii := ascii_of_nat 92.

(** JSON white space: SPACE, TAB, LF, CR. *)
Definition isWs (c : ascii) : bool :=
  let n := nat_of_ascii c in
  Nat.eqb n 32 || Nat.eqb n 9 || Nat.eqb n 10 || Nat.eqb n 13.

Fixpoint skip_ws (s : string) : string :=
  match s with
  | String c r => if isWs c then skip_ws r else s
  | EmptyString => EmptyString
  end.

Fixpoint span_digits (s : string) : string * string :=
  match s with
  | String c r =>
      if JSString.isDigit c
      then let (d, rest) := span_digits r in (String c d, rest)
      else (EmptyString, s)
  | EmptyString => (EmptyString, EmptyString)
  end.

(** [int]: a single [0], or a non-zero digit followed by digits. *)
Definition parse_int (s : string) : option (string * string) :=
  match s with
  | String c r =>
      if Ascii.eqb c "0" then Some ("0", r)
      else if JSString.isDigit c
           then let (d, rest) := span_digits r in Some (String c d, rest)
           else None
  | EmptyString => None
  end.

Definition parse_frac (s : string) : option (string * string) :=
  match s with
  | String c r =>
      if Ascii.eqb c "."
      then match span_digits r with
           | (EmptyString, _) => None
           | (d, rest) => Some (String c d, rest)
           end
      else Some (EmptyString, s)
  | EmptyString => Some (EmptyString, s)
  end.

Definition parse_exp (s : string) : option (string * string) :=
  match s with
  | String c r =>
      if Ascii.eqb c "e" || Ascii.eqb c "E"
      then let (sign, r1) :=
             match r with
             | String c1 r1 =>
                 if Ascii.eqb c1 "+" || Ascii.eqb c1 "-"
                 then (String c1 EmptyString, r1) else (EmptyString, r)
             | EmptyString => (EmptyString, r)
             end in
           match span_digits r1 with
           | (EmptyString, _) => None
           | (d, rest) => Some (String c (sign +:+ d), rest)
           end
      else Some (EmptyString, s)
  | EmptyString => Some (EmptyString, s)
  end.

Definition parse_number (s : string) : option (string * string) :=
  let (sign, s1) :=
    match s with
    | String c r => if Ascii.eqb c "-" then ("-", r) else (EmptyString, s)
    | EmptyString => (EmptyString, s)
    end in
  match parse_int s1 with
  | None => None
  | Some (i, s2) =>
      match parse_frac s2 with
      | None => None
      | Some (f, s3) =>
          match parse_exp s3 with
          | None => None
          | Some (e, s4) => Some (sign +:+ i +:+ f +:+ e, s4)
          end
      end
  end.

Definition hexval (c : ascii) : option N :=
  let n := N_of_ascii c in
  if (48 <=? n)%N && (n <=? 57)%N then Some (n - 48)%N
  else if (97 <=? n)%N && (n <=? 102)%N then Some (n - 87)%N
  else if (65 <=? n)%N && (n <=? 70)%N then Some (n - 55)%N
  else None.

Definition hex4 (a b c d : ascii) : option N :=
  match hexval a, hexval b, hexval c, hexval d with
  | Some x, Some y, Some z, Some w => Some (((x * 16 + y) * 16 + z) * 16 + w)%N
  | _, _, _, _ => None
  end.

(** The characters of a string literal before they are joined: a byte of
    the source, or a UTF-16 code unit written as [\uXXXX]. *)
Inductive piece : Type :=
| Raw (c : ascii)
| Unit16 (u : N).

(** The body of a string literal, after its opening quote. *)
Fixpoint parse_chars (s : string) : option (list piece * string) :=
  match s with
  | EmptyString => None
  | String c r =>
      if Ascii.eqb c quote then Some ([], r)
      else if Ascii.eqb c backslash then
        match r with
        | String e r1 =>
            let simple (p : ascii) :=
              match parse_chars r1 with
              | Some (ps, rest) => Some (Raw p :: ps, rest)
              | None => None
              end in
            if Ascii.eqb e quote then simple quote
            else if Ascii.eqb e backslash then simple backslash
            else if Ascii.eqb e "/" then simple "/"%char
            else if Ascii.eqb e "b" then simple (ascii_of_nat 8)
            else if Ascii.eqb e "f" then simple (ascii_of_nat 12)
            else if Ascii.eqb e "n" then simple (ascii_of_nat 10)
            else if Ascii.eqb e "r" then simple (ascii_of_nat 13)
            else if Ascii.eqb e "t" then simple (ascii_of_nat 9)
            else if Ascii.eqb e "u" then
              match r1 with
              | String h1 (String h2 (String h3 (String h4 r2))) =>
                  match hex4 h1 h2 h3 h4, parse_chars r2 with
                  | Some u, Some (ps, rest) => Some (Unit16 u :: ps, rest)
                  | _, _ => None
                  end
              | _ => None
              end
            else None
        | EmptyString => None
        end
      else if Nat.ltb (nat_of_ascii c) 32 then None
      else match parse_chars r with
           | Some (ps, rest) => Some (Raw c :: ps, rest)
           | None => None
           end
  end.

Definition byte (n : N) : ascii := ascii_of_N n.

(** UTF-8 of a code point (a lone surrogate is encoded like any other
    three-byte code point). *)
Definition utf8 (cp : N) : list ascii :=
  if (cp <? 128)%N then [byte cp]
  else if (cp <? 2048)%N then
    [byte (192 + cp / 64); byte (128 + cp mod 64)]
  else if (cp <? 65536)%N then
    [byte (224 + cp / 4096); byte (128 + (cp / 64) mod 64);
     byte (128 + cp mod 64)]
  else
    [byte (240 + cp / 262144); byte (128 + (cp / 4096) mod 64);
     byte (128 + (cp / 64) mod 64); byte (128 + cp mod 64)].

Definition isHighSurrogate (u : N) : bool := (55296 <=? u)%N && (u <=? 56319)%N.
Definition isLowSurrogate (u : N) : bool := (56320 <=? u)%N && (u <=? 57343)%N.

Fixpoint join (ps : list piece) : list ascii :=
  match ps with
  | [] => []
  | Raw c :: r => c :: join r
  | Unit16 hi :: r =>
      match r with
      | Unit16 lo :: r' =>
          if isHighSurrogate hi && isLowSurrogate lo
          then utf8 (65536 + (hi - 55296) * 1024 + (lo - 56320)) ++ join r'
          else utf8 hi ++ join r
      | _ => utf8 hi ++ join r
      end
  end.

Definition parse_string (s : string) : option (string * string) :=
  match parse_chars s with
  | Some (ps, rest) => Some (string_of_list_ascii (join ps), rest)
  | None => None
  end.

Definition parse_literal (lit : string) (v : value) (s : string)
  : option (value * string) :=
  if String.prefix lit s
  then Some (v, String.substring (String.length lit)
                  (String.length s - String.length lit) s)
  else None.

(** One value, with the white space before it.  The fuel bounds the
    number of nested calls; [parse] gives enough of it for any input,
    since two successive calls are at least one character apart. *)
Fixpoint parse_value (fuel : nat) (s : string) : option (value * string) :=
  match fuel with
  | O => None
  | S f =>
      match skip_ws s with
      | EmptyString => None
      | String c r as s0 =>
          if Ascii.eqb c "[" then
            match skip_ws r with
            | String c1 r1 as r0 =>
                if Ascii.eqb c1 "]" then Some (JArray [], r1)
                else parse_elements f r0 []
            | EmptyString => None
            end
          else if Ascii.eqb c "{" then
            match skip_ws r with
            | String c1 r1 as r0 =>
                if Ascii.eqb c1 "}" then Some (JObject [], r1)
                else parse_members f r0 []
            | EmptyString => None
            end
          else if Ascii.eqb c quote then
            match parse_string r with
            | Some (str, rest) => Some (JString str, rest)
            | None => None
            end
          else if Ascii.eqb c "t" then parse_literal "true" (JBool true) s0
          else if Ascii.eqb c "f" then parse_literal "false" (JBool false) s0
          else if Ascii.eqb c "n" then parse_literal "null" JNull s0
          else match parse_number s0 with
               | Some (lexeme, rest) => Some (JNumber lexeme, rest)
               | None => None
               end
      end
  end
with parse_elements (fuel : nat) (s : string) (acc : list value)
  : option (value * string) :=
  match fuel with
  | O => None
  | S f =>
      match parse_value f s with
      | None => None
      | Some (v, r) =>
          match skip_ws r with
          | String c r1 =>
              if Ascii.eqb c "," then parse_elements f r1 (v :: acc)
              else if Ascii.eqb c "]" then Some (JArray (rev (v :: acc)), r1)
              else None
          | EmptyString => None
          end
      end
  end
with parse_members (fuel : nat) (s : string) (acc : list (string * value))
  : option (value * string) :=
  match fuel with
  | O => None
  | S f =>
      match skip_ws s with
      | String c r =>
          if Ascii.eqb c quote then
            match parse_string r with
            | None => None
            | Some (key, r1) =>
                match skip_ws r1 with
                | String c2 r2 =>
                    if Ascii.eqb c2 ":" then
                      match parse_value f r2 with
                      | None => None
                      | Some (v, r3) =>
                          match skip_ws r3 with
                          | String c4 r4 =>
                              if Ascii.eqb c4 ","
                              then parse_members f r4 ((key, v) :: acc)
                              else if Ascii.eqb c4 "}"
                                   then Some (JObject (rev ((key, v) :: acc)), r4)
                                   else None
                          | EmptyString => None
                          end
                      end
                    else None
                | EmptyString => None
                end
            end
          else None
      | EmptyString => None
      end
  end.

(** [JSON.parse(s)]: one value between optional white space. *)
Definition parse (s : string) : option value :=
  match parse_value (2 * String.length s + 2) s with
  | Some (v, rest) =>
      match skip_ws rest with
      | EmptyString => Some v
      | _ => None
      end
  | None => None
  end.

End JSON.

Definition colorsJson : string :=
  "[" +:+ String JSON.quote "red" +:+ String JSON.quote ", "
  +:+ String JSON.quote "blue" +:+ String JSON.quote " ]".

(** ** [parseInt]

    [parseInt(s)] with no radix: leading white space, an optional sign, an
    optional [0x] prefix, then the longest run of digits.  [None] is [NaN]. *)

Module JSParseInt.

Definition digitOf (radix : N) (c : ascii) : option N :=
  match JSON.hexval c with
  | Some d => if (d <? radix)%N then Some d else None
  | None => None
  end.

Fixpoint digits (radix : N) (s : string) (acc : option N) : option N :=
  match s with
  | String c r =>
      match digitOf radix c with
      | Some d =>
          digits radix r
            (Some (match acc with Some a => a * radix + d | None => d end)%N)
      | None => acc
      end
  | EmptyString => acc
  end.

Definition unsigned (s : string) : option N :=
  match s with
  | String z (String x r) =>
      if Ascii.eqb z "0" && (Ascii.eqb x "x" || Ascii.eqb x "X")
      then digits 16 r None
      else digits 10 s None
  | _ => digits 10 s None
  end.

Definition parseInt (s : string) : option Z :=
  match JSString.trimStart s with
  | String c r =>
      if Ascii.eqb c "-" then option_map (fun n => (- Z.of_N n)%Z) (unsigned r)
      else if Ascii.eqb c "+" then option_map Z.of_N (unsigned r)
      else option_map Z.of_N (unsigned (String c r))
  | EmptyString => None
  end.

End JSParseInt.

(** ** JavaScript numbers

    A [number] is an IEEE double and a [decimal] is what the ORM returns for
    a [DECIMAL(10,2)] column.  The service only adds, multiplies, rounds and
    tests numbers, so the development is parametric in the arithmetic:
    every statement below holds for whatever these operations compute,
    rounding errors of doubles included. *)

Class JSNumber : Type := {
  number : Type;
  decimal : Type;
  (** the literals [0] and [100] *)
  zero : number;
  hundred : number;
  (** [x + y] and [x * y] *)
  add : number -> number -> number;
  mul : number -> number -> number;
  (** [Math.round(x)] *)
  Math_round : number -> number;
  (** [!x]: zero and [NaN] *)
  falsy : number -> bool;
  (** [x <= 0] *)
  leq_zero : number -> bool;
  (** [Number(d)] *)
  Number : decimal -> number;
  (** the value the ORM stores in a decimal column for [x] *)
  toDecimal : number -> decimal
}.

(** Whole numbers, which doubles represent exactly below 2^53. *)
Definition ZNumber : JSNumber := {|
  number := Z;
  decimal := Z;
  zero := 0%Z;
  hundred := 100%Z;
  add := Z.add;
  mul := Z.mul;
  Math_round := fun x => x;
  falsy := fun x => Z.eqb x 0;
  leq_zero := fun x => Z.leb x 0;
  Number := fun d => d;
  toDecimal := fun x => x
|}.

(** ** Exceptions and outcomes

    [ValidationError] is the class of [shared/exceptions], [Error] is
    [new Error(message)], [SyntaxError] and [TypeError] are what
    [JSON.parse] and a call of a missing method throw, [PrismaClientError]
    is a rejection of a request by the ORM client, known by its message,
    [PrismaClientValidationError] is the client's rejection of an argument
    before the database is asked and [DatabaseError] an error of the database
    that the client passes on (the text of these two is not modelled), and
    [CollaboratorError] is a failure of the gateway or of the e-mail
    service. *)

Inductive exn : Type :=
| ValidationError (message : string)
| Error (message : string)
| SyntaxError
| TypeError
| PrismaClientError (message : string)
| PrismaClientValidationError
| DatabaseError
| CollaboratorError (message : string).

Inductive Result (A : Type) : Type :=
| Ok (a : A)
| Err (e : exn).
Arguments Ok {A} a.
Arguments Err {A} e.

Definition isValidationError {A : Type} (r : Result A) : bool :=
  match r with
  | Err (ValidationError _) => true
  | _ => false
  end.

Definition isError {A : Type} (r : Result A) : bool :=
  match r with
  | Err (Error _) => true
  | _ => false
  end.

Definition failed {A : Type} (r : Result A) : bool :=
  match r with
  | Err _ => true
  | Ok _ => false
  end.

(** ** Data model *)

(** The [colors] of a product as the product data source returns it:
    [string | string[]] in [ProductForValidation], a nullable text column
    in the table. *)
Inductive Colors : Type :=
| ColorsNull
| ColorsText (s : string)
| ColorsList (l : list string).

Module Product.
Section Fields.
Context {num : JSNumber}.
Record t : Type := mk {
  id : Z;
  name : string;
  description : string;
  price : decimal;
  images : string;
  categoryId : Z;
  status : string;
  colors : Colors
}.
End Fields.
End Product.

Module CartItem.
Section Fields.
Context {num : JSNumber}.
Record t : Type := mk {
  productId : Z;
  quantity : number;
  selectedColor : option string
}.
End Fields.
End CartItem.

Module CreatePurchaseRequest.
Section Fields.
Context {num : JSNumber}.
Record t : Type := mk {
  buyerEmail : string;
  buyerName : string;
  buyerIdentificationNumber : string;
  buyerContactNumber : string;
  shippingAddress : option string;
  items : list CartItem.t
}.
End Fields.
End CreatePurchaseRequest.

Module ValidatedCartItem.
Section Fields.
Context {num : JSNumber}.
Record t : Type := mk {
  item : CartItem.t;
  product : Product.t;
  unitPrice : number;
  totalPrice : number
}.
Definition productId (v : t) : Z := CartItem.productId (item v).
Definition quantity (v : t) : number := CartItem.quantity (item v).
Definition selectedColor (v : t) : option string := CartItem.selectedColor (item v).
End Fields.
End ValidatedCartItem.

(** Modelled from the spec: the declaration of the [purchases] table is not
    among the sources; a row has the fields of the spec's data model, which
    are the fields the service reads and writes. *)
Module Purchase.
Section Fields.
Context {num : JSNumber}.
Record t : Type := mk {
  id : Z;
  buyerEmail : string;
  buyerName : string;
  buyerIdentificationNumber : string;
  buyerContactNumber : option string;
  shippingAddress : option string;
  status : string;
  orderStatus : string;
  amount : number;
  currency : string;
  paymentProvider : string;
  externalReference : string;
  preferenceId : string;
  wompiTransactionId : option string;
  mercadopagoPaymentId : option string;
  createdAt : N;
  updatedAt : N
}.

(** The [data] of [prisma.purchase.create] as [createPurchase] gives it;
    the table supplies [id], [createdAt] and [updatedAt]. *)
Record CreateInput : Type := mkCreate {
  new_buyerEmail : string;
  new_buyerName : string;
  new_buyerIdentificationNumber : string;
  new_buyerContactNumber : string;
  new_shippingAddress : option string;
  new_status : string;
  new_orderStatus : string;
  new_amount : number;
  new_currency : string;
  new_paymentProvider : string;
  new_externalReference : string;
  new_preferenceId : string
}.

(** The [data] of [prisma.purchase.update]: a field left out is kept. *)
Record UpdateInput : Type := mkUpdate {
  set_status : option string;
  set_preferenceId : option string;
  set_wompiTransactionId : option string;
  set_updatedAt : option N;
  set_buyerEmail : option string;
  set_buyerName : option string;
  set_buyerContactNumber : option string
}.

Definition noUpdate : UpdateInput := mkUpdate None None None None None None None.

Definition apply (d : UpdateInput) (p : t) : t :=
  {| id := id p;
     buyerEmail := default (buyerEmail p) (set_buyerEmail d);
     buyerName := default (buyerName p) (set_buyerName d);
     buyerIdentificationNumber := buyerIdentificationNumber p;
     buyerContactNumber :=
       match set_buyerContactNumber d with
       | Some c => Some c
       | None => buyerContactNumber p
       end;
     shippingAddress := shippingAddress p;
     status := default (status p) (set_status d);
     orderStatus := orderStatus p;
     amount := amount p;
     currency := currency p;
     paymentProvider := paymentProvider p;
     externalReference := externalReference p;
     preferenceId := default (preferenceId p) (set_preferenceId d);
     wompiTransactionId :=
       match set_wompiTransactionId d with
       | Some x => Some x
       | None => wompiTransactionId p
       end;
     mercadopagoPaymentId := mercadopagoPaymentId p;
     createdAt := createdAt p;
     updatedAt := default (updatedAt p) (set_updatedAt d) |}.
End Fields.
End Purchase.

(** A row of the [order_details] table. *)
Module OrderDetail.
Section Fields.
Context {num : JSNumber}.
Record t : Type := mk {
  id : Z;
  purchaseId : Z;
  productId : Z;
  quantity : number;
  unitPrice : decimal;
  totalPrice : decimal;
  selectedColor : option string
}.

(** [Omit<OrderDetail, 'id'>], the argument of the data source's [create]. *)
Record CreateInput : Type := mkCreate {
  new_purchaseId : Z;
  new_productId : Z;
  new_quantity : number;
  new_unitPrice : number;
  new_totalPrice : number;
  new_selectedColor : option string
}.
End Fields.
End OrderDetail.

(** The argument and the result of the gateway's [createPayment]. *)
Module Payment.
Section Fields.
Context {num : JSNumber}.
Record Request : Type := mkRequest {
  wallpaperNumbers : list Z;
  amount : number;
  buyerEmail : string;
  buyerName : string;
  buyerIdentificationNumber : string;
  buyerContactNumber : string
}.
Record Session : Type := mkSession {
  transactionId : string;
  paymentUrl : string
}.
End Fields.
End Payment.

(** A line of a response: [items] of [CreatePurchaseResponse] and of
    [FormattedPurchase]. *)
Module Line.
Section Fields.
Context {num : JSNumber}.
Record t : Type := mk {
  productId : Z;
  productName : string;
  quantity : number;
  unitPrice : number;
  totalPrice : number;
  selectedColor : option string
}.
End Fields.
End Line.

Module CreatePurchaseResponse.
Section Fields.
Context {num : JSNumber}.
Record t : Type := mk {
  purchaseId : Z;
  wompiTransactionId : string;
  paymentUrl : string;
  totalAmount : number;
  items : list Line.t
}.
End Fields.
End CreatePurchaseResponse.

Module FormattedPurchase.
Section Fields.
Context {num : JSNumber}.
Record t : Type := mk {
  id : Z;
  buyerEmail : string;
  buyerName : string;
  buyerContactNumber : option string;
  status : string;
  orderStatus : string;
  amount : number;
  currency : string;
  mercadopagoPaymentId : option string;
  wallpaperNumbers : list Z;
  items : list Line.t;
  createdAt : N;
  updatedAt : N
}.
End Fields.
End FormattedPurchase.

Module PurchaseStatistics.
Section Fields.
Context {num : JSNumber}.
Record t : Type := mk {
  totalPurchases : nat;
  approvedCount : nat;
  completedCount : nat;
  pendingCount : nat;
  cancelledCount : nat;
  rejectedCount : nat;
  failedCount : nat;
  totalRevenue : number;
  uniqueProductsSold : nat
}.
End Fields.
End PurchaseStatistics.

(** The payload of [sendPaymentConfirmationEmail]. *)
Module EmailData.
Section Fields.
Context {num : JSNumber}.
Record item : Type := mkItem {
  productName : string;
  quantity : number;
  unitPrice : number;
  totalPrice : number
}.
Record t : Type := mk {
  buyerEmail : string;
  buyerName : string;
  buyerContactNumber : string;
  items : list item;
  totalAmount : number;
  currency : string;
  status : string;
  paymentId : string;
  purchaseDate : N
}.
End Fields.
End EmailData.

Module UpdatePurchaseData.
Record t : Type := mk {
  buyerEmail : option string;
  buyerName : option string;
  buyerContactNumber : option string
}.
End UpdatePurchaseData.

(** The optional third argument of [updatePaymentStatus]. *)
Module PaymentData.
Record t : Type := mk {
  externalReference : option string
}.
End PaymentData.

(** ** The world: tables, collaborators, clock and random source *)

Module World.
Section Fields.
Context {num : JSNumber}.
Record t : Type := mk {
  (** the tables, rows in insertion order, and their id sequences *)
  purchases : list Purchase.t;
  orderDetails : list OrderDetail.t;
  products : list Product.t;
  purchaseSeq : Z;
  orderDetailSeq : Z;
  (** every call made to the gateway's [createPayment] and to the e-mail
      service's [sendPaymentConfirmationEmail], in order *)
  gatewayCalls : list Payment.Request;
  emailsSent : list EmailData.t;
  (** what the two collaborators answer *)
  wompi : Payment.Request -> Result Payment.Session;
  mailer : EmailData.t -> Result unit;
  (** [Date.now()], in milliseconds since the epoch *)
  now : N;
  (** the digits d1 .. dk that [Math.random().toString(36)] prints after
      [0.] for the number drawn; none when the number drawn is 0 *)
  random36 : list nat
}.

Definition with_purchases (rows : list Purchase.t) (seq : Z) (w : t) : t :=
  mk rows (orderDetails w) (products w) seq (orderDetailSeq w)
     (gatewayCalls w) (emailsSent w) (wompi w) (mailer w) (now w) (random36 w).

Definition with_orderDetails (rows : list OrderDetail.t) (seq : Z) (w : t) : t :=
  mk (purchases w) rows (products w) (purchaseSeq w) seq
     (gatewayCalls w) (emailsSent w) (wompi w) (mailer w) (now w) (random36 w).

Definition with_gatewayCalls (calls : list Payment.Request) (w : t) : t :=
  mk (purchases w) (orderDetails w) (products w) (purchaseSeq w) (orderDetailSeq w)
     calls (emailsSent w) (wompi w) (mailer w) (now w) (random36 w).

Definition with_emailsSent (sent : list EmailData.t) (w : t) : t :=
  mk (purchases w) (orderDetails w) (products w) (purchaseSeq w) (orderDetailSeq w)
     (gatewayCalls w) sent (wompi w) (mailer w) (now w) (random36 w).
End Fields.
End World.

(** ** Computations: state and exceptions *)

Section Monad.
Context {num : JSNumber}.

Definition M (A : Type) : Type := World.t -> Result A * World.t.

Definition ret {A : Type} (a : A) : M A := fun w => (Ok a, w).

Definition throw {A : Type} (e : exn) : M A := fun w => (Err e, w).

Definition bind {A B : Type} (m : M A) (k : A -> M B) : M B :=
  fun w =>
    match m w with
    | (Ok a, w') => k a w'
    | (Err e, w') => (Err e, w')
    end.

Definition lift {A : Type} (r : Result A) : M A := fun w => (r, w).

Definition gets {A : Type} (f : World.t -> A) : M A := fun w => (Ok (f w), w).

Fixpoint forEach {A : Type} (body : A -> M unit) (l : list A) : M unit :=
  match l with
  | [] => ret tt
  | x :: rest => bind (body x) (fun _ => forEach body rest)
  end.

End Monad.

Notation "'let*' x ':=' m 'in' k" := (bind m (fun x => k))
  (at level 10, x name, m at level 100, k at level 200).
Notation "'do' m 'then' k" := (bind m (fun _ => k))
  (at level 10, m at level 100, k at level 200).

(** ** The ORM and the collaborators

    A table is the list of its rows in insertion order.  [findUnique]
    returns the row with the id, [findMany] sorts the matching rows as
    [orderBy] says (by a merge sort; the database leaves the order of rows
    with equal keys open), [create] appends a row and [update] rewrites the
    rows with the given id.  [findFirst] has no [orderBy] in the service:
    the database returns one of the matching rows, and which one is its
    choice; here it is the first in the table, and the statements about
    [findFirst] hold for whichever matching row is returned.  A write
    succeeds when the row exists: the constraints of the schema and the
    ranges of the columns are not modelled for writes. *)

Module Prisma.
Section Ops.
Context {num : JSNumber}.

(** [where: { id }] *)
Definition hasId (i : Z) (p : Purchase.t) : bool := Z.eqb (Purchase.id p) i.

(** The row that [create({ data })] adds: the table gives it the next id
    of the sequence and the current time as [createdAt] and [updatedAt]. *)
Definition newRow (d : Purchase.CreateInput) (w : World.t) : Purchase.t :=
  {| Purchase.id := World.purchaseSeq w;
     Purchase.buyerEmail := Purchase.new_buyerEmail d;
     Purchase.buyerName := Purchase.new_buyerName d;
     Purchase.buyerIdentificationNumber := Purchase.new_buyerIdentificationNumber d;
     Purchase.buyerContactNumber := Some (Purchase.new_buyerContactNumber d);
     Purchase.shippingAddress := Purchase.new_shippingAddress d;
     Purchase.status := Purchase.new_status d;
     Purchase.orderStatus := Purchase.new_orderStatus d;
     Purchase.amount := Purchase.new_amount d;
     Purchase.currency := Purchase.new_currency d;
     Purchase.paymentProvider := Purchase.new_paymentProvider d;
     Purchase.externalReference := Purchase.new_externalReference d;
     Purchase.preferenceId := Purchase.new_preferenceId d;
     Purchase.wompiTransactionId := None;
     Purchase.mercadopagoPaymentId := None;
     Purchase.createdAt := World.now w;
     Purchase.updatedAt := World.now w |}.

Definition purchase_create (d : Purchase.CreateInput) : M Purchase.t :=
  fun w =>
    (Ok (newRow d w),
     World.with_purchases (World.purchases w ++ [newRow d w]) (World.purchaseSeq w + 1) w).

(** The rows of the table after [update({ where: { id }, data })]. *)
Definition updated (i : Z) (d : Purchase.UpdateInput) (rows : list Purchase.t)
  : list Purchase.t :=
  map (fun q => if hasId i q then Purchase.apply d q else q) rows.

Definition purchase_update (i : Z) (d : Purchase.UpdateInput) : M Purchase.t :=
  fun w =>
    match find (hasId i) (World.purchases w) with
    | None => (Err (PrismaClientError "Record to update not found."), w)
    | Some p =>
        (Ok (Purchase.apply d p),
         World.with_purchases (updated i d (World.purchases w)) (World.purchaseSeq w) w)
    end.

Definition purchase_findFirst (where_ : Purchase.t -> bool) : M (option Purchase.t) :=
  gets (fun w => find where_ (World.purchases w)).

(** The values of an [INTEGER] column, as [id] is. *)
Definition int4 (i : Z) : bool := Z.leb (-2147483648) i && Z.leb i 2147483647.

(** [findUnique({ where: { id } })].  The client rejects [NaN] before the
    database is asked, and the database rejects an id that is no value of
    the column, which no row of a table has. *)
Definition purchase_findUnique (i : option Z) : M (option Purchase.t) :=
  match i with
  | Some i =>
      fun w =>
        match find (hasId i) (World.purchases w) with
        | Some p => (Ok (Some p), w)
        | None => if int4 i then (Ok None, w) else (Err DatabaseError, w)
        end
  | None => throw PrismaClientValidationError
  end.

(** [orderBy: { updatedAt: 'desc' }] and [orderBy: { createdAt: 'desc' }] *)
Definition byUpdatedAtDesc (a b : Purchase.t) : Prop :=
  (Purchase.updatedAt b <= Purchase.updatedAt a)%N.

Definition byCreatedAtDesc (a b : Purchase.t) : Prop :=
  (Purchase.createdAt b <= Purchase.createdAt a)%N.

#[global] Instance byUpdatedAtDesc_dec : RelDecision byUpdatedAtDesc.
Proof. intros a b. unfold byUpdatedAtDesc. apply _. Defined.

#[global] Instance byCreatedAtDesc_dec : RelDecision byCreatedAtDesc.
Proof. intros a b. unfold byCreatedAtDesc. apply _. Defined.

Definition purchase_findMany (where_ : Purchase.t -> bool)
  (orderBy : relation Purchase.t) `{!RelDecision orderBy} : M (list Purchase.t) :=
  gets (fun w => merge_sort orderBy (List.filter where_ (World.purchases w))).

(** [include: { orderDetails: { include: { product } } }]: the line items
    of a purchase, each with its product when the product row exists. *)
Definition productOf (w : World.t) (d : OrderDetail.t) : option Product.t :=
  find (fun p => Z.eqb (Product.id p) (OrderDetail.productId d)) (World.products w).

Definition orderDetailsOf (w : World.t) (p : Purchase.t)
  : list (OrderDetail.t * option Product.t) :=
  map (fun d => (d, productOf w d))
    (List.filter (fun d => Z.eqb (OrderDetail.purchaseId d) (Purchase.id p))
       (World.orderDetails w)).

Definition includeOrderDetails (ps : list Purchase.t)
  : M (list (Purchase.t * list (OrderDetail.t * option Product.t))) :=
  gets (fun w => map (fun p => (p, orderDetailsOf w p)) ps).

Definition orderDetail_create (d : OrderDetail.CreateInput)
  : M (OrderDetail.t * option Product.t) :=
  fun w =>
    let row :=
      {| OrderDetail.id := World.orderDetailSeq w;
         OrderDetail.purchaseId := OrderDetail.new_purchaseId d;
         OrderDetail.productId := OrderDetail.new_productId d;
         OrderDetail.quantity := OrderDetail.new_quantity d;
         OrderDetail.unitPrice := toDecimal (OrderDetail.new_unitPrice d);
         OrderDetail.totalPrice := toDecimal (OrderDetail.new_totalPrice d);
         OrderDetail.selectedColor := OrderDetail.new_selectedColor d |} in
    (Ok (row, productOf w row),
     World.with_orderDetails (World.orderDetails w ++ [row]) (World.orderDetailSeq w + 1) w).

End Ops.
End Prisma.

Module ProductDataSource.
Section Ops.
Context {num : JSNumber}.
(** Modelled from the spec: the product data source behind
    [IProductDataSource] is not among the sources; its contract is
    [getById(id) -> Product|null], here the product of the table with that
    id, if any. *)
Definition getById (catalog : list Product.t) (i : Z) : option Product.t :=
  find (fun p => Z.eqb (Product.id p) i) catalog.
End Ops.
End ProductDataSource.

(** [OrderDetailPrismaAdapter], the order-detail data source. *)
Module OrderDetailPrismaAdapter.
Section Ops.
Context {num : JSNumber}.

(** The domain entity: the row with its prices as numbers, and the product
    with its images parsed. *)
Record entity : Type := mkEntity {
  row : OrderDetail.t;
  unitPrice : number;
  totalPrice : number;
  product : option (Product.t * JSON.value)
}.

Definition mapToOrderDetail (r : OrderDetail.t * option Product.t) : Result entity :=
  let (d, p) := r in
  let unit := Number (OrderDetail.unitPrice d) in
  let total := Number (OrderDetail.totalPrice d) in
  match p with
  | Some prod =>
      match JSON.parse (Product.images prod) with
      | Some imgs => Ok (mkEntity d unit total (Some (prod, imgs)))
      | None => Err SyntaxError
      end
  | None => Ok (mkEntity d unit total None)
  end.

Definition create (d : OrderDetail.CreateInput) : M entity :=
  let* r := Prisma.orderDetail_create d in
  lift (mapToOrderDetail r).

End Ops.
End OrderDetailPrismaAdapter.

Module WompiService.
Section Ops.
Context {num : JSNumber}.
(** Modelled from the spec: the gateway client is not among the sources; it
    creates a payment session and returns a transaction identifier and a
    redirect URL, or fails.  The world holds its answers and a log of the
    calls made to it. *)
Definition createPayment (r : Payment.Request) : M Payment.Session :=
  fun w => (World.wompi w r, World.with_gatewayCalls (World.gatewayCalls w ++ [r]) w).
End Ops.
End WompiService.

Module EmailService.
Section Ops.
Context {num : JSNumber}.
(** Modelled from the spec: the e-mail service ([getEmailService] of
    [shared/serviceProvider]) is not among the sources; its contract is
    [sendPaymentConfirmationEmail(payload)], which may fail.  The world
    holds its answers and a log of the calls made to it; loading the module
    and getting the service do not fail. *)
Definition sendPaymentConfirmationEmail (d : EmailData.t) : M unit :=
  fun w => (World.mailer w d, World.with_emailsSent (World.emailsSent w ++ [d]) w).
End Ops.
End EmailService.

(** ** [PurchaseService] *)

Module PurchaseService.
Section Service.
Context {num : JSNumber}.

Definition validatePurchaseRequest (request : CreatePurchaseRequest.t) : Result unit :=
  if Nat.eqb (List.length (CreatePurchaseRequest.items request)) 0
  then Err (ValidationError "At least one item is required")
  else if negb (RegExp.test RegExp.emailRegex (CreatePurchaseRequest.buyerEmail request))
  then Err (ValidationError "Invalid email format")
  else if negb (JSString.truthy (CreatePurchaseRequest.buyerName request))
          || Nat.ltb (JSString.length (JSString.trim (CreatePurchaseRequest.buyerName request))) 2
  then Err (ValidationError "Buyer name must be at least 2 characters long")
  else if negb (JSString.truthy (CreatePurchaseRequest.buyerIdentificationNumber request))
          || Nat.ltb (JSString.length (CreatePurchaseRequest.buyerIdentificationNumber request)) 6
  then Err (ValidationError "Identification number must be at least 6 characters long")
  else if negb (JSString.truthy (CreatePurchaseRequest.buyerContactNumber request))
          || Nat.ltb (JSString.length (CreatePurchaseRequest.buyerContactNumber request)) 10
  then Err (ValidationError "Contact number must be at least 10 characters long")
  else Ok tt.

(** [typeof product.colors === 'string' ? product.colors : '[]'] *)
Definition colorsString (c : Colors) : string :=
  match c with
  | ColorsText s => s
  | _ => "[]"
  end.

(** [x.includes(selected)] for [x] a parsed JSON value: membership in an
    array, substring of a string, and no such method on anything else. *)
Definition includes (x : JSON.value) (selected : string) : Result bool :=
  match x with
  | JSON.JArray l =>
      Ok (existsb (fun v => match v with
                            | JSON.JString s => String.eqb s selected
                            | _ => false
                            end) l)
  | JSON.JString s => Ok (JSString.includes s selected)
  | _ => Err TypeError
  end.

(** [JSON.parse(colorsString).includes(selected)] *)
Definition availableColorsInclude (c : Colors) (selected : string) : Result bool :=
  match JSON.parse (colorsString c) with
  | None => Err SyntaxError
  | Some availableColors => includes availableColors selected
  end.

(** The body of the loop of [validateAndCalculateItems]. *)
Definition validateItem (catalog : list Product.t) (item : CartItem.t)
  : Result ValidatedCartItem.t :=
  if falsy (CartItem.quantity item) || leq_zero (CartItem.quantity item)
  then Err (ValidationError
              ("Quantity must be greater than 0 for product "
               +:+ JSString.ofZ (CartItem.productId item)))
  else
    match ProductDataSource.getById catalog (CartItem.productId item) with
    | None =>
        Err (ValidationError
               ("Product " +:+ JSString.ofZ (CartItem.productId item) +:+ " not found"))
    | Some product =>
        if negb (String.eqb (Product.status product) "available")
        then Err (ValidationError
                    ("Product " +:+ Product.name product +:+ " is not available"))
        else
          let unitPrice := Number (Product.price product) in
          let totalPrice := mul unitPrice (CartItem.quantity item) in
          let validated := ValidatedCartItem.mk item product unitPrice totalPrice in
          match CartItem.selectedColor item with
          | Some color =>
              if JSString.truthy color
              then match availableColorsInclude (Product.colors product) color with
                   | Err e => Err e
                   | Ok true => Ok validated
                   | Ok false =>
                       Err (ValidationError
                              ("Color " +:+ color +:+ " not available for "
                               +:+ Product.name product))
                   end
              else Ok validated
          | None => Ok validated
          end
    end.

Fixpoint validateAndCalculateItems (catalog : list Product.t) (items : list CartItem.t)
  : Result (list ValidatedCartItem.t) :=
  match items with
  | [] => Ok []
  | item :: rest =>
      match validateItem catalog item with
      | Err e => Err e
      | Ok v =>
          match validateAndCalculateItems catalog rest with
          | Err e => Err e
          | Ok vs => Ok (v :: vs)
          end
      end
  end.

(** [validatedItems.reduce((sum, item) => sum + item.totalPrice, 0)] *)
Definition totalOf (validatedItems : list ValidatedCartItem.t) : number :=
  fold_left (fun sum item => add sum (ValidatedCartItem.totalPrice item)) validatedItems zero.

Definition digit36 (d : nat) : ascii :=
  let d := Nat.modulo d 36 in
  if Nat.ltb d 10 then ascii_of_nat (48 + d) else ascii_of_nat (87 + d).

(** [Math.random().toString(36)]: [0] for the number 0, and otherwise [0.]
    followed by the digits of the fraction in radix 36. *)
Definition Math_random_toString36 (w : World.t) : string :=
  match World.random36 w with
  | [] => "0"
  | ds => "0." +:+ string_of_list_ascii (map digit36 ds)
  end.

(** [`REF-${Date.now()}-${Math.random().toString(36).substr(2, 9)}`] *)
Definition newExternalReference (w : World.t) : string :=
  "REF-" +:+ JSString.ofN (World.now w) +:+ "-"
  +:+ JSString.substr 2 9 (Math_random_toString36 w).

Definition lineOf (item : ValidatedCartItem.t) : Line.t :=
  {| Line.productId := ValidatedCartItem.productId item;
     Line.productName := Product.name (ValidatedCartItem.product item);
     Line.quantity := ValidatedCartItem.quantity item;
     Line.unitPrice := ValidatedCartItem.unitPrice item;
     Line.totalPrice := ValidatedCartItem.totalPrice item;
     Line.selectedColor := ValidatedCartItem.selectedColor item |}.

(** The [data] of the purchase that [createPurchase] creates. *)
Definition purchaseData (request : CreatePurchaseRequest.t) (totalAmount : number)
  (externalReference : string) : Purchase.CreateInput :=
  {| Purchase.new_buyerEmail := CreatePurchaseRequest.buyerEmail request;
     Purchase.new_buyerName := CreatePurchaseRequest.buyerName request;
     Purchase.new_buyerIdentificationNumber :=
       CreatePurchaseRequest.buyerIdentificationNumber request;
     Purchase.new_buyerContactNumber := CreatePurchaseRequest.buyerContactNumber request;
     Purchase.new_shippingAddress := CreatePurchaseRequest.shippingAddress request;
     Purchase.new_status := "PENDING";
     Purchase.new_orderStatus := "PENDING";
     Purchase.new_amount := Math_round (mul totalAmount hundred);
     Purchase.new_currency := "COP";
     Purchase.new_paymentProvider := "WOMPI";
     Purchase.new_externalReference := externalReference;
     Purchase.new_preferenceId := "" |}.

(** The argument of [orderDetailDataSource.create] for a validated item. *)
Definition orderDetailOf (purchaseId : Z) (item : ValidatedCartItem.t)
  : OrderDetail.CreateInput :=
  {| OrderDetail.new_purchaseId := purchaseId;
     OrderDetail.new_productId := ValidatedCartItem.productId item;
     OrderDetail.new_quantity := ValidatedCartItem.quantity item;
     OrderDetail.new_unitPrice := ValidatedCartItem.unitPrice item;
     OrderDetail.new_totalPrice := ValidatedCartItem.totalPrice item;
     OrderDetail.new_selectedColor := ValidatedCartItem.selectedColor item |}.

(** The argument of [wompiService.createPayment]. *)
Definition paymentOf (request : CreatePurchaseRequest.t)
  (validatedItems : list ValidatedCartItem.t) (totalAmount : number) : Payment.Request :=
  {| Payment.wallpaperNumbers := map ValidatedCartItem.productId validatedItems;
     Payment.amount := totalAmount;
     Payment.buyerEmail := CreatePurchaseRequest.buyerEmail request;
     Payment.buyerName := CreatePurchaseRequest.buyerName request;
     Payment.buyerIdentificationNumber :=
       CreatePurchaseRequest.buyerIdentificationNumber request;
     Payment.buyerContactNumber := CreatePurchaseRequest.buyerContactNumber request |}.

(** [data: { preferenceId, wompiTransactionId }], both the gateway's
    transaction id *)
Definition gatewayReferenceData (transactionId : string) : Purchase.UpdateInput :=
  {| Purchase.set_status := None;
     Purchase.set_preferenceId := Some transactionId;
     Purchase.set_wompiTransactionId := Some transactionId;
     Purchase.set_updatedAt := None;
     Purchase.set_buyerEmail := None;
     Purchase.set_buyerName := None;
     Purchase.set_buyerContactNumber := None |}.

Definition createPurchase (request : CreatePurchaseRequest.t)
  : M CreatePurchaseResponse.t :=
  do lift (validatePurchaseRequest request) then
  let* validatedItems :=
    bind (gets World.products)
      (fun catalog =>
         lift (validateAndCalculateItems catalog (CreatePurchaseRequest.items request))) in
  let totalAmount := totalOf validatedItems in
  let* externalReference := gets newExternalReference in
  let* purchase :=
    Prisma.purchase_create (purchaseData request totalAmount externalReference) in
  do forEach
       (fun item =>
          do OrderDetailPrismaAdapter.create (orderDetailOf (Purchase.id purchase) item)
          then ret tt)
       validatedItems then
  let* wompiTransaction :=
    WompiService.createPayment (paymentOf request validatedItems totalAmount) in
  do Prisma.purchase_update (Purchase.id purchase)
       (gatewayReferenceData (Payment.transactionId wompiTransaction)) then
  ret {| CreatePurchaseResponse.purchaseId := Purchase.id purchase;
         CreatePurchaseResponse.wompiTransactionId := Payment.transactionId wompiTransaction;
         CreatePurchaseResponse.paymentUrl := Payment.paymentUrl wompiTransaction;
         CreatePurchaseResponse.totalAmount := totalAmount;
         CreatePurchaseResponse.items := map lineOf validatedItems |}.

(** [where: { wompiTransactionId }] and [where: { externalReference }] *)
Definition hasTransactionId (wompiTransactionId : string) (p : Purchase.t) : bool :=
  match Purchase.wompiTransactionId p with
  | Some t => String.eqb t wompiTransactionId
  | None => false
  end.

Definition hasExternalReference (reference : string) (p : Purchase.t) : bool :=
  String.eqb (Purchase.externalReference p) reference.

(** [paymentData?.externalReference] *)
Definition referenceOf (paymentData : option PaymentData.t) : option string :=
  match paymentData with
  | Some d => PaymentData.externalReference d
  | None => None
  end.

(** [data: { status, wompiTransactionId, updatedAt: new Date() }] *)
Definition paymentStatusData (wompiTransactionId status : string) (today : N)
  : Purchase.UpdateInput :=
  {| Purchase.set_status := Some status;
     Purchase.set_preferenceId := None;
     Purchase.set_wompiTransactionId := Some wompiTransactionId;
     Purchase.set_updatedAt := Some today;
     Purchase.set_buyerEmail := None;
     Purchase.set_buyerName := None;
     Purchase.set_buyerContactNumber := None |}.

Definition updatePaymentStatus (wompiTransactionId status : string)
  (paymentData : option PaymentData.t) : M unit :=
  let* first := Prisma.purchase_findFirst (hasTransactionId wompiTransactionId) in
  let* purchase :=
    match first, referenceOf paymentData with
    | None, Some reference =>
        if JSString.truthy reference
        then Prisma.purchase_findFirst (hasExternalReference reference)
        else ret first
    | _, _ => ret first
    end in
  match purchase with
  | None => ret tt
  | Some p =>
      let* today := gets World.now in
      do Prisma.purchase_update (Purchase.id p)
           (paymentStatusData wompiTransactionId status today) then
      ret tt
  end.

(** [detail.product?.name || fallback] *)
Definition productNameOr (fallback : string) (p : option Product.t) : string :=
  match p with
  | Some prod => if JSString.truthy (Product.name prod) then Product.name prod else fallback
  | None => fallback
  end.

Definition formatLine (fallback : string) (d : OrderDetail.t * option Product.t) : Line.t :=
  {| Line.productId := OrderDetail.productId (fst d);
     Line.productName := productNameOr fallback (snd d);
     Line.quantity := OrderDetail.quantity (fst d);
     Line.unitPrice := Number (OrderDetail.unitPrice (fst d));
     Line.totalPrice := Number (OrderDetail.totalPrice (fst d));
     Line.selectedColor := OrderDetail.selectedColor (fst d) |}.

Definition formatPurchase (fallback : string)
  (p : Purchase.t * list (OrderDetail.t * option Product.t)) : FormattedPurchase.t :=
  let (purchase, orderDetails) := p in
  {| FormattedPurchase.id := Purchase.id purchase;
     FormattedPurchase.buyerEmail := Purchase.buyerEmail purchase;
     FormattedPurchase.buyerName := Purchase.buyerName purchase;
     FormattedPurchase.buyerContactNumber := Purchase.buyerContactNumber purchase;
     FormattedPurchase.status := Purchase.status purchase;
     FormattedPurchase.orderStatus := Purchase.orderStatus purchase;
     FormattedPurchase.amount := Purchase.amount purchase;
     FormattedPurchase.currency := Purchase.currency purchase;
     FormattedPurchase.mercadopagoPaymentId := Purchase.mercadopagoPaymentId purchase;
     FormattedPurchase.wallpaperNumbers :=
       map (fun d => OrderDetail.productId (fst d)) orderDetails;
     FormattedPurchase.items := map (formatLine fallback) orderDetails;
     FormattedPurchase.createdAt := Purchase.createdAt purchase;
     FormattedPurchase.updatedAt := Purchase.updatedAt purchase |}.

(** [where: { buyerEmail: email }] *)
Definition hasBuyerEmail (email : string) (p : Purchase.t) : bool :=
  String.eqb (Purchase.buyerEmail p) email.

Definition getPurchasesByEmail (email : string) : M (list FormattedPurchase.t) :=
  let* found := Prisma.purchase_findMany (hasBuyerEmail email) Prisma.byUpdatedAtDesc in
  let* purchases := Prisma.includeOrderDetails found in
  ret (map (formatPurchase "Unknown Product") purchases).

Record BackupData : Type := mkBackupData {
  statistics : PurchaseStatistics.t;
  allPurchases : list FormattedPurchase.t;
  (** the instant that [new Date().toISOString()] prints *)
  generatedAt : N
}.

Definition initialStatistics (totalPurchases : nat) : PurchaseStatistics.t :=
  PurchaseStatistics.mk totalPurchases 0 0 0 0 0 0 zero 0.

(** [purchase.orderDetails.forEach((detail) => soldProducts.add(detail.productId))] *)
Definition addSold (orderDetails : list (OrderDetail.t * option Product.t))
  (soldProducts : gset Z) : gset Z :=
  fold_left (fun s d => {[ OrderDetail.productId (fst d) ]} ∪ s) orderDetails soldProducts.

(** One turn of the loop over the purchases: the [switch] on the status in
    upper case. *)
Definition tally (acc : PurchaseStatistics.t * gset Z)
  (p : Purchase.t * list (OrderDetail.t * option Product.t))
  : PurchaseStatistics.t * gset Z :=
  let (s, soldProducts) := acc in
  let status := JSString.toUpperCase (Purchase.status (fst p)) in
  let total := PurchaseStatistics.totalPurchases s in
  let approved := PurchaseStatistics.approvedCount s in
  let completed := PurchaseStatistics.completedCount s in
  let pending := PurchaseStatistics.pendingCount s in
  let cancelled := PurchaseStatistics.cancelledCount s in
  let rejected := PurchaseStatistics.rejectedCount s in
  let failed := PurchaseStatistics.failedCount s in
  let revenue := PurchaseStatistics.totalRevenue s in
  let unique := PurchaseStatistics.uniqueProductsSold s in
  if String.eqb status "APPROVED" then
    (PurchaseStatistics.mk total (approved + 1) completed pending cancelled rejected failed
       (add revenue (Purchase.amount (fst p))) unique,
     addSold (snd p) soldProducts)
  else if String.eqb status "COMPLETED" then
    (PurchaseStatistics.mk total approved (completed + 1) pending cancelled rejected failed
       (add revenue (Purchase.amount (fst p))) unique,
     addSold (snd p) soldProducts)
  else if String.eqb status "PENDING" then
    (PurchaseStatistics.mk total approved completed (pending + 1) cancelled rejected failed
       revenue unique, soldProducts)
  else if String.eqb status "CANCELLED" then
    (PurchaseStatistics.mk total approved completed pending (cancelled + 1) rejected failed
       revenue unique, soldProducts)
  else if String.eqb status "REJECTED" then
    (PurchaseStatistics.mk total approved completed pending cancelled (rejected + 1) failed
       revenue unique, soldProducts)
  else if String.eqb status "FAILED" then
    (PurchaseStatistics.mk total approved completed pending cancelled rejected (failed + 1)
       revenue unique, soldProducts)
  else (s, soldProducts).

(** [statistics.uniqueProductsSold = soldProducts.size] *)
Definition withUniqueProductsSold (acc : PurchaseStatistics.t * gset Z)
  : PurchaseStatistics.t :=
  let (s, soldProducts) := acc in
  PurchaseStatistics.mk
    (PurchaseStatistics.totalPurchases s) (PurchaseStatistics.approvedCount s)
    (PurchaseStatistics.completedCount s) (PurchaseStatistics.pendingCount s)
    (PurchaseStatistics.cancelledCount s) (PurchaseStatistics.rejectedCount s)
    (PurchaseStatistics.failedCount s) (PurchaseStatistics.totalRevenue s)
    (size soldProducts).

Definition statisticsOf (purchases : list (Purchase.t * list (OrderDetail.t * option Product.t)))
  : PurchaseStatistics.t :=
  withUniqueProductsSold
    (fold_left tally purchases (initialStatistics (List.length purchases), ∅)).

Definition generateBackupData : M BackupData :=
  let* found := Prisma.purchase_findMany (fun _ => true) Prisma.byCreatedAtDesc in
  let* purchases := Prisma.includeOrderDetails found in
  let* today := gets World.now in
  ret {| statistics := statisticsOf purchases;
         allPurchases := map (formatPurchase "Unknown") purchases;
         generatedAt := today |}.

(** [['APPROVED', 'COMPLETED'].includes(purchase.status.toUpperCase())] *)
Definition isSuccessfulPayment (status : string) : bool :=
  existsb (String.eqb (JSString.toUpperCase status)) ["APPROVED"; "COMPLETED"].

(** [x || fallback] for an optional string [x] *)
Definition orElse (x : option string) (fallback : string) : string :=
  match x with
  | Some s => if JSString.truthy s then s else fallback
  | None => fallback
  end.

Definition emailItemOf (d : OrderDetail.t * option Product.t) : EmailData.item :=
  {| EmailData.productName := productNameOr "Unknown Product" (snd d);
     EmailData.quantity := OrderDetail.quantity (fst d);
     EmailData.unitPrice := Number (OrderDetail.unitPrice (fst d));
     EmailData.totalPrice := Number (OrderDetail.totalPrice (fst d)) |}.

Definition emailDataOf (p : Purchase.t * list (OrderDetail.t * option Product.t))
  : EmailData.t :=
  let (purchase, orderDetails) := p in
  {| EmailData.buyerEmail := Purchase.buyerEmail purchase;
     EmailData.buyerName := Purchase.buyerName purchase;
     EmailData.buyerContactNumber :=
       orElse (Purchase.buyerContactNumber purchase) "No proporcionado";
     EmailData.items := map emailItemOf orderDetails;
     EmailData.totalAmount := Purchase.amount purchase;
     EmailData.currency := Purchase.currency purchase;
     EmailData.status := Purchase.status purchase;
     EmailData.paymentId := orElse (Purchase.wompiTransactionId purchase) "N/A";
     EmailData.purchaseDate := Purchase.updatedAt purchase |}.

Definition resendEmailForPurchase (purchaseId : string) : M (bool * string) :=
  let* found := Prisma.purchase_findUnique (JSParseInt.parseInt purchaseId) in
  match found with
  | None => throw (Error "Purchase not found")
  | Some purchase =>
      if negb (isSuccessfulPayment (Purchase.status purchase))
      then throw (Error ("Cannot resend email. Purchase status is: "
                         +:+ Purchase.status purchase
                         +:+ ". Only APPROVED or COMPLETED purchases can have emails resent."))
      else
        let* orderDetails := gets (fun w => Prisma.orderDetailsOf w purchase) in
        do EmailService.sendPaymentConfirmationEmail (emailDataOf (purchase, orderDetails)) then
        ret (true, "Payment confirmation email resent successfully")
  end.

(** A field of the patch used as a condition and then copied:
    [if (updateData.f) dataToUpdate.f = ...]. *)
Definition given (f : option string) : option string :=
  match f with
  | Some s => if JSString.truthy s then Some s else None
  | None => None
  end.

Definition dataToUpdate (today : N) (updateData : UpdatePurchaseData.t)
  : Purchase.UpdateInput :=
  {| Purchase.set_status := None;
     Purchase.set_preferenceId := None;
     Purchase.set_wompiTransactionId := None;
     Purchase.set_updatedAt := Some today;
     Purchase.set_buyerEmail := given (UpdatePurchaseData.buyerEmail updateData);
     Purchase.set_buyerName :=
       option_map JSString.trim (given (UpdatePurchaseData.buyerName updateData));
     Purchase.set_buyerContactNumber :=
       given (UpdatePurchaseData.buyerContactNumber updateData) |}.

(** The two checks of [updatePurchase] on the patch. *)
Definition checkEmail (updateData : UpdatePurchaseData.t) : Result unit :=
  match given (UpdatePurchaseData.buyerEmail updateData) with
  | Some email =>
      if negb (RegExp.test RegExp.emailRegex email)
      then Err (Error "Invalid email format")
      else Ok tt
  | None => Ok tt
  end.

Definition checkName (updateData : UpdatePurchaseData.t) : Result unit :=
  match given (UpdatePurchaseData.buyerName updateData) with
  | Some name =>
      if Nat.ltb (JSString.length (JSString.trim name)) 2
      then Err (Error "Buyer name must be at least 2 characters long")
      else Ok tt
  | None => Ok tt
  end.

Definition validateUpdate (updateData : UpdatePurchaseData.t) : Result unit :=
  match checkEmail updateData with
  | Err e => Err e
  | Ok _ => checkName updateData
  end.

Definition updatePurchase (purchaseId : string) (updateData : UpdatePurchaseData.t)
  : M (bool * string * FormattedPurchase.t) :=
  let* found := Prisma.purchase_findUnique (JSParseInt.parseInt purchaseId) in
  match found with
  | None => throw (Error "Purchase not found")
  | Some purchase =>
      do lift (validateUpdate updateData) then
      let* today := gets World.now in
      let* updatedPurchase :=
        Prisma.purchase_update (Purchase.id purchase) (dataToUpdate today updateData) in
      let* orderDetails := gets (fun w => Prisma.orderDetailsOf w updatedPurchase) in
      ret (true, "Purchase updated successfully",
           formatPurchase "Unknown Product" (updatedPurchase, orderDetails))
  end.

End Service.
End PurchaseService.

(** ** Vocabulary of the statements *)

Section Vocabulary.
Context {num : JSNumber}.

(** [p] is the first of [rows] that satisfies [f]. *)
Definition firstWith {A : Type} (f : A -> bool) (rows : list A) (p : A) : Prop :=
  exists before after,
    rows = before ++ p :: after /\ f p = true /\ Forall (fun q => f q = false) before.

(** No row satisfies [f]. *)
Definition noneWith {A : Type} (f : A -> bool) (rows : list A) : Prop :=
  Forall (fun q => f q = false) rows.

(** [p] is a row that the lookup of [updatePaymentStatus] can return for
    the transaction [tid] and the payment data [pd]: a row with that
    transaction id, or else, when no row has it and a non-empty external
    reference comes with the notification, a row with that reference. *)
Definition matchedBy (tid : string) (pd : option PaymentData.t)
  (rows : list Purchase.t) (p : Purchase.t) : Prop :=
  In p rows
  /\ (PurchaseService.hasTransactionId tid p = true
      \/ (noneWith (PurchaseService.hasTransactionId tid) rows
          /\ exists r, (PurchaseService.referenceOf pd = Some r /\ r <> "")
                       /\ PurchaseService.hasExternalReference r p = true)).

(** The rows that the lookup can return are one purchase: they have one id. *)
Definition oneMatch (tid : string) (pd : option PaymentData.t)
  (rows : list Purchase.t) : Prop :=
  forall p q, matchedBy tid pd rows p -> matchedBy tid pd rows q ->
              Purchase.id p = Purchase.id q.

(** Everything but the [purchases] table and its sequence is the same in
    the two worlds. *)
Definition sameButPurchases (w w' : World.t) : Prop :=
  World.orderDetails w' = World.orderDetails w
  /\ World.products w' = World.products w
  /\ World.orderDetailSeq w' = World.orderDetailSeq w
  /\ World.gatewayCalls w' = World.gatewayCalls w
  /\ World.emailsSent w' = World.emailsSent w
  /\ World.now w' = World.now w
  /\ World.random36 w' = World.random36 w.


(** The sum of a list of numbers, added from left to right from [0]. *)
Definition sum (xs : list number) : number := fold_left add xs zero.

(** [unitPrice × quantity] of a validated item, the unit price being the
    price of its product in the catalog. *)
Definition catalogLineTotal (v : ValidatedCartItem.t) : number :=
  mul (Number (Product.price (ValidatedCartItem.product v)))
      (CartItem.quantity (ValidatedCartItem.item v)).

(** What the loop over the validated items of [createPurchase] leaves
    untouched, whether it ends or throws. *)
Definition keepsPurchases (w w' : World.t) : Prop :=
  World.purchases w' = World.purchases w
  /\ World.purchaseSeq w' = World.purchaseSeq w
  /\ World.gatewayCalls w' = World.gatewayCalls w
  /\ World.wompi w' = World.wompi w
  /\ World.products w' = World.products w.

(** The colors of the product parse to a JSON array: [l] is the list of
    available colors of the product. *)
Definition colorsArray (p : Product.t) (l : list JSON.value) : Prop :=
  JSON.parse (PurchaseService.colorsString (Product.colors p)) = Some (JSON.JArray l).







(** The format of an external reference: [REF-], one or more decimal
    digits, a hyphen, and a suffix of characters of the class [cls] whose
    length satisfies [len]. *)
Definition RefFormat (cls : ascii -> bool) (len : nat -> Prop) (s : string) : Prop :=
  exists ts sfx,
    s = "REF-" +:+ ts +:+ "-" +:+ sfx
    /\ ts <> "" /\ JSString.all JSString.isDigit ts = true
    /\ JSString.all cls sfx = true /\ len (String.length sfx).


End Vocabulary.

Section Frames.
Context {num : JSNumber}.

(** The fields of a purchase that no status notification concerns: all but
    [status], [wompiTransactionId] and [updatedAt]. *)
Definition sameButPayment (old new : Purchase.t) : Prop :=
  Purchase.id new = Purchase.id old
  /\ Purchase.buyerEmail new = Purchase.buyerEmail old
  /\ Purchase.buyerName new = Purchase.buyerName old
  /\ Purchase.buyerIdentificationNumber new = Purchase.buyerIdentificationNumber old
  /\ Purchase.buyerContactNumber new = Purchase.buyerContactNumber old
  /\ Purchase.shippingAddress new = Purchase.shippingAddress old
  /\ Purchase.orderStatus new = Purchase.orderStatus old
  /\ Purchase.amount new = Purchase.amount old
  /\ Purchase.currency new = Purchase.currency old
  /\ Purchase.paymentProvider new = Purchase.paymentProvider old
  /\ Purchase.externalReference new = Purchase.externalReference old
  /\ Purchase.preferenceId new = Purchase.preferenceId old
  /\ Purchase.mercadopagoPaymentId new = Purchase.mercadopagoPaymentId old
  /\ Purchase.createdAt new = Purchase.createdAt old.

(** The fields of a purchase that are not the buyer's contact data: all but
    [buyerEmail], [buyerName], [buyerContactNumber] and [updatedAt]. *)
Definition sameButBuyer (old new : Purchase.t) : Prop :=
  Purchase.id new = Purchase.id old
  /\ Purchase.buyerIdentificationNumber new = Purchase.buyerIdentificationNumber old
  /\ Purchase.shippingAddress new = Purchase.shippingAddress old
  /\ Purchase.status new = Purchase.status old
  /\ Purchase.orderStatus new = Purchase.orderStatus old
  /\ Purchase.amount new = Purchase.amount old
  /\ Purchase.currency new = Purchase.currency old
  /\ Purchase.paymentProvider new = Purchase.paymentProvider old
  /\ Purchase.externalReference new = Purchase.externalReference old
  /\ Purchase.preferenceId new = Purchase.preferenceId old
  /\ Purchase.wompiTransactionId new = Purchase.wompiTransactionId old
  /\ Purchase.mercadopagoPaymentId new = Purchase.mercadopagoPaymentId old
  /\ Purchase.createdAt new = Purchase.createdAt old.

End Frames.

(** ** Sample strings beyond ASCII, by their bytes *)

Module Utf8.

Definition bytes (l : list nat) : string := string_of_list_ascii (map ascii_of_nat l).

(** U+00A0, the no-break space, and U+2003, the em space. *)
Definition nbsp : string := bytes [194; 160]%nat.
Definition emSpace : string := bytes [226; 128; 131]%nat.

(** U+00E9, e with acute, U+00F1, n with tilde, and U+1F600, beyond the
    basic plane. *)
Definition eAcute : string := bytes [195; 169]%nat.
Definition enye : string := bytes [195; 177]%nat.
Definition grin : string := bytes [240; 159; 152; 128]%nat.

End Utf8.

(** ** Sample data, over whole numbers *)

Module Sample.

#[local] Existing Instance ZNumber.

Definition purchase (id : Z) (email status : string) (amount : Z)
  (reference : string) (transaction : option string) (updatedAt : N)
  : @Purchase.t ZNumber :=
  {| Purchase.id := id;
     Purchase.buyerEmail := email;
     Purchase.buyerName := "Ana Ruiz";
     Purchase.buyerIdentificationNumber := "10203040";
     Purchase.buyerContactNumber := Some "3001234567";
     Purchase.shippingAddress := None;
     Purchase.status := status;
     Purchase.orderStatus := "PENDING";
     Purchase.amount := amount;
     Purchase.currency := "COP";
     Purchase.paymentProvider := "WOMPI";
     Purchase.externalReference := reference;
     Purchase.preferenceId := "";
     Purchase.wompiTransactionId := transaction;
     Purchase.mercadopagoPaymentId := None;
     Purchase.createdAt := 1000;
     Purchase.updatedAt := updatedAt |}.

Definition product (id : Z) (name : string) (price : Z) (status : string)
  (colors : Colors) : @Product.t ZNumber :=
  {| Product.id := id;
     Product.name := name;
     Product.description := "";
     Product.price := price;
     Product.images := "[]";
     Product.categoryId := 1;
     Product.status := status;
     Product.colors := colors |}.

Definition detail (id purchaseId productId : Z) (quantity price : Z)
  : @OrderDetail.t ZNumber :=
  {| OrderDetail.id := id;
     OrderDetail.purchaseId := purchaseId;
     OrderDetail.productId := productId;
     OrderDetail.quantity := quantity;
     OrderDetail.unitPrice := price;
     OrderDetail.totalPrice := (price * quantity)%Z;
     OrderDetail.selectedColor := None |}.

(** A gateway and a mailer that answer every call. *)
Definition gateway (r : @Payment.Request ZNumber) : Result Payment.Session :=
  Ok {| Payment.transactionId := "tx-100"; Payment.paymentUrl := "https://checkout/tx-100" |}.

Definition mailer (d : @EmailData.t ZNumber) : Result unit := Ok tt.

Definition world (purchases : list (@Purchase.t ZNumber))
  (orderDetails : list (@OrderDetail.t ZNumber))
  (products : list (@Product.t ZNumber)) (random36 : list nat) : @World.t ZNumber :=
  {| World.purchases := purchases;
     World.orderDetails := orderDetails;
     World.products := products;
     World.purchaseSeq := 10;
     World.orderDetailSeq := 10;
     World.gatewayCalls := [];
     World.emailsSent := [];
     World.wompi := gateway;
     World.mailer := mailer;
     World.now := 1700000000000;
     World.random36 := random36 |}.

(** Two purchases of one buyer: the first completed and known to the gateway as
    [tx-1], the second pending. *)
Definition paid : @Purchase.t ZNumber :=
  purchase 1 "ana@shop.co" "COMPLETED" 10000 "REF-1-aaaaaaaaa" (Some "tx-1") 2000.

Definition pending : @Purchase.t ZNumber :=
  purchase 2 "ana@shop.co" "PENDING" 5000 "REF-2-bbbbbbbbb" (Some "REF-2-bbbbbbbbb") 3000.

Definition ledger : @World.t ZNumber :=
  world [paid; pending] [detail 1 1 7 2 50; detail 2 2 8 1 50] [] [1; 2; 3].

(** A shop with one lamp at 50, in red or blue, and a cart of two lamps. *)
Definition lamp : @Product.t ZNumber :=
  product 1 "Lamp" 50 "available" (ColorsText colorsJson).

Definition shop : @World.t ZNumber :=
  world [] [] [lamp] [10; 3; 22; 7; 35; 0; 18; 9; 27; 14; 5]%nat.

Definition request (email : string) (items : list (@CartItem.t ZNumber))
  : @CreatePurchaseRequest.t ZNumber :=
  {| CreatePurchaseRequest.buyerEmail := email;
     CreatePurchaseRequest.buyerName := "Ana Ruiz";
     CreatePurchaseRequest.buyerIdentificationNumber := "10203040";
     CreatePurchaseRequest.buyerContactNumber := "3001234567";
     CreatePurchaseRequest.shippingAddress := None;
     CreatePurchaseRequest.items := items |}.

Definition twoLamps : @CartItem.t ZNumber := CartItem.mk 1%Z 2%Z None.

Definition order : @CreatePurchaseRequest.t ZNumber := request "ana@shop.co" [twoLamps].

(** A lamp whose colors column holds a comma-separated list, no JSON. *)
Definition plainLamp : @Product.t ZNumber :=
  product 1 "Lamp" 50 "available" (ColorsText "red,blue").

Definition redLamp : @CartItem.t ZNumber := CartItem.mk 1%Z 1%Z (Some "red").

Definition greenLamp : @CartItem.t ZNumber := CartItem.mk 1%Z 1%Z (Some "green").


(** The shop when [Math.random()] draws one half, which prints as [0.i]. *)
Definition halfShop : @World.t ZNumber := world [] [] [lamp] [18].


End Sample.

(** * The rest of the code

    What follows models the code around the operations above: sequences of
    calls of [PurchaseService], the other methods of the order-detail data
    source, [WompiPurchaseService] and the two HTTP functions, with the
    vocabulary of the statements about them. *)

From Stdlib Require DecimalPos DecimalN.

Section MoreVocabulary.
Context {num : JSNumber}.

(** [d] is the order detail that [createPurchase] writes for the validated
    item [v] of the purchase [i]. *)
Definition detailFor (i : Z) (v : ValidatedCartItem.t) (d : OrderDetail.t) : Prop :=
  OrderDetail.purchaseId d = i
  /\ OrderDetail.productId d = ValidatedCartItem.productId v
  /\ OrderDetail.quantity d = ValidatedCartItem.quantity v
  /\ OrderDetail.unitPrice d = toDecimal (ValidatedCartItem.unitPrice v)
  /\ OrderDetail.totalPrice d = toDecimal (ValidatedCartItem.totalPrice v)
  /\ OrderDetail.selectedColor d = ValidatedCartItem.selectedColor v.

(** Everything but the [order_details] table and its sequence is the same
    in the two worlds. *)
Definition sameButOrderDetails (w w' : World.t) : Prop :=
  World.purchases w' = World.purchases w
  /\ World.products w' = World.products w
  /\ World.purchaseSeq w' = World.purchaseSeq w
  /\ World.gatewayCalls w' = World.gatewayCalls w
  /\ World.emailsSent w' = World.emailsSent w
  /\ World.wompi w' = World.wompi w
  /\ World.mailer w' = World.mailer w
  /\ World.now w' = World.now w
  /\ World.random36 w' = World.random36 w.

(** The purchase row that [createPurchase] has just created and not yet
    linked to a gateway transaction. *)
Definition pendingWithoutReference (request : CreatePurchaseRequest.t) (i : Z)
  (row : Purchase.t) : Prop :=
  Purchase.id row = i
  /\ Purchase.buyerEmail row = CreatePurchaseRequest.buyerEmail request
  /\ Purchase.status row = "PENDING"
  /\ Purchase.orderStatus row = "PENDING"
  /\ Purchase.preferenceId row = ""
  /\ Purchase.wompiTransactionId row = None.

(** [p] is the first row of the table that a notification for the
    transaction [tid] with the data [pd] can be applied to: the first with
    that transaction id, or else the first with the external reference of
    [pd]. *)
Definition reconciles (tid : string) (pd : option PaymentData.t)
  (rows : list Purchase.t) (p : Purchase.t) : Prop :=
  firstWith (PurchaseService.hasTransactionId tid) rows p
  \/ (noneWith (PurchaseService.hasTransactionId tid) rows
      /\ exists r, (PurchaseService.referenceOf pd = Some r /\ r <> "")
                   /\ firstWith (PurchaseService.hasExternalReference r) rows p).

(** The world when the clock shows [t]. *)
Definition at_time (t : N) (w : World.t) : World.t :=
  World.mk (World.purchases w) (World.orderDetails w) (World.products w)
    (World.purchaseSeq w) (World.orderDetailSeq w) (World.gatewayCalls w)
    (World.emailsSent w) (World.wompi w) (World.mailer w) t (World.random36 w).

(** The world after the notification of [status] for the transaction [tid]
    that is handled at the time [t]. *)
Definition notified (tid status : string) (pd : option PaymentData.t) (t : N)
  (w : World.t) : World.t :=
  snd (PurchaseService.updatePaymentStatus tid status pd (at_time t w)).

(** The line of the confirmation e-mail for a line of the response of
    [createPurchase]: its prices have gone through the decimal columns of the
    order detail, and an empty product name is replaced. *)
Definition emailLineFor (line : Line.t) (item : EmailData.item) : Prop :=
  EmailData.quantity item = Line.quantity line
  /\ EmailData.unitPrice item = Number (toDecimal (Line.unitPrice line))
  /\ EmailData.totalPrice item = Number (toDecimal (Line.totalPrice line))
  /\ EmailData.productName item
     = (if JSString.truthy (Line.productName line)
        then Line.productName line
        else "Unknown Product").

(** The purchases whose status in upper case is [st], and the six statuses
    that [generateBackupData] counts. *)
Definition withStatus (st : string) (rows : list Purchase.t) : list Purchase.t :=
  List.filter (fun p => String.eqb (JSString.toUpperCase (Purchase.status p)) st) rows.

Definition countedStatuses : list string :=
  ["APPROVED"; "COMPLETED"; "PENDING"; "CANCELLED"; "REJECTED"; "FAILED"].

Definition counted (p : Purchase.t) : bool :=
  existsb (String.eqb (JSString.toUpperCase (Purchase.status p))) countedStatuses.

End MoreVocabulary.

(** What may follow the digits of an id for [parseInt] to read the id: no
    further decimal digit, and no [x] that would make a hexadecimal literal
    of a leading zero. *)
Definition endsNumber (rest : string) : Prop :=
  match rest with
  | String c _ =>
      JSString.isDigit c = false /\ Ascii.eqb c "x" = false /\ Ascii.eqb c "X" = false
  | EmptyString => True
  end.

(** ** The language of a regular expression

    What it means for a sequence of code units to match, independently of
    the derivatives that [RegExp.test] computes, and the sequences that the
    e-mail pattern is meant to accept. *)

Inductive matches : RegExp.regex -> list N -> Prop :=
| matches_Eps : matches RegExp.Eps []
| matches_Class (p : N -> bool) (u : N) :
    p u = true -> matches (RegExp.Class p) [u]
| matches_Cat (r1 r2 : RegExp.regex) (s1 s2 : list N) :
    matches r1 s1 -> matches r2 s2 -> matches (RegExp.Cat r1 r2) (s1 ++ s2)
| matches_Alt_l (r1 r2 : RegExp.regex) (s : list N) :
    matches r1 s -> matches (RegExp.Alt r1 r2) s
| matches_Alt_r (r1 r2 : RegExp.regex) (s : list N) :
    matches r2 s -> matches (RegExp.Alt r1 r2) s
| matches_Star_nil (r : RegExp.regex) : matches (RegExp.Star r) []
| matches_Star_app (r : RegExp.regex) (s1 s2 : list N) :
    matches r s1 -> matches (RegExp.Star r) s2 -> matches (RegExp.Star r) (s1 ++ s2).

(** One or more code units, none of them white space or [@]. *)
Definition word (units : list N) : Prop :=
  units <> [] /\ forallb RegExp.notSpaceAt units = true.

(** [local@domain.tld], in code units: [@] is 64 and the dot is 46. *)
Definition emailShaped (units : list N) : Prop :=
  exists local domain tld,
    units = local ++ [64%N] ++ domain ++ [46%N] ++ tld
    /\ word local /\ word domain /\ word tld.

(** ** Histories of calls

    The calls of [PurchaseService] that the HTTP functions make, and the
    world after a sequence of them.  Between two calls the clock, the number
    that [Math.random()] draws and the answers of the two collaborators may
    change in any way. *)

Section Histories.
Context {num : JSNumber}.

Inductive call : Type :=
| CreatePurchase (request : CreatePurchaseRequest.t)
| UpdatePaymentStatus (wompiTransactionId status : string) (paymentData : option PaymentData.t)
| GetPurchasesByEmail (email : string)
| GenerateBackupData
| ResendEmailForPurchase (purchaseId : string)
| UpdatePurchase (purchaseId : string) (updateData : UpdatePurchaseData.t).

Definition after (c : call) (w : World.t) : World.t :=
  match c with
  | CreatePurchase request => snd (PurchaseService.createPurchase request w)
  | UpdatePaymentStatus tid status pd =>
      snd (PurchaseService.updatePaymentStatus tid status pd w)
  | GetPurchasesByEmail email => snd (PurchaseService.getPurchasesByEmail email w)
  | GenerateBackupData => snd (PurchaseService.generateBackupData w)
  | ResendEmailForPurchase purchaseId =>
      snd (PurchaseService.resendEmailForPurchase purchaseId w)
  | UpdatePurchase purchaseId updateData =>
      snd (PurchaseService.updatePurchase purchaseId updateData w)
  end.

Record Moment : Type := mkMoment {
  clock : N;
  drawn : list nat;
  gatewayAnswers : Payment.Request -> Result Payment.Session;
  mailerAnswers : EmailData.t -> Result unit
}.

Definition at_moment (m : Moment) (w : World.t) : World.t :=
  World.mk (World.purchases w) (World.orderDetails w) (World.products w)
    (World.purchaseSeq w) (World.orderDetailSeq w) (World.gatewayCalls w)
    (World.emailsSent w) (gatewayAnswers m) (mailerAnswers m) (clock m) (drawn m).

Fixpoint afterAll (h : list (Moment * call)) (w : World.t) : World.t :=
  match h with
  | [] => w
  | (m, c) :: rest => afterAll rest (after c (at_moment m w))
  end.

(** [n] consecutive ids from [start]. *)
Fixpoint idsFrom (start : Z) (n : nat) : list Z :=
  match n with
  | O => []
  | S n' => start :: idsFrom (start + 1) n'
  end.

(** The ids of the rows are below the next ids of the sequences. *)
Definition numbered (w : World.t) : Prop :=
  Forall (fun p => (Purchase.id p < World.purchaseSeq w)%Z) (World.purchases w)
  /\ Forall (fun d => (OrderDetail.id d < World.orderDetailSeq w)%Z) (World.orderDetails w).

(** The ids are keys and every order detail belongs to a purchase of the
    table. *)
Definition consistent (w : World.t) : Prop :=
  numbered w
  /\ NoDup (map Purchase.id (World.purchases w))
  /\ NoDup (map OrderDetail.id (World.orderDetails w))
  /\ Forall (fun d => exists p, In p (World.purchases w)
                                /\ Purchase.id p = OrderDetail.purchaseId d)
       (World.orderDetails w).

(** The fields of a purchase of the table that no call of the service
    changes. *)
Definition sameRecord (old new : Purchase.t) : Prop :=
  Purchase.id new = Purchase.id old
  /\ Purchase.buyerIdentificationNumber new = Purchase.buyerIdentificationNumber old
  /\ Purchase.shippingAddress new = Purchase.shippingAddress old
  /\ Purchase.orderStatus new = Purchase.orderStatus old
  /\ Purchase.amount new = Purchase.amount old
  /\ Purchase.currency new = Purchase.currency old
  /\ Purchase.paymentProvider new = Purchase.paymentProvider old
  /\ Purchase.externalReference new = Purchase.externalReference old
  /\ Purchase.preferenceId new = Purchase.preferenceId old
  /\ Purchase.mercadopagoPaymentId new = Purchase.mercadopagoPaymentId old
  /\ Purchase.createdAt new = Purchase.createdAt old.

(** [w'] has the products of [w], its order details followed by new ones,
    and its purchases, with the same records, followed by new ones. *)
Definition grownFrom (w w' : World.t) : Prop :=
  World.products w' = World.products w
  /\ (exists details, World.orderDetails w' = World.orderDetails w ++ details)
  /\ (exists olds news,
         World.purchases w' = olds ++ news
         /\ Forall2 sameRecord (World.purchases w) olds).

(** What one call does to the tables: the purchases keep their records, and
    either no row is added, or one purchase is added, with the next id, and
    with it order details for it, with the next ids. *)
Definition step (w w' : World.t) : Prop :=
  World.products w' = World.products w
  /\ exists details olds,
      World.orderDetails w' = World.orderDetails w ++ details
      /\ map OrderDetail.id details
         = idsFrom (World.orderDetailSeq w) (List.length details)
      /\ World.orderDetailSeq w'
         = (World.orderDetailSeq w + Z.of_nat (List.length details))%Z
      /\ Forall (fun d => OrderDetail.purchaseId d = World.purchaseSeq w) details
      /\ Forall2 sameRecord (World.purchases w) olds
      /\ ((World.purchases w' = olds
           /\ World.purchaseSeq w' = World.purchaseSeq w
           /\ details = [])
          \/ (exists row,
                 World.purchases w' = olds ++ [row]
                 /\ Purchase.id row = World.purchaseSeq w
                 /\ World.purchaseSeq w' = (World.purchaseSeq w + 1)%Z)).

End Histories.

(** ** The rest of the order-detail data source

    [getByPurchaseId], [getById], [update] and [delete] of
    [OrderDetailPrismaAdapter], the implementation of
    [IOrderDetailDataSource], with the operations of the ORM on the
    [order_details] table that they call. *)

Section Catch.
Context {num : JSNumber}.

(** [try { m } catch (error) { handler(error) }] *)
Definition try_catch {A : Type} (m : M A) (handler : exn -> M A) : M A :=
  fun w =>
    match m w with
    | (Ok a, w') => (Ok a, w')
    | (Err e, w') => handler e w'
    end.

(** [rows.map(f)] for an [f] that may throw: the first exception ends it. *)
Fixpoint mapResult {A B : Type} (f : A -> Result B) (l : list A) : Result (list B) :=
  match l with
  | [] => Ok []
  | x :: rest =>
      match f x with
      | Err e => Err e
      | Ok y =>
          match mapResult f rest with
          | Err e => Err e
          | Ok ys => Ok (y :: ys)
          end
      end
  end.

End Catch.

Module PrismaOrderDetail.
Section Ops.
Context {num : JSNumber}.

(** The [data] of [prisma.orderDetail.update]: a field left out is kept. *)
Record UpdateInput : Type := mkUpdate {
  set_quantity : option number;
  set_unitPrice : option decimal;
  set_totalPrice : option decimal;
  set_selectedColor : option string
}.

Definition apply (d : UpdateInput) (r : OrderDetail.t) : OrderDetail.t :=
  {| OrderDetail.id := OrderDetail.id r;
     OrderDetail.purchaseId := OrderDetail.purchaseId r;
     OrderDetail.productId := OrderDetail.productId r;
     OrderDetail.quantity := default (OrderDetail.quantity r) (set_quantity d);
     OrderDetail.unitPrice := default (OrderDetail.unitPrice r) (set_unitPrice d);
     OrderDetail.totalPrice := default (OrderDetail.totalPrice r) (set_totalPrice d);
     OrderDetail.selectedColor :=
       match set_selectedColor d with
       | Some c => Some c
       | None => OrderDetail.selectedColor r
       end |}.

(** [where: { id }] and [where: { purchaseId }] *)
Definition hasId (i : Z) (r : OrderDetail.t) : bool := Z.eqb (OrderDetail.id r) i.

Definition ofPurchase (purchaseId : Z) (r : OrderDetail.t) : bool :=
  Z.eqb (OrderDetail.purchaseId r) purchaseId.

(** [orderBy: { id: 'asc' }] *)
Definition byIdAsc (a b : OrderDetail.t) : Prop :=
  (OrderDetail.id a <= OrderDetail.id b)%Z.

#[global] Instance byIdAsc_dec : RelDecision byIdAsc.
Proof. intros a b. unfold byIdAsc. apply _. Defined.

(** The two rejections with the code [P2025] of the client. *)
Definition recordToUpdateNotFound : exn :=
  PrismaClientError "Record to update not found.".

Definition recordToDeleteNotFound : exn :=
  PrismaClientError "Record to delete does not exist.".

(** [include: { product: { select: ... } }] *)
Definition withProduct (w : World.t) (r : OrderDetail.t)
  : OrderDetail.t * option Product.t :=
  (r, Prisma.productOf w r).

Definition orderDetail_findMany (purchaseId : Z)
  : M (list (OrderDetail.t * option Product.t)) :=
  gets (fun w =>
          map (withProduct w)
            (merge_sort byIdAsc
               (List.filter (ofPurchase purchaseId) (World.orderDetails w)))).

Definition orderDetail_findUnique (i : Z) : M (option (OrderDetail.t * option Product.t)) :=
  gets (fun w => option_map (withProduct w) (find (hasId i) (World.orderDetails w))).

Definition orderDetail_update (i : Z) (d : UpdateInput)
  : M (OrderDetail.t * option Product.t) :=
  fun w =>
    match find (hasId i) (World.orderDetails w) with
    | None => (Err recordToUpdateNotFound, w)
    | Some r =>
        (Ok (withProduct w (apply d r)),
         World.with_orderDetails
           (map (fun q => if hasId i q then apply d q else q) (World.orderDetails w))
           (World.orderDetailSeq w) w)
    end.

Definition orderDetail_delete (i : Z) : M unit :=
  fun w =>
    match find (hasId i) (World.orderDetails w) with
    | None => (Err recordToDeleteNotFound, w)
    | Some _ =>
        (Ok tt,
         World.with_orderDetails
           (List.filter (fun q => negb (hasId i q)) (World.orderDetails w))
           (World.orderDetailSeq w) w)
    end.

End Ops.
End PrismaOrderDetail.

Module IOrderDetailDataSource.
Section Ops.
Context {num : JSNumber}.

(** [Partial<OrderDetail>], the second argument of [update]. *)
Record Partial : Type := mkPartial {
  id : option Z;
  purchaseId : option Z;
  productId : option Z;
  quantity : option number;
  unitPrice : option number;
  totalPrice : option number;
  selectedColor : option string
}.

(** [error instanceof Prisma.PrismaClientKnownRequestError &&
    error.code === 'P2025'] *)
Definition isP2025 (e : exn) : bool :=
  match e with
  | PrismaClientError message =>
      String.eqb message "Record to update not found."
      || String.eqb message "Record to delete does not exist."
  | _ => false
  end.

Definition getByPurchaseId (purchaseId : Z) : M (list OrderDetailPrismaAdapter.entity) :=
  let* orderDetails := PrismaOrderDetail.orderDetail_findMany purchaseId in
  lift (mapResult OrderDetailPrismaAdapter.mapToOrderDetail orderDetails).

Definition getById (i : Z) : M (option OrderDetailPrismaAdapter.entity) :=
  let* orderDetail := PrismaOrderDetail.orderDetail_findUnique i in
  match orderDetail with
  | Some r =>
      let* e := lift (OrderDetailPrismaAdapter.mapToOrderDetail r) in
      ret (Some e)
  | None => ret None
  end.

(** The [data] of [update]: [quantity] when it is truthy, the two prices
    and the color when they are not [undefined]. *)
Definition dataOf (orderDetail : Partial) : PrismaOrderDetail.UpdateInput :=
  {| PrismaOrderDetail.set_quantity :=
       match quantity orderDetail with
       | Some q => if falsy q then None else Some q
       | None => None
       end;
     PrismaOrderDetail.set_unitPrice := option_map toDecimal (unitPrice orderDetail);
     PrismaOrderDetail.set_totalPrice := option_map toDecimal (totalPrice orderDetail);
     PrismaOrderDetail.set_selectedColor := selectedColor orderDetail |}.

Definition update (i : Z) (orderDetail : Partial)
  : M (option OrderDetailPrismaAdapter.entity) :=
  try_catch
    (let* updatedOrderDetail :=
       PrismaOrderDetail.orderDetail_update i (dataOf orderDetail) in
     let* e := lift (OrderDetailPrismaAdapter.mapToOrderDetail updatedOrderDetail) in
     ret (Some e))
    (fun error => if isP2025 error then ret None else throw error).

Definition delete (i : Z) : M bool :=
  try_catch
    (do PrismaOrderDetail.orderDetail_delete i then ret true)
    (fun error => if isP2025 error then ret false else throw error).

End Ops.
End IOrderDetailDataSource.

(** ** [WompiPurchaseService]

    The second path by which a purchase is created.  It has a gateway
    client of its own, which answers with all the parameters of the
    checkout. *)

(** [x < 1000], the one comparison of numbers that this service adds. *)
Class JSNumberOrder (num : JSNumber) : Type := {
  lt_thousand : number -> bool
}.

Definition ZNumberOrder : JSNumberOrder ZNumber :=
  Build_JSNumberOrder ZNumber (fun x : Z => Z.ltb x 1000).


Module CreateWompiPurchaseRequest.
Section Fields.
Context {num : JSNumber}.
Record t : Type := mk {
  wallpaperNumbers : list Z;
  buyerEmail : string;
  buyerName : string;
  buyerIdentificationNumber : string;
  buyerContactNumber : string;
  amount : number
}.
End Fields.
End CreateWompiPurchaseRequest.

(** Modelled from the spec: what the gateway's [createPayment] returns to
    this service: a reference, the public key, the signature, the amount in
    cents, the currency and the URL of the checkout. *)
Module WompiPayment.
Section Fields.
Context {num : JSNumber}.
Record t : Type := mk {
  reference : string;
  publicKey : string;
  signature : string;
  amountInCents : number;
  currency : string;
  paymentUrl : string
}.
End Fields.
End WompiPayment.

Module CreateWompiPurchaseResponse.
Section Fields.
Context {num : JSNumber}.
Record t : Type := mk {
  purchaseId : string;
  reference : string;
  publicKey : string;
  signature : string;
  amountInCents : number;
  wallpaperNumbers : list Z;
  currency : string;
  checkoutUrl : string
}.
End Fields.
End CreateWompiPurchaseResponse.

Module PrismaPurchase.
Section Ops.
Context {num : JSNumber}.

(** [create({ data })] for a row whose fields are all given by the caller
    but [id], [createdAt] and [updatedAt], which [row] takes from the world. *)
Definition purchase_insert (row : World.t -> Purchase.t) : M Purchase.t :=
  fun w =>
    (Ok (row w),
     World.with_purchases (World.purchases w ++ [row w]) (World.purchaseSeq w + 1) w).

(** [updateMany({ where, data })]: every matching row is rewritten, and the
    number of them is returned. *)
Definition purchase_updateMany (where_ : Purchase.t -> bool) (d : Purchase.UpdateInput)
  : M nat :=
  fun w =>
    (Ok (List.length (List.filter where_ (World.purchases w))),
     World.with_purchases
       (map (fun q => if where_ q then Purchase.apply d q else q) (World.purchases w))
       (World.purchaseSeq w) w).

End Ops.
End PrismaPurchase.

Module WompiPurchaseService.
Section Service.
Context {num : JSNumber} {ord : JSNumberOrder num}.

(** The answers of the gateway client of this service. *)
Variable wompiService : Payment.Request -> Result WompiPayment.t.

(** [wallpaperNumber <= 0 || wallpaperNumber > 5000] *)
Definition outOfRange (wallpaperNumber : Z) : bool :=
  Z.leb wallpaperNumber 0 || Z.ltb 5000 wallpaperNumber.

(** The loop over the wallpaper numbers. *)
Fixpoint checkWallpaperNumbers (wallpaperNumbers : list Z) : Result unit :=
  match wallpaperNumbers with
  | [] => Ok tt
  | wallpaperNumber :: rest =>
      if outOfRange wallpaperNumber
      then Err (ValidationError
                  ("Wallpaper number " +:+ JSString.ofZ wallpaperNumber
                   +:+ " must be between 1 and 5000"))
      else checkWallpaperNumbers rest
  end.

Definition validatePurchaseRequest (request : CreateWompiPurchaseRequest.t) : Result unit :=
  if Nat.eqb (List.length (CreateWompiPurchaseRequest.wallpaperNumbers request)) 0
  then Err (ValidationError "At least one wallpaper number is required")
  else
    match checkWallpaperNumbers (CreateWompiPurchaseRequest.wallpaperNumbers request) with
    | Err e => Err e
    | Ok _ =>
        if negb (RegExp.test RegExp.emailRegex (CreateWompiPurchaseRequest.buyerEmail request))
        then Err (ValidationError "Invalid email format")
        else if negb (JSString.truthy (CreateWompiPurchaseRequest.buyerName request))
                || Nat.ltb (JSString.length
                              (JSString.trim (CreateWompiPurchaseRequest.buyerName request))) 2
        then Err (ValidationError "Buyer name must be at least 2 characters long")
        else if negb (JSString.truthy
                        (CreateWompiPurchaseRequest.buyerIdentificationNumber request))
                || Nat.ltb (JSString.length
                              (CreateWompiPurchaseRequest.buyerIdentificationNumber request)) 6
        then Err (ValidationError "Identification number must be at least 6 characters long")
        else if negb (JSString.truthy (CreateWompiPurchaseRequest.buyerContactNumber request))
                || Nat.ltb (JSString.length
                              (CreateWompiPurchaseRequest.buyerContactNumber request)) 10
        then Err (ValidationError "Contact number must be at least 10 characters long")
        else if falsy (CreateWompiPurchaseRequest.amount request)
                || leq_zero (CreateWompiPurchaseRequest.amount request)
        then Err (ValidationError "Amount must be greater than 0")
        else if lt_thousand (CreateWompiPurchaseRequest.amount request)
        then Err (ValidationError "Amount must be at least 1000 COP")
        else Ok tt
    end.

(** The argument of [wompiService.createPayment]. *)
Definition paymentOf (request : CreateWompiPurchaseRequest.t) : Payment.Request :=
  {| Payment.wallpaperNumbers := CreateWompiPurchaseRequest.wallpaperNumbers request;
     Payment.amount := CreateWompiPurchaseRequest.amount request;
     Payment.buyerEmail := CreateWompiPurchaseRequest.buyerEmail request;
     Payment.buyerName := CreateWompiPurchaseRequest.buyerName request;
     Payment.buyerIdentificationNumber :=
       CreateWompiPurchaseRequest.buyerIdentificationNumber request;
     Payment.buyerContactNumber := CreateWompiPurchaseRequest.buyerContactNumber request |}.

Definition createPayment (r : Payment.Request) : M WompiPayment.t :=
  fun w => (wompiService r, World.with_gatewayCalls (World.gatewayCalls w ++ [r]) w).

(** The row that [prisma.purchase.create] adds for the [data] of
    [createPurchase]. *)
Definition purchaseRow (request : CreateWompiPurchaseRequest.t)
  (wompiPayment : WompiPayment.t) (w : World.t) : Purchase.t :=
  {| Purchase.id := World.purchaseSeq w;
     Purchase.buyerEmail := CreateWompiPurchaseRequest.buyerEmail request;
     Purchase.buyerName := CreateWompiPurchaseRequest.buyerName request;
     Purchase.buyerIdentificationNumber :=
       CreateWompiPurchaseRequest.buyerIdentificationNumber request;
     Purchase.buyerContactNumber :=
       Some (CreateWompiPurchaseRequest.buyerContactNumber request);
     Purchase.shippingAddress := None;
     Purchase.status := "PENDING";
     Purchase.orderStatus := "PENDING";
     Purchase.amount := CreateWompiPurchaseRequest.amount request;
     Purchase.currency := "COP";
     Purchase.paymentProvider := "WOMPI";
     Purchase.externalReference := WompiPayment.reference wompiPayment;
     Purchase.preferenceId := WompiPayment.reference wompiPayment;
     Purchase.wompiTransactionId := Some (WompiPayment.reference wompiPayment);
     Purchase.mercadopagoPaymentId := None;
     Purchase.createdAt := World.now w;
     Purchase.updatedAt := World.now w |}.

Definition createPurchase (request : CreateWompiPurchaseRequest.t)
  : M CreateWompiPurchaseResponse.t :=
  do lift (validatePurchaseRequest request) then
  let* wompiPayment := createPayment (paymentOf request) in
  let* purchase := PrismaPurchase.purchase_insert (purchaseRow request wompiPayment) in
  ret {| CreateWompiPurchaseResponse.purchaseId := JSString.ofZ (Purchase.id purchase);
         CreateWompiPurchaseResponse.reference := WompiPayment.reference wompiPayment;
         CreateWompiPurchaseResponse.publicKey := WompiPayment.publicKey wompiPayment;
         CreateWompiPurchaseResponse.signature := WompiPayment.signature wompiPayment;
         CreateWompiPurchaseResponse.amountInCents :=
           WompiPayment.amountInCents wompiPayment;
         CreateWompiPurchaseResponse.wallpaperNumbers :=
           CreateWompiPurchaseRequest.wallpaperNumbers request;
         CreateWompiPurchaseResponse.currency := WompiPayment.currency wompiPayment;
         CreateWompiPurchaseResponse.checkoutUrl := WompiPayment.paymentUrl wompiPayment |}.

(** Only logs. *)
Definition updatePurchaseStatus (transactionId : string) : M unit := ret tt.

(** [data: { status, updatedAt: new Date() }] *)
Definition statusData (status : string) (today : N) : Purchase.UpdateInput :=
  {| Purchase.set_status := Some status;
     Purchase.set_preferenceId := None;
     Purchase.set_wompiTransactionId := None;
     Purchase.set_updatedAt := Some today;
     Purchase.set_buyerEmail := None;
     Purchase.set_buyerName := None;
     Purchase.set_buyerContactNumber := None |}.

Definition updatePurchaseStatusByReference (reference status : string) : M unit :=
  let* today := gets World.now in
  do PrismaPurchase.purchase_updateMany
       (PurchaseService.hasExternalReference reference) (statusData status today) then
  ret tt.

End Service.
End WompiPurchaseService.

Section WompiVocabulary.
Context {num : JSNumber} {ord : JSNumberOrder num}.

(** The requests that [WompiPurchaseService] accepts. *)
Definition wompiAcceptable (request : CreateWompiPurchaseRequest.t) : Prop :=
  CreateWompiPurchaseRequest.wallpaperNumbers request <> []
  /\ Forall (fun n => (1 <= n <= 5000)%Z) (CreateWompiPurchaseRequest.wallpaperNumbers request)
  /\ emailShaped (JSString.codeUnits (CreateWompiPurchaseRequest.buyerEmail request))
  /\ (2 <= JSString.length (JSString.trim (CreateWompiPurchaseRequest.buyerName request)))%nat
  /\ (6 <= JSString.length (CreateWompiPurchaseRequest.buyerIdentificationNumber request))%nat
  /\ (10 <= JSString.length (CreateWompiPurchaseRequest.buyerContactNumber request))%nat
  /\ falsy (CreateWompiPurchaseRequest.amount request) = false
  /\ leq_zero (CreateWompiPurchaseRequest.amount request) = false
  /\ lt_thousand (CreateWompiPurchaseRequest.amount request) = false.

(** The world after the status [status] has been recorded for [reference]
    at the time [t]. *)
Definition recorded (reference status : string) (t : N) (w : World.t) : World.t :=
  snd (WompiPurchaseService.updatePurchaseStatusByReference reference status (at_time t w)).

(** All the fields of a purchase but [status] and [updatedAt]. *)
Definition sameButStatus (old new : Purchase.t) : Prop :=
  sameButPayment old new
  /\ Purchase.wompiTransactionId new = Purchase.wompiTransactionId old.

End WompiVocabulary.

(** ** The HTTP functions [funcProducts] and [funcCategories]

    The two functions dispatch on the method and on the id of the route.  A
    service is given by what its methods answer, from a state of its own,
    and every call made to it is logged. *)

Module Http.
Section Functions.

(** What the services return, the body of a request and the state of a
    service. *)
Context {Data Body Store : Type}.

Definition Query : Type := list (string * string).

(** [req.query.name] *)
Fixpoint lookup (name : string) (q : Query) : option string :=
  match q with
  | [] => None
  | (k, v) :: rest => if String.eqb k name then Some v else lookup name rest
  end.

Record HttpRequest : Type := mkRequest {
  method : option string;
  (** [req.params?.id] *)
  id : option string;
  query : Query;
  body : Body
}.

Inductive Payload : Type :=
| Single (x : Data)
| Counted (count : nat) (xs : list Data)
| Null.

(** Modelled from the spec: [ApiResponseBuilder] is not among the sources;
    the functions return a structured success or error envelope, here the
    call of the builder that makes it. *)
Inductive Response : Type :=
| success (data : Payload) (message : string)
| validationError (errors : list string).

Inductive Call : Type :=
| getById (i : string)
| getShowcase
| getByCategory (categoryId : string)
| getAll (q : Query)
| create (b : Body)
| update (i : string) (b : Body)
| delete (i : string).

(** The state of a service and the calls made to it, in order. *)
Definition State : Type := (list Call * Store)%type.

Definition Svc (A : Type) : Type := State -> Result A * State.

Definition bindS {A B : Type} (m : Svc A) (k : A -> Svc B) : Svc B :=
  fun st =>
    match m st with
    | (Ok a, st') => k a st'
    | (Err e, st') => (Err e, st')
    end.

Definition retS {A : Type} (a : A) : Svc A := fun st => (Ok a, st).

(** A method of a service: the call is logged, and the service answers. *)
Definition invoke {A : Type} (c : Call) (answer : Store -> Result A * Store) : Svc A :=
  fun st =>
    let (r, store) := answer (snd st) in
    (r, (fst st ++ [c], store)).

(** Modelled from the spec: the product and category services behind
    [getProductService] and [getCategoryService] are not among the sources;
    each method answers or throws, and may change the state of the service. *)
Record ProductService : Type := mkProductService {
  getProductById : string -> Store -> Result Data * Store;
  getShowcaseProducts : Store -> Result (list Data) * Store;
  getProductsByCategory : string -> Store -> Result (list Data) * Store;
  getAllProducts : Query -> Store -> Result (list Data) * Store;
  createProduct : Body -> Store -> Result Data * Store;
  updateProduct : string -> Body -> Store -> Result Data * Store;
  deleteProduct : string -> Store -> Result unit * Store
}.

Record CategoryService : Type := mkCategoryService {
  getCategoryById : string -> Store -> Result Data * Store;
  getAllCategories : Query -> Store -> Result (list Data) * Store;
  createCategory : Body -> Store -> Result Data * Store;
  updateCategory : string -> Body -> Store -> Result Data * Store;
  deleteCategory : string -> Store -> Result unit * Store
}.

(** [req.method?.toUpperCase()] *)
Definition methodOf (req : HttpRequest) : option string :=
  option_map JSString.toUpperCase (method req).

(** [`HTTP method ${method} not supported`] *)
Definition notSupported (m : option string) : string :=
  "HTTP method " +:+ default "undefined" m +:+ " not supported".

Definition isMethod (m : option string) (name : string) : bool :=
  match m with
  | Some s => String.eqb s name
  | None => false
  end.

(** The authenticated user of [funcProducts] is only logged. *)
Definition funcProducts (productService : ProductService) (req : HttpRequest)
  : Svc Response :=
  let m := methodOf req in
  let productId := id req in
  if isMethod m "GET" then
    match productId with
    | Some (String c i) =>
        bindS (invoke (getById (String c i)) (getProductById productService (String c i)))
          (fun product => retS (success (Single product) "Product retrieved successfully"))
    | _ =>
        if match lookup "showcase" (query req) with
           | Some v => String.eqb v "true"
           | None => false
           end
        then
          bindS (invoke getShowcase (getShowcaseProducts productService))
            (fun showcaseProducts =>
               retS (success (Counted (List.length showcaseProducts) showcaseProducts)
                       "Showcase products retrieved successfully"))
        else
          match lookup "categoryId" (query req) with
          | Some (String c categoryId) =>
              bindS (invoke (getByCategory (String c categoryId))
                       (getProductsByCategory productService (String c categoryId)))
                (fun categoryProducts =>
                   retS (success (Counted (List.length categoryProducts) categoryProducts)
                           "Products by category retrieved successfully"))
          | _ =>
              bindS (invoke (getAll (query req)) (getAllProducts productService (query req)))
                (fun products =>
                   retS (success (Counted (List.length products) products)
                           "Products retrieved successfully"))
          end
    end
  else if isMethod m "POST" then
    if JSString.truthyOpt productId
    then retS (validationError ["ID should not be provided when creating a product"])
    else
      bindS (invoke (create (body req)) (createProduct productService (body req)))
        (fun newProduct => retS (success (Single newProduct) "Product created successfully"))
  else if isMethod m "PUT" then
    match productId with
    | Some (String c i) =>
        bindS (invoke (update (String c i) (body req))
                 (updateProduct productService (String c i) (body req)))
          (fun updatedProduct =>
             retS (success (Single updatedProduct) "Product updated successfully"))
    | _ => retS (validationError ["Product ID is required for update"])
    end
  else if isMethod m "DELETE" then
    match productId with
    | Some (String c i) =>
        bindS (invoke (delete (String c i)) (deleteProduct productService (String c i)))
          (fun _ => retS (success Null "Product deleted successfully"))
    | _ => retS (validationError ["Product ID is required for deletion"])
    end
  else retS (validationError [notSupported m]).

Definition funcCategories (categoryService : CategoryService) (req : HttpRequest)
  : Svc Response :=
  let m := methodOf req in
  let categoryId := id req in
  if isMethod m "GET" then
    match categoryId with
    | Some (String c i) =>
        bindS (invoke (getById (String c i)) (getCategoryById categoryService (String c i)))
          (fun category => retS (success (Single category) "Category retrieved successfully"))
    | _ =>
        bindS (invoke (getAll (query req)) (getAllCategories categoryService (query req)))
          (fun categories =>
             retS (success (Counted (List.length categories) categories)
                     "Categories retrieved successfully"))
    end
  else if isMethod m "POST" then
    if JSString.truthyOpt categoryId
    then retS (validationError ["ID should not be provided when creating a category"])
    else
      bindS (invoke (create (body req)) (createCategory categoryService (body req)))
        (fun newCategory => retS (success (Single newCategory) "Category created successfully"))
  else if isMethod m "PUT" then
    match categoryId with
    | Some (String c i) =>
        bindS (invoke (update (String c i) (body req))
                 (updateCategory categoryService (String c i) (body req)))
          (fun updatedCategory =>
             retS (success (Single updatedCategory) "Category updated successfully"))
    | _ => retS (validationError ["Category ID is required for update"])
    end
  else if isMethod m "DELETE" then
    match categoryId with
    | Some (String c i) =>
        bindS (invoke (delete (String c i)) (deleteCategory categoryService (String c i)))
          (fun _ => retS (success Null "Category deleted successfully"))
    | _ => retS (validationError ["Category ID is required for deletion"])
    end
  else retS (validationError [notSupported m]).

(** The requests that the two functions answer with a validation error:
    a method that is none of the four, an id on a POST, no id on a PUT or a
    DELETE. *)
Definition rejected (req : HttpRequest) : bool :=
  let m := methodOf req in
  if isMethod m "GET" then false
  else if isMethod m "POST" then JSString.truthyOpt (id req)
  else if isMethod m "PUT" || isMethod m "DELETE" then negb (JSString.truthyOpt (id req))
  else true.

(** One method of the service has been called, and the response, if there
    is one, is a success. *)
Definition calledOnce (st : State) (out : Result Response * State) : Prop :=
  (exists c, fst (snd out) = fst st ++ [c])
  /\ match fst out with
     | Ok (success _ _) => True
     | Ok (validationError _) => False
     | Err _ => True
     end.

(** The call is one that reads. *)
Definition reads (c : Call) : bool :=
  match c with
  | getById _ | getShowcase | getByCategory _ | getAll _ => true
  | _ => false
  end.

(** The same request with another spelling of the method. *)
Definition withMethod (m : option string) (req : HttpRequest) : HttpRequest :=
  mkRequest m (id req) (query req) (body req).

End Functions.
End Http.

(** ** More sample data *)

Module Scenario.

#[local] Existing Instance ZNumber.

(** The shop when the gateway is down. *)
Definition downShop : @World.t ZNumber :=
  {| World.purchases := [];
     World.orderDetails := [];
     World.products := [Sample.lamp];
     World.purchaseSeq := 10;
     World.orderDetailSeq := 10;
     World.gatewayCalls := [];
     World.emailsSent := [];
     World.wompi := fun _ => Err (CollaboratorError "gateway timeout");
     World.mailer := Sample.mailer;
     World.now := 1700000000000;
     World.random36 := [10; 3; 22; 7; 35; 0; 18; 9; 27; 14; 5]%nat |}.

Definition validatedLamps : list (@ValidatedCartItem.t ZNumber) :=
  [ValidatedCartItem.mk Sample.twoLamps Sample.lamp 50%Z 100%Z].

(** A store with the two purchases of the ledger and the lamp. *)
Definition store : @World.t ZNumber :=
  Sample.world [Sample.paid; Sample.pending]
    [Sample.detail 1 1 1 2 50; Sample.detail 2 2 1 1 50] [Sample.lamp]
    [10; 3; 22; 7; 35; 0; 18; 9; 27; 14; 5]%nat.

Definition noon : @Moment ZNumber :=
  mkMoment 1700000000000 [10; 3; 22; 7; 35; 0; 18; 9; 27; 14; 5]%nat
    Sample.gateway Sample.mailer.

Definition evening : @Moment ZNumber :=
  mkMoment 1700000030000 [1; 2; 3]%nat Sample.gateway Sample.mailer.

(** An order, the gateway's approval of it, a correction of the buyer's
    name and the confirmation e-mail sent again. *)
Definition history : list (@Moment ZNumber * @call ZNumber) :=
  [(noon, CreatePurchase Sample.order);
   (evening, UpdatePaymentStatus "tx-100" "APPROVED" None);
   (evening, UpdatePurchase "10" (UpdatePurchaseData.mk None (Some "Ana Maria Ruiz") None));
   (evening, ResendEmailForPurchase "10")].

(** The correction of the buyer's name of the first purchase of the ledger. *)
Definition rename : UpdatePurchaseData.t :=
  UpdatePurchaseData.mk None (Some "  Ana Maria Ruiz ") None.

(** A third order detail for the ledger: three lamps for the second
    purchase. *)
Definition threeLamps : @OrderDetail.CreateInput ZNumber :=
  OrderDetail.mkCreate 2%Z 1%Z 3%Z 50%Z 150%Z None.

(** A request for two wallpapers at 25000 and the gateway's answer to it. *)
Definition wallpapers : @CreateWompiPurchaseRequest.t ZNumber :=
  CreateWompiPurchaseRequest.mk [7; 42]%Z "ana@shop.co" "Ana Ruiz" "10203040"
    "3001234567" 25000%Z.

Definition checkout : @WompiPayment.t ZNumber :=
  WompiPayment.mk "WP-77" "pub_test" "sig" 2500000%Z "COP" "https://checkout/WP-77".

Definition wompiGateway (r : @Payment.Request ZNumber) : Result (@WompiPayment.t ZNumber) :=
  Ok checkout.

(** Two services that answer every call, and a request for the showcase
    in lower case. *)
Definition productService : @Http.ProductService string unit unit :=
  Http.mkProductService
    (fun i store => (Ok ("product " +:+ i), store))
    (fun store => (Ok ["lamp"], store))
    (fun categoryId store => (Ok ["lamp"; "desk"], store))
    (fun q store => (Ok ["lamp"; "desk"; "chair"], store))
    (fun b store => (Ok "new product", store))
    (fun i b store => (Ok ("product " +:+ i), store))
    (fun i store => (Ok tt, store)).

Definition categoryService : @Http.CategoryService string unit unit :=
  Http.mkCategoryService
    (fun i store => (Ok ("category " +:+ i), store))
    (fun q store => (Ok ["lighting"; "furniture"], store))
    (fun b store => (Ok "new category", store))
    (fun i b store => (Ok ("category " +:+ i), store))
    (fun i store => (Ok tt, store)).

Definition showcaseRequest : @Http.HttpRequest unit :=
  Http.mkRequest (Some "get") None [("showcase", "true"); ("categoryId", "3")] tt.

(** A lamp whose colors column holds a JSON string, not a JSON array, and
    an item that selects a part of that string as its color. *)
Definition quotedColors : string :=
  String JSON.quote ("red,blue" +:+ String JSON.quote "").

Definition quotedLamp : @Product.t ZNumber :=
  Sample.product 1 "Lamp" 50 "available" (ColorsText quotedColors).

Definition edLamp : @CartItem.t ZNumber := CartItem.mk 1%Z 1%Z (Some "ed,bl").

End Scenario.

(** * Properties *)

(** ** Sanity checks of the JavaScript library models *)

Example emailRegex_accepts : RegExp.test RegExp.emailRegex "ana@shop.co" = true.
Proof. reflexivity. Qed.

Example emailRegex_rejects :
  RegExp.test RegExp.emailRegex "ana.shop.co" = false
  /\ RegExp.test RegExp.emailRegex "ana@shop" = false
  /\ RegExp.test RegExp.emailRegex "a na@shop.co" = false
  /\ RegExp.test RegExp.emailRegex "" = false.
Proof. repeat split; reflexivity. Qed.

Example emailRegex_white_space :
  RegExp.test RegExp.emailRegex ("a" +:+ Utf8.nbsp +:+ "na@shop.co") = false
  /\ RegExp.test RegExp.emailRegex ("ana@shop" +:+ Utf8.emSpace +:+ ".co") = false
  /\ RegExp.test RegExp.emailRegex ("an" +:+ Utf8.eAcute +:+ "@shop.co") = true
  /\ RegExp.test RegExp.emailRegex (Utf8.grin +:+ "@shop.co") = true.
Proof. repeat split; reflexivity. Qed.

Example trim_spaces : JSString.trim "  a b  " = "a b".
Proof. reflexivity. Qed.

Example trim_white_space :
  JSString.trim (Utf8.nbsp +:+ " a b" +:+ Utf8.emSpace +:+ " ") = "a b"
  /\ JSString.trim (" " +:+ Utf8.eAcute +:+ Utf8.nbsp) = Utf8.eAcute.
Proof. split; reflexivity. Qed.

Example length_in_code_units :
  JSString.length "Ana" = 3%nat
  /\ JSString.length Utf8.eAcute = 1%nat /\ String.length Utf8.eAcute = 2%nat
  /\ JSString.length (Utf8.enye +:+ Utf8.enye +:+ Utf8.enye +:+ Utf8.enye +:+ Utf8.enye)
     = 5%nat
  /\ JSString.length Utf8.grin = 2%nat.
Proof. repeat split; reflexivity. Qed.

(** The white space of one byte is the white space below U+0080, and the
    code points that [trim] removes are the white space of the class. *)
Lemma isWhiteSpace_isSpace (c : ascii) :
  JSString.isWhiteSpace c
  = (N_of_ascii c <? 128)%N && JSString.isSpace (N_of_ascii c).
Proof. destruct c as [[] [] [] [] [] [] [] []]; reflexivity. Qed.

Example trim_removes_the_class :
  forallb (fun cp => String.eqb (JSString.trim (string_of_list_ascii (JSON.utf8 cp))) "")
    [9; 10; 11; 12; 13; 32; 160; 5760; 8192; 8193; 8194; 8195; 8196; 8197; 8198; 8199;
     8200; 8201; 8202; 8232; 8233; 8239; 8287; 12288; 65279]%N = true
  /\ forallb JSString.isSpace
       [9; 10; 11; 12; 13; 32; 160; 5760; 8192; 8193; 8194; 8195; 8196; 8197; 8198; 8199;
        8200; 8201; 8202; 8232; 8233; 8239; 8287; 12288; 65279]%N = true
  /\ forallb (fun cp => negb (JSString.isSpace cp)
                        && negb (String.eqb
                                   (JSString.trim (string_of_list_ascii (JSON.utf8 cp))) ""))
       [8; 14; 31; 33; 133; 159; 161; 5759; 6158; 8191; 8203; 8231; 8288; 12289; 65278]%N
     = true.
Proof. repeat split; reflexivity. Qed.

Example toUpperCase_mixed : JSString.toUpperCase "Approved" = "APPROVED".
Proof. reflexivity. Qed.

Example ofN_clock : JSString.ofN 1700000000000 = "1700000000000".
Proof. reflexivity. Qed.

Example parse_colors :
  JSON.parse colorsJson = Some (JSON.JArray [JSON.JString "red"; JSON.JString "blue"]).
Proof. reflexivity. Qed.

Example parse_malformed :
  JSON.parse "red,blue" = None /\ JSON.parse "" = None
  /\ JSON.parse "[1,]" = None /\ JSON.parse "[01]" = None.
Proof. repeat split; reflexivity. Qed.

Example parse_nested :
  JSON.parse "[[1, 2.5e3], {}, null, true] "
  = Some (JSON.JArray [JSON.JArray [JSON.JNumber "1"; JSON.JNumber "2.5e3"];
                       JSON.JObject []; JSON.JNull; JSON.JBool true]).
Proof. reflexivity. Qed.

Example parseInt_samples :
  JSParseInt.parseInt "42" = Some 42%Z
  /\ JSParseInt.parseInt " 7abc" = Some 7%Z
  /\ JSParseInt.parseInt "0x1f" = Some 31%Z
  /\ JSParseInt.parseInt "-3" = Some (-3)%Z
  /\ JSParseInt.parseInt "abc" = None
  /\ JSParseInt.parseInt "" = None.
Proof. repeat split; reflexivity. Qed.

(** ** Lists and lookups *)

Section Lookups.
Context {A : Type}.

Lemma firstWith_find (f : A -> bool) (rows : list A) (p : A) :
  firstWith f rows p -> find f rows = Some p.
Proof.
  intros (before & after & -> & Hp & Hnone).
  induction Hnone as [|q before Hq _ IH]; simpl.
  - now rewrite Hp.
  - now rewrite Hq.
Qed.

Lemma find_firstWith (f : A -> bool) (rows : list A) (p : A) :
  find f rows = Some p -> firstWith f rows p.
Proof.
  induction rows as [|q rows IH]; simpl; [discriminate|].
  destruct (f q) eqn:Hq.
  - intros [= ->]. exists [], rows. repeat split; auto.
  - intros H. destruct (IH H) as (before & after & -> & Hp & Hnone).
    exists (q :: before), after. repeat split; auto.
Qed.

Lemma noneWith_find (f : A -> bool) (rows : list A) :
  noneWith f rows -> find f rows = None.
Proof.
  induction 1 as [|q rows Hq _ IH]; simpl; [reflexivity|]. now rewrite Hq.
Qed.

Lemma find_noneWith (f : A -> bool) (rows : list A) :
  find f rows = None -> noneWith f rows.
Proof.
  induction rows as [|q rows IH]; simpl; [constructor|].
  destruct (f q) eqn:Hq; [discriminate|]. intros H. constructor; auto.
  now apply IH.
Qed.

End Lookups.

(** ** Payment reconciliation *)

Section Reconciliation.
Context {num : JSNumber}.

Lemma find_hasId_of_find (f : Purchase.t -> bool) (rows : list Purchase.t) (p : Purchase.t) :
  find f rows = Some p -> exists q, find (Prisma.hasId (Purchase.id p)) rows = Some q.
Proof.
  intros H. apply find_some in H as [Hin _].
  destruct (find (Prisma.hasId (Purchase.id p)) rows) eqn:E; [eauto|].
  exfalso. eapply find_none in E; [|exact Hin].
  unfold Prisma.hasId in E. now rewrite Z.eqb_refl in E.
Qed.

Lemma updatePaymentStatus_miss (tid status : string) (pd : option PaymentData.t)
  (w : World.t) :
  find (PurchaseService.hasTransactionId tid) (World.purchases w) = None ->
  (forall r, PurchaseService.referenceOf pd = Some r -> JSString.truthy r = true ->
             find (PurchaseService.hasExternalReference r) (World.purchases w) = None) ->
  PurchaseService.updatePaymentStatus tid status pd w = (Ok tt, w).
Proof.
  intros H1 H2. unfold PurchaseService.updatePaymentStatus, bind,
    Prisma.purchase_findFirst, gets, ret. rewrite H1.
  destruct (PurchaseService.referenceOf pd) as [r|] eqn:Er; [|reflexivity].
  destruct (JSString.truthy r) eqn:Et; [|reflexivity].
  now rewrite (H2 r eq_refl Et).
Qed.

Lemma updatePaymentStatus_hit (tid status : string) (pd : option PaymentData.t)
  (w : World.t) (p : Purchase.t) :
  let rows := World.purchases w in
  let data := PurchaseService.paymentStatusData tid status (World.now w) in
  find (PurchaseService.hasTransactionId tid) rows = Some p
  \/ (find (PurchaseService.hasTransactionId tid) rows = None
      /\ exists r, PurchaseService.referenceOf pd = Some r /\ JSString.truthy r = true
                   /\ find (PurchaseService.hasExternalReference r) rows = Some p) ->
  PurchaseService.updatePaymentStatus tid status pd w
  = (Ok tt,
     World.with_purchases (Prisma.updated (Purchase.id p) data rows)
       (World.purchaseSeq w) w).
Proof.
  intros rows data H. subst rows.
  unfold PurchaseService.updatePaymentStatus, bind, Prisma.purchase_findFirst, gets, ret.
  assert (Hupd : forall f, find f (World.purchases w) = Some p ->
            exists q,
              Prisma.purchase_update (Purchase.id p) data w
              = (Ok q,
                 World.with_purchases (Prisma.updated (Purchase.id p) data (World.purchases w))
                   (World.purchaseSeq w) w)).
  { intros f Hf. destruct (find_hasId_of_find _ _ _ Hf) as [q Hq].
    unfold Prisma.purchase_update. rewrite Hq. eauto. }
  subst data.
  destruct H as [H | (H1 & r & Hr & Ht & H)].
  - rewrite H. destruct (Hupd _ H) as [q Hq].
    destruct (PurchaseService.referenceOf pd); now rewrite Hq.
  - rewrite H1, Hr, Ht. unfold Prisma.purchase_findFirst, gets. rewrite H.
    destruct (Hupd _ H) as [q Hq]. now rewrite Hq.
Qed.

End Reconciliation.

Section ReconciliationContract.
Context {num : JSNumber}.

Lemma truthy_nonempty (s : string) : JSString.truthy s = true <-> s <> "".
Proof. destruct s; simpl; split; congruence. Qed.

Lemma hasTransactionId_spec (tid : string) (p : Purchase.t) :
  PurchaseService.hasTransactionId tid p = true <-> Purchase.wompiTransactionId p = Some tid.
Proof.
  unfold PurchaseService.hasTransactionId.
  destruct (Purchase.wompiTransactionId p) as [t|]; [|split; discriminate].
  rewrite String.eqb_eq. split; congruence.
Qed.

Lemma hasExternalReference_spec (r : string) (p : Purchase.t) :
  PurchaseService.hasExternalReference r p = true <-> Purchase.externalReference p = r.
Proof. apply String.eqb_eq. Qed.

Lemma Forall2_updated (R : Purchase.t -> Purchase.t -> Prop) (i : Z)
  (d : Purchase.UpdateInput) (rows : list Purchase.t) :
  (forall q, Purchase.id q = i -> R q (Purchase.apply d q)) ->
  (forall q, Purchase.id q <> i -> R q q) ->
  Forall2 R rows (Prisma.updated i d rows).
Proof.
  intros Hhit Hmiss. induction rows as [|q rows IH]; simpl; constructor; auto.
  unfold Prisma.hasId. destruct (Z.eqb_spec (Purchase.id q) i); auto.
Qed.

(** The row a notification is about: the first with the transaction id,
    else, when a non-empty reference comes with it, the first with that
    reference. *)
Lemma matched_cases (tid : string) (pd : option PaymentData.t)
  (rows : list Purchase.t) (p : Purchase.t) :
  firstWith (PurchaseService.hasTransactionId tid) rows p
  \/ (noneWith (PurchaseService.hasTransactionId tid) rows
      /\ exists r, (PurchaseService.referenceOf pd = Some r /\ r <> "")
                   /\ firstWith (PurchaseService.hasExternalReference r) rows p) ->
  find (PurchaseService.hasTransactionId tid) rows = Some p
  \/ (find (PurchaseService.hasTransactionId tid) rows = None
      /\ exists r, PurchaseService.referenceOf pd = Some r /\ JSString.truthy r = true
                   /\ find (PurchaseService.hasExternalReference r) rows = Some p).
Proof.
  intros [H | (H & r & (Hr & Hne) & Hp)].
  - left. now apply firstWith_find.
  - right. split; [now apply noneWith_find|]. exists r. repeat split; auto.
    + now apply truthy_nonempty.
    + now apply firstWith_find.
Qed.

Lemma find_among {A : Type} (f : A -> bool) (rows : list A) (p : A) :
  In p rows -> f p = true -> exists q, find f rows = Some q.
Proof.
  intros Hin Hp. destruct (find f rows) as [q|] eqn:E; [eauto|].
  apply (find_none _ _ E) in Hin. congruence.
Qed.

(** The lookup returns a row whenever there is one that it can return, and
    the row that it returns is one of those. *)
Lemma matchedBy_found (tid : string) (pd : option PaymentData.t)
  (rows : list Purchase.t) :
  (exists p, matchedBy tid pd rows p) ->
  exists q,
    matchedBy tid pd rows q
    /\ (find (PurchaseService.hasTransactionId tid) rows = Some q
        \/ (find (PurchaseService.hasTransactionId tid) rows = None
            /\ exists r, PurchaseService.referenceOf pd = Some r /\ JSString.truthy r = true
                         /\ find (PurchaseService.hasExternalReference r) rows = Some q)).
Proof.
  intros (p & Hin & Hp).
  destruct (find (PurchaseService.hasTransactionId tid) rows) as [q|] eqn:Etid.
  - exists q. pose proof (find_some _ _ Etid) as [Hqin Hq].
    split; [split; [exact Hqin|now left]|now left].
  - destruct Hp as [Hp | (Hnone & r & (Hr & Hne) & Hp)].
    + apply (find_none _ _ Etid) in Hin. congruence.
    + destruct (find_among _ rows p Hin Hp) as [q Hq].
      exists q. pose proof (find_some _ _ Hq) as [Hqin Hqr]. split.
      * split; [exact Hqin|]. right. split; [exact Hnone|]. exists r. auto.
      * right. split; [reflexivity|]. exists r. repeat split; auto.
        now apply truthy_nonempty.
Qed.

(** What a notification does when the lookup can return a row: the rows
    with the id of one such row are rewritten. *)
Lemma updatePaymentStatus_matched (tid status : string) (pd : option PaymentData.t)
  (w : World.t) :
  (exists p, matchedBy tid pd (World.purchases w) p) ->
  exists q,
    matchedBy tid pd (World.purchases w) q
    /\ PurchaseService.updatePaymentStatus tid status pd w
       = (Ok tt,
          World.with_purchases
            (Prisma.updated (Purchase.id q)
               (PurchaseService.paymentStatusData tid status (World.now w))
               (World.purchases w))
            (World.purchaseSeq w) w).
Proof.
  intros H. destruct (matchedBy_found tid pd _ H) as (q & Hq & Hfind).
  exists q. split; [exact Hq|]. now apply updatePaymentStatus_hit.
Qed.

(** C3. [updatePaymentStatus] looks the purchase up by the gateway's
    transaction id and, when that misses and a (non-empty) external
    reference is given, by that reference.  With no match it returns
    without error and leaves the world as it was.  With a match it returns
    without error, and a matching purchase has the given status and the
    current time as [updatedAt], whatever its status was and whatever the
    new status is; every other row, and everything outside the table, is
    kept.  The lookup has no order: when purchases with different ids
    match, the notification is applied to one of them, and when the
    matching rows are one purchase, to that purchase. *)
Theorem updatePaymentStatus_contract (tid status : string)
  (pd : option PaymentData.t) (w : World.t) :
  let rows := World.purchases w in
  let out := PurchaseService.updatePaymentStatus tid status pd w in
  let fallback r := PurchaseService.referenceOf pd = Some r /\ r <> "" in
  let appliedTo p :=
    fst out = Ok tt
    /\ sameButPurchases w (snd out)
    /\ Forall2 (fun old new =>
                  if Z.eqb (Purchase.id old) (Purchase.id p)
                  then Purchase.status new = status
                       /\ Purchase.updatedAt new = World.now w
                  else new = old)
         rows (World.purchases (snd out)) in
  (noneWith (PurchaseService.hasTransactionId tid) rows ->
   (forall r, fallback r -> noneWith (PurchaseService.hasExternalReference r) rows) ->
   out = (Ok tt, w))
  /\ ((exists p, matchedBy tid pd rows p) ->
      exists p, matchedBy tid pd rows p /\ appliedTo p)
  /\ (forall p, matchedBy tid pd rows p -> oneMatch tid pd rows -> appliedTo p).
Proof.
  cbv zeta.
  assert (Hsome : (exists p, matchedBy tid pd (World.purchases w) p) ->
            exists p,
              matchedBy tid pd (World.purchases w) p
              /\ fst (PurchaseService.updatePaymentStatus tid status pd w) = Ok tt
              /\ sameButPurchases w (snd (PurchaseService.updatePaymentStatus tid status pd w))
              /\ Forall2 (fun old new =>
                            if Z.eqb (Purchase.id old) (Purchase.id p)
                            then Purchase.status new = status
                                 /\ Purchase.updatedAt new = World.now w
                            else new = old)
                   (World.purchases w)
                   (World.purchases
                      (snd (PurchaseService.updatePaymentStatus tid status pd w)))).
  { intros H. destruct (updatePaymentStatus_matched tid status pd w H) as (q & Hq & Hrun).
    exists q. split; [exact Hq|]. rewrite Hrun. simpl.
    split; [reflexivity|]. split; [repeat split|].
    apply Forall2_updated.
    - intros x Hx. rewrite Hx, Z.eqb_refl. simpl. auto.
    - intros x Hx. apply Z.eqb_neq in Hx. now rewrite Hx. }
  split; [|split].
  - intros Hnone Href. apply updatePaymentStatus_miss.
    + now apply noneWith_find.
    + intros r Hr Ht. apply noneWith_find, Href. split; auto.
      now apply truthy_nonempty.
  - exact Hsome.
  - intros p Hp Hone. destruct (Hsome (ex_intro _ p Hp)) as (q & Hq & Hout).
    now rewrite (Hone p q Hp Hq).
Qed.

(** C10. Whenever [updatePaymentStatus] finds a purchase, the matched
    purchase also gets the caller's transaction id as its
    [wompiTransactionId]: a purchase found only through its external
    reference has its stored gateway id replaced.  Besides [status],
    [updatedAt] and [wompiTransactionId] no field of the row changes, and no
    other row changes.  As the lookup has no order, this is said of one of
    the matching purchases, and of the matching purchase when there is one
    only. *)
Theorem updatePaymentStatus_overwrites_transaction_id (tid status : string)
  (pd : option PaymentData.t) (w : World.t) :
  let rows := World.purchases w in
  let out := PurchaseService.updatePaymentStatus tid status pd w in
  let overwrittenOn p :=
    Forall2 (fun old new =>
               if Z.eqb (Purchase.id old) (Purchase.id p)
               then Purchase.wompiTransactionId new = Some tid /\ sameButPayment old new
               else new = old)
      rows (World.purchases (snd out)) in
  ((exists p, matchedBy tid pd rows p) ->
   exists p, matchedBy tid pd rows p /\ overwrittenOn p)
  /\ (forall p, matchedBy tid pd rows p -> oneMatch tid pd rows -> overwrittenOn p).
Proof.
  cbv zeta.
  assert (Hsome : (exists p, matchedBy tid pd (World.purchases w) p) ->
            exists p,
              matchedBy tid pd (World.purchases w) p
              /\ Forall2 (fun old new =>
                            if Z.eqb (Purchase.id old) (Purchase.id p)
                            then Purchase.wompiTransactionId new = Some tid
                                 /\ sameButPayment old new
                            else new = old)
                   (World.purchases w)
                   (World.purchases
                      (snd (PurchaseService.updatePaymentStatus tid status pd w)))).
  { intros H. destruct (updatePaymentStatus_matched tid status pd w H) as (q & Hq & Hrun).
    exists q. split; [exact Hq|]. rewrite Hrun. simpl.
    apply Forall2_updated.
    - intros x Hx. rewrite Hx, Z.eqb_refl. simpl. unfold sameButPayment. simpl.
      repeat split; reflexivity.
    - intros x Hx. apply Z.eqb_neq in Hx. now rewrite Hx. }
  split; [exact Hsome|].
  intros p Hp Hone. destruct (Hsome (ex_intro _ p Hp)) as (q & Hq & Hout).
  now rewrite (Hone p q Hp Hq).
Qed.

End ReconciliationContract.

(** In the ledger, the pending purchase is the one purchase with the
    reference [REF-2-bbbbbbbbb], and no purchase has the transaction [tx-2]. *)
Lemma sample_pending_by_reference :
  matchedBy "tx-2" (Some (PaymentData.mk (Some "REF-2-bbbbbbbbb")))
    (World.purchases Sample.ledger) Sample.pending
  /\ oneMatch "tx-2" (Some (PaymentData.mk (Some "REF-2-bbbbbbbbb")))
       (World.purchases Sample.ledger).
Proof.
  assert (Hall : forall q,
             matchedBy "tx-2" (Some (PaymentData.mk (Some "REF-2-bbbbbbbbb")))
               (World.purchases Sample.ledger) q ->
             Purchase.id q = 2%Z).
  { intros q [Hin [Htid | (_ & r & (Hr & _) & Href)]].
    - destruct Hin as [<- | [<- | []]]; discriminate Htid.
    - injection Hr as <-. destruct Hin as [<- | [<- | []]]; [discriminate Href|reflexivity]. }
  split.
  - split; [right; left; reflexivity|]. right. split; [repeat constructor|].
    exists "REF-2-bbbbbbbbb". split; [split; [reflexivity|discriminate]|reflexivity].
  - intros p q Hp Hq. now rewrite (Hall p Hp), (Hall q Hq).
Defined.

Lemma updatePaymentStatus_contract_witness :
  fst (PurchaseService.updatePaymentStatus "tx-2" "APPROVED"
         (Some (PaymentData.mk (Some "REF-2-bbbbbbbbb"))) Sample.ledger) = Ok tt
  /\ map Purchase.status
       (World.purchases
          (snd (PurchaseService.updatePaymentStatus "tx-2" "APPROVED"
                  (Some (PaymentData.mk (Some "REF-2-bbbbbbbbb"))) Sample.ledger)))
     = ["COMPLETED"; "APPROVED"].
Proof.
  split.
  - apply (proj2 (proj2 (updatePaymentStatus_contract "tx-2" "APPROVED"
                           (Some (PaymentData.mk (Some "REF-2-bbbbbbbbb"))) Sample.ledger))
             Sample.pending (proj1 sample_pending_by_reference)
             (proj2 sample_pending_by_reference)).
  - reflexivity.
Defined.

Lemma updatePaymentStatus_overwrites_transaction_id_witness :
  Forall2 (fun old new =>
             if Z.eqb (Purchase.id old) 2
             then Purchase.wompiTransactionId new = Some "tx-2" /\ sameButPayment old new
             else new = old)
    (World.purchases Sample.ledger)
    (World.purchases
       (snd (PurchaseService.updatePaymentStatus "tx-2" "APPROVED"
               (Some (PaymentData.mk (Some "REF-2-bbbbbbbbb"))) Sample.ledger))).
Proof.
  apply (proj2 (updatePaymentStatus_overwrites_transaction_id "tx-2" "APPROVED"
                  (Some (PaymentData.mk (Some "REF-2-bbbbbbbbb"))) Sample.ledger)
           Sample.pending (proj1 sample_pending_by_reference)
           (proj2 sample_pending_by_reference)).
Defined.

(** ** Purchase creation *)

Section Creation.
Context {num : JSNumber}.

Lemma bind_ok {A B : Type} (m : M A) (k : A -> M B) (w w' : World.t) (a : A) :
  m w = (Ok a, w') -> bind m k w = k a w'.
Proof. intros H. unfold bind. now rewrite H. Qed.

Lemma bind_err {A B : Type} (m : M A) (k : A -> M B) (w w' : World.t) (e : exn) :
  m w = (Err e, w') -> bind m k w = (Err e, w').
Proof. intros H. unfold bind. now rewrite H. Qed.

Lemma validateItem_ok (catalog : list Product.t) (item : CartItem.t)
  (v : ValidatedCartItem.t) :
  PurchaseService.validateItem catalog item = Ok v ->
  ValidatedCartItem.item v = item
  /\ ProductDataSource.getById catalog (CartItem.productId item)
     = Some (ValidatedCartItem.product v)
  /\ ValidatedCartItem.unitPrice v = Number (Product.price (ValidatedCartItem.product v))
  /\ ValidatedCartItem.totalPrice v = catalogLineTotal v.
Proof.
  unfold PurchaseService.validateItem, catalogLineTotal.
  destruct (falsy _ || leq_zero _); [discriminate|].
  destruct (ProductDataSource.getById catalog (CartItem.productId item)) as [p|];
    [|discriminate].
  destruct (negb _); [discriminate|].
  destruct (CartItem.selectedColor item) as [c|].
  - destruct (JSString.truthy c).
    + destruct (PurchaseService.availableColorsInclude _ _) as [[|]|]; try discriminate.
      intros [= <-]. simpl. auto.
    + intros [= <-]. simpl. auto.
  - intros [= <-]. simpl. auto.
Qed.

Lemma validateAndCalculateItems_ok (catalog : list Product.t) (items : list CartItem.t)
  (vs : list ValidatedCartItem.t) :
  PurchaseService.validateAndCalculateItems catalog items = Ok vs ->
  Forall2 (fun item v =>
             ValidatedCartItem.item v = item
             /\ ProductDataSource.getById catalog (CartItem.productId item)
                = Some (ValidatedCartItem.product v)
             /\ ValidatedCartItem.unitPrice v
                = Number (Product.price (ValidatedCartItem.product v))
             /\ ValidatedCartItem.totalPrice v = catalogLineTotal v)
    items vs.
Proof.
  revert vs. induction items as [|item items IH]; simpl; intros vs.
  - intros [= <-]. constructor.
  - destruct (PurchaseService.validateItem catalog item) as [v|] eqn:Ev; [|discriminate].
    destruct (PurchaseService.validateAndCalculateItems catalog items) as [vs'|];
      [|discriminate].
    intros [= <-]. constructor; [now apply validateItem_ok | now apply IH].
Qed.

Lemma totalOf_sum (vs : list ValidatedCartItem.t) :
  Forall (fun v => ValidatedCartItem.totalPrice v = catalogLineTotal v) vs ->
  PurchaseService.totalOf vs = sum (map catalogLineTotal vs).
Proof.
  unfold PurchaseService.totalOf, sum. generalize zero.
  induction vs as [|v vs IH]; simpl; intros acc H; [reflexivity|].
  inversion H as [|? ? Hv Hvs]; subst. rewrite Hv. now apply IH.
Qed.

Lemma adapter_create_world (d : OrderDetail.CreateInput) (w : World.t) :
  exists rows seq,
    snd (OrderDetailPrismaAdapter.create d w) = World.with_orderDetails rows seq w.
Proof.
  unfold OrderDetailPrismaAdapter.create, bind, Prisma.orderDetail_create, lift.
  destruct (OrderDetailPrismaAdapter.mapToOrderDetail _); simpl; eauto.
Qed.

Lemma keepsPurchases_trans (w1 w2 w3 : World.t) :
  keepsPurchases w1 w2 -> keepsPurchases w2 w3 -> keepsPurchases w1 w3.
Proof.
  intros (A1 & A2 & A3 & A4 & A5) (B1 & B2 & B3 & B4 & B5).
  repeat split; etransitivity; eauto.
Qed.

Lemma forEach_create_keeps (body : ValidatedCartItem.t -> OrderDetail.CreateInput)
  (vs : list ValidatedCartItem.t) (w : World.t) :
  keepsPurchases w
    (snd (forEach (fun item => do OrderDetailPrismaAdapter.create (body item) then ret tt)
            vs w)).
Proof.
  revert w. induction vs as [|v vs IH]; intros w; simpl.
  - repeat split.
  - destruct (adapter_create_world (body v) w) as (rows & seq & Hw).
    unfold bind at 1. unfold bind at 1.
    destruct (OrderDetailPrismaAdapter.create (body v) w) as [[a|e] w1];
      simpl in Hw; subst w1.
    + unfold ret at 1. eapply keepsPurchases_trans; [|apply IH]. repeat split.
    + simpl. repeat split.
Qed.

Lemma find_hasId_In (rows : list Purchase.t) (p : Purchase.t) :
  In p rows -> exists q, find (Prisma.hasId (Purchase.id p)) rows = Some q.
Proof.
  intros Hin. destruct (find (Prisma.hasId (Purchase.id p)) rows) eqn:E; [eauto|].
  exfalso. eapply find_none in E; [|exact Hin].
  unfold Prisma.hasId in E. now rewrite Z.eqb_refl in E.
Qed.

Lemma map_updated_keeps {X : Type} (f : Purchase.t -> X) (i : Z)
  (d : Purchase.UpdateInput) (rows : list Purchase.t) :
  (forall q, f (Purchase.apply d q) = f q) ->
  map f (Prisma.updated i d rows) = map f rows.
Proof.
  intros Hf. unfold Prisma.updated. rewrite map_map. apply map_ext.
  intros q. destruct (Prisma.hasId i q); auto.
Qed.

(** The run of [createPurchase] on a request that passes both validations:
    one row is added to the purchases table, and what the later update of
    that row keeps is, on every row, what it was; the response carries the
    total. *)
Lemma createPurchase_run (request : CreatePurchaseRequest.t) (w : World.t)
  (validated : list ValidatedCartItem.t) :
  PurchaseService.validatePurchaseRequest request = Ok tt ->
  PurchaseService.validateAndCalculateItems (World.products w)
    (CreatePurchaseRequest.items request) = Ok validated ->
  let total := PurchaseService.totalOf validated in
  let out := PurchaseService.createPurchase request w in
  let row := Prisma.newRow
               (PurchaseService.purchaseData request total
                  (PurchaseService.newExternalReference w)) w in
  (forall (X : Type) (f : Purchase.t -> X),
      (forall t q, f (Purchase.apply (PurchaseService.gatewayReferenceData t) q) = f q) ->
      map f (World.purchases (snd out)) = map f (World.purchases w) ++ [f row])
  /\ (forall response, fst out = Ok response ->
                       CreatePurchaseResponse.totalAmount response = total).
Proof.
  intros Hreq Hitems total out row.
  destruct out as [r w'] eqn:Eout. subst out. simpl fst. simpl snd.
  unfold PurchaseService.createPurchase in Eout.
  rewrite (bind_ok _ _ w w tt) in Eout by (unfold lift; now rewrite Hreq).
  rewrite (bind_ok _ _ w w validated) in Eout
    by (unfold bind, gets, lift; now rewrite Hitems).
  rewrite (bind_ok _ _ w w (PurchaseService.newExternalReference w)) in Eout
    by reflexivity.
  erewrite bind_ok in Eout by (unfold Prisma.purchase_create; reflexivity).
  fold total in Eout. fold row in Eout.
  change (Purchase.id row) with (World.purchaseSeq w) in Eout.
  match type of Eout with
  | bind (forEach ?f validated) ?k ?w1 = _ =>
      set (loop := forEach f validated) in Eout; set (w1' := w1) in Eout
  end.
  pose proof (forEach_create_keeps
                (PurchaseService.orderDetailOf (World.purchaseSeq w)) validated w1')
    as (K1 & K2 & K3 & K4 & K5).
  fold loop in K1, K2, K3, K4, K5.
  assert (Hrows : World.purchases w1' = World.purchases w ++ [row]) by reflexivity.
  assert (Hnew : exists q, find (Prisma.hasId (World.purchaseSeq w)) (World.purchases w1')
                           = Some q).
  { rewrite Hrows. apply (find_hasId_In (World.purchases w ++ [row]) row).
    apply in_or_app. right. left. reflexivity. }
  assert (Hgw : World.wompi w1' = World.wompi w) by reflexivity.
  clearbody w1'.
  unfold bind at 1 in Eout.
  destruct (loop w1') as [[[]|e] w2] eqn:Eloop; simpl in K1, K2, K3, K4, K5.
  - unfold bind at 1 in Eout. unfold WompiService.createPayment at 1 in Eout.
    replace (World.wompi w2) with (World.wompi w) in Eout
      by (now rewrite K4, Hgw).
    destruct (World.wompi w (PurchaseService.paymentOf request validated total))
      as [session|e] eqn:Egw.
    + unfold bind at 1 in Eout. destruct Hnew as [q Hq]. rewrite <- K1 in Hq.
      unfold Prisma.purchase_update at 1 in Eout. simpl World.purchases in Eout.
      rewrite Hq in Eout. unfold ret in Eout. injection Eout as <- <-.
      simpl World.purchases. split.
      * intros X f Hf. rewrite map_updated_keeps by apply Hf.
        now rewrite K1, Hrows, map_app.
      * now intros response [= <-].
    + injection Eout as <- <-. simpl. split; [|discriminate].
      intros X f Hf. now rewrite K1, Hrows, map_app.
  - injection Eout as <- <-. split; [|discriminate].
    intros X f Hf. now rewrite K1, Hrows, map_app.
Qed.

(** C1. For a request that passes both validations, the validated items
    are the items of the cart, each with the product that the catalog holds
    under its product id and that product's price as unit price; exactly one
    row is added to the purchases table, with [Math.round(total * 100)] as
    its amount, [total] being the sum of unit price times quantity over the
    validated items (the amounts of the rows already there are kept); and a
    response, when one is returned, carries [total] as [totalAmount]. *)
Theorem createPurchase_total (request : CreatePurchaseRequest.t) (w : World.t)
  (validated : list ValidatedCartItem.t) :
  PurchaseService.validatePurchaseRequest request = Ok tt ->
  PurchaseService.validateAndCalculateItems (World.products w)
    (CreatePurchaseRequest.items request) = Ok validated ->
  let total := sum (map catalogLineTotal validated) in
  let out := PurchaseService.createPurchase request w in
  Forall2 (fun item v =>
             ValidatedCartItem.item v = item
             /\ ProductDataSource.getById (World.products w) (CartItem.productId item)
                = Some (ValidatedCartItem.product v)
             /\ ValidatedCartItem.unitPrice v
                = Number (Product.price (ValidatedCartItem.product v)))
    (CreatePurchaseRequest.items request) validated
  /\ map Purchase.amount (World.purchases (snd out))
     = map Purchase.amount (World.purchases w) ++ [Math_round (mul total hundred)]
  /\ (forall response, fst out = Ok response ->
                       CreatePurchaseResponse.totalAmount response = total).
Proof.
  intros Hreq Hitems total out.
  pose proof (validateAndCalculateItems_ok _ _ _ Hitems) as Hvs.
  assert (Htotal : PurchaseService.totalOf validated = total).
  { apply totalOf_sum. clear -Hvs. induction Hvs; constructor; auto. tauto. }
  split.
  { eapply Forall2_impl; [exact Hvs|]. simpl. tauto. }
  destruct (createPurchase_run request w validated Hreq Hitems) as (Hrows & Hresp).
  rewrite Htotal in Hrows, Hresp. subst out.
  split; [|assumption].
  now rewrite (Hrows _ Purchase.amount) by reflexivity.
Qed.

End Creation.

Lemma createPurchase_total_witness :
  map Purchase.amount
    (World.purchases (snd (PurchaseService.createPurchase Sample.order Sample.shop)))
  = [10000%Z]
  /\ option_map CreatePurchaseResponse.totalAmount
       (match fst (PurchaseService.createPurchase Sample.order Sample.shop) with
        | Ok response => Some response
        | Err _ => None
        end)
     = Some 100%Z.
Proof.
  destruct (createPurchase_total Sample.order Sample.shop
              [ValidatedCartItem.mk Sample.twoLamps Sample.lamp 50%Z 100%Z]
              eq_refl eq_refl) as (_ & Hamount & Htotal).
  split; [exact Hamount|].
  destruct (fst (PurchaseService.createPurchase Sample.order Sample.shop))
    as [response|e] eqn:Hr; [|discriminate Hr].
  simpl. f_equal. exact (Htotal response eq_refl).
Defined.

(** ** Validation *)

Section Validation.
Context {num : JSNumber}.

Lemma includes_array_In (l : list JSON.value) (color : string) :
  existsb (fun v => match v with
                    | JSON.JString s => String.eqb s color
                    | _ => false
                    end) l = true
  <-> In (JSON.JString color) l.
Proof.
  rewrite existsb_exists. split.
  - intros (v & Hin & Hv). destruct v; try discriminate.
    apply String.eqb_eq in Hv. now subst.
  - intros Hin. exists (JSON.JString color). split; [assumption|].
    apply String.eqb_refl.
Qed.

Lemma availableColorsInclude_array (p : Product.t) (l : list JSON.value) (color : string) :
  colorsArray p l ->
  PurchaseService.availableColorsInclude (Product.colors p) color
  = Ok (existsb (fun v => match v with
                          | JSON.JString s => String.eqb s color
                          | _ => false
                          end) l).
Proof.
  unfold colorsArray, PurchaseService.availableColorsInclude. now intros ->.
Qed.

Lemma getById_In (catalog : list Product.t) (i : Z) (p : Product.t) :
  ProductDataSource.getById catalog i = Some p -> In p catalog.
Proof. intros H. now apply find_some in H. Qed.

Lemma validatePurchaseRequest_error (request : CreatePurchaseRequest.t) (e : exn) :
  PurchaseService.validatePurchaseRequest request = Err e ->
  exists message, e = ValidationError message.
Proof.
  unfold PurchaseService.validatePurchaseRequest.
  repeat match goal with
         | |- context [if ?b then _ else _] => destruct b
         end; intros [= <-]; eauto.
Qed.





(** A request that fails a validation fails as a whole, with the error of
    the validation, and the world is the one it started in. *)
Lemma createPurchase_rejected (request : CreatePurchaseRequest.t) (w : World.t) (e : exn) :
  PurchaseService.validatePurchaseRequest request = Err e
  \/ (PurchaseService.validatePurchaseRequest request = Ok tt
      /\ PurchaseService.validateAndCalculateItems (World.products w)
           (CreatePurchaseRequest.items request) = Err e) ->
  PurchaseService.createPurchase request w = (Err e, w).
Proof.
  intros [H | [H1 H2]]; unfold PurchaseService.createPurchase.
  - apply bind_err. unfold lift. now rewrite H.
  - rewrite (bind_ok _ _ w w tt) by (unfold lift; now rewrite H1).
    apply bind_err. unfold bind, gets, lift. now rewrite H2.
Qed.



(** C4, as amended.  For an item with a non-empty selected color that passes
    the checks before the color check: the colors of the product that are
    not a string count as the empty list, so the item is rejected with a
    [ValidationError]; when the colors string parses to a JSON array, the
    item is rejected, with a [ValidationError], exactly when the selected
    color is no element of the array, and is accepted otherwise; when the
    colors string is no JSON text, the check throws a [SyntaxError]. *)
Theorem color_check (catalog : list Product.t) (item : CartItem.t) (p : Product.t)
  (color : string) :
  falsy (CartItem.quantity item) || leq_zero (CartItem.quantity item) = false ->
  ProductDataSource.getById catalog (CartItem.productId item) = Some p ->
  Product.status p = "available" ->
  CartItem.selectedColor item = Some color ->
  color <> "" ->
  ((forall s, Product.colors p <> ColorsText s) ->
   isValidationError (PurchaseService.validateItem catalog item) = true)
  /\ (forall l, colorsArray p l ->
                (isValidationError (PurchaseService.validateItem catalog item) = true
                 <-> ~ In (JSON.JString color) l)
                /\ (In (JSON.JString color) l ->
                    exists v, PurchaseService.validateItem catalog item = Ok v))
  /\ (JSON.parse (PurchaseService.colorsString (Product.colors p)) = None ->
      PurchaseService.validateItem catalog item = Err SyntaxError).
Proof.
  intros Hq Hp Hs Hc Hne. apply truthy_nonempty in Hne.
  assert (Hrun : PurchaseService.validateItem catalog item
                 = match PurchaseService.availableColorsInclude (Product.colors p) color with
                   | Err e => Err e
                   | Ok true =>
                       Ok (ValidatedCartItem.mk item p (Number (Product.price p))
                             (mul (Number (Product.price p)) (CartItem.quantity item)))
                   | Ok false =>
                       Err (ValidationError
                              ("Color " +:+ color +:+ " not available for "
                               +:+ Product.name p))
                   end).
  { unfold PurchaseService.validateItem. rewrite Hq, Hp, Hs, Hc, Hne. reflexivity. }
  assert (Harray : forall l, colorsArray p l ->
            (isValidationError (PurchaseService.validateItem catalog item) = true
             <-> ~ In (JSON.JString color) l)
            /\ (In (JSON.JString color) l ->
                exists v, PurchaseService.validateItem catalog item = Ok v)).
  { intros l Hl. rewrite Hrun, (availableColorsInclude_array p l color Hl).
    destruct (existsb _ l) eqn:Ex.
    - apply includes_array_In in Ex. simpl. split; [split; [discriminate|tauto]|eauto].
    - assert (Hnot : ~ In (JSON.JString color) l).
      { intros Hin. apply includes_array_In in Hin. congruence. }
      simpl. split; [tauto|]. intros Hin. contradiction. }
  split; [|split].
  - intros Hnostr. apply (Harray []).
    + unfold colorsArray. destruct (Product.colors p) as [|s|l]; try reflexivity.
      now destruct (Hnostr s).
    + simpl. tauto.
  - exact Harray.
  - intros Hparse. rewrite Hrun. unfold PurchaseService.availableColorsInclude.
    now rewrite Hparse.
Qed.

End Validation.



Lemma color_check_counterexample :
  JSON.parse "red,blue" = None
  /\ PurchaseService.validateItem [Sample.plainLamp] Sample.redLamp = Err SyntaxError
  /\ isValidationError (PurchaseService.validateItem [Sample.plainLamp] Sample.redLamp)
     = false.
Proof. repeat split. Qed.

Lemma color_check_witness :
  isValidationError (PurchaseService.validateItem [Sample.lamp] Sample.greenLamp) = true
  /\ exists v, PurchaseService.validateItem [Sample.lamp] Sample.redLamp = Ok v.
Proof.
  split.
  - destruct (color_check [Sample.lamp] Sample.greenLamp Sample.lamp "green"
                eq_refl eq_refl eq_refl eq_refl ltac:(discriminate)) as (_ & Harray & _).
    apply (Harray [JSON.JString "red"; JSON.JString "blue"] eq_refl).
    intros [H | [H | []]]; discriminate.
  - destruct (color_check [Sample.lamp] Sample.redLamp Sample.lamp "red"
                eq_refl eq_refl eq_refl eq_refl ltac:(discriminate)) as (_ & Harray & _).
    apply (Harray [JSON.JString "red"; JSON.JString "blue"] eq_refl).
    left. reflexivity.
Defined.

(** ** The external reference *)

Section Reference.
Context {num : JSNumber}.

Lemma all_string_of_uint (d : Decimal.uint) :
  JSString.all JSString.isDigit (NilEmpty.string_of_uint d) = true.
Proof. induction d; simpl; auto. Qed.

Lemma ofN_digits (n : N) :
  JSString.ofN n <> "" /\ JSString.all JSString.isDigit (JSString.ofN n) = true.
Proof.
  unfold JSString.ofN, NilZero.string_of_uint.
  destruct (N.to_uint n) eqn:E; simpl; try (split; [discriminate|]);
    try apply all_string_of_uint; reflexivity.
Qed.

Lemma digit36_base36 (d : nat) : JSString.isBase36 (PurchaseService.digit36 d) = true.
Proof.
  unfold PurchaseService.digit36, JSString.isBase36, JSString.isDigit, JSString.isLower.
  assert (Hlt : (d mod 36 < 36)%nat) by (apply Nat.mod_upper_bound; discriminate).
  destruct (Nat.ltb_spec (d mod 36) 10).
  - rewrite nat_ascii_embedding by lia.
    apply orb_true_iff. left. apply andb_true_iff.
    split; apply Nat.leb_le; lia.
  - rewrite nat_ascii_embedding by lia.
    apply orb_true_iff. right. apply andb_true_iff.
    split; apply Nat.leb_le; lia.
Qed.

Lemma all_digits36 (ds : list nat) :
  JSString.all JSString.isBase36
    (string_of_list_ascii (map PurchaseService.digit36 ds)) = true.
Proof.
  induction ds as [|d ds IH]; simpl; [reflexivity|].
  now rewrite digit36_base36, IH.
Qed.

Lemma substring_all (p : ascii -> bool) (n m : nat) (s : string) :
  JSString.all p s = true -> JSString.all p (String.substring n m s) = true.
Proof.
  revert n m. induction s as [|c s IH]; intros n m H.
  - destruct n, m; reflexivity.
  - simpl in H. apply andb_true_iff in H as [Hc Hs].
    destruct n as [|n]; [destruct m as [|m]|]; simpl; auto.
    now rewrite Hc, IH.
Qed.

Lemma substring_length (m : nat) (s : string) :
  String.length (String.substring 0 m s) = Nat.min m (String.length s).
Proof.
  revert m. induction s as [|c s IH]; intros [|m]; simpl; auto.
Qed.

Lemma length_string_of_list_ascii (l : list ascii) :
  String.length (string_of_list_ascii l) = List.length l.
Proof. induction l as [|c l IH]; simpl; auto. Qed.

(** What [substr(2, 9)] keeps of the printed draw: its first nine digits
    of radix 36, or all of them when there are fewer. *)
Lemma random_suffix (w : World.t) :
  let sfx := JSString.substr 2 9 (PurchaseService.Math_random_toString36 w) in
  JSString.all JSString.isBase36 sfx = true
  /\ String.length sfx = Nat.min 9 (List.length (World.random36 w)).
Proof.
  cbv zeta.
  unfold PurchaseService.Math_random_toString36, JSString.substr.
  destruct (World.random36 w) as [|d ds]; [split; reflexivity|].
  change ("0." +:+ ?s) with (String "0" (String "." s)). cbn [String.substring].
  split; [apply substring_all, all_digits36|].
  now rewrite substring_length, length_string_of_list_ascii, length_map.
Qed.

Lemma newExternalReference_format (w : World.t) :
  RefFormat JSString.isBase36 (fun n => n = Nat.min 9 (List.length (World.random36 w)))
    (PurchaseService.newExternalReference w).
Proof.
  exists (JSString.ofN (World.now w)),
         (JSString.substr 2 9 (PurchaseService.Math_random_toString36 w)).
  destruct (ofN_digits (World.now w)) as [Hne Hdig].
  destruct (random_suffix w) as [Hall Hlen].
  unfold PurchaseService.newExternalReference. repeat split; auto.
Qed.

(** C5, as amended.  The purchase that [createPurchase] adds for a request
    that passes both validations has an external reference of the form
    [REF-], the clock in decimal digits, a hyphen, and characters among
    [0-9a-z]: nine of them when [Math.random().toString(36)] prints nine
    digits or more after [0.], and as many as it prints otherwise (none
    when [Math.random()] draws 0). *)
Theorem externalReference_format (request : CreatePurchaseRequest.t) (w : World.t)
  (validated : list ValidatedCartItem.t) :
  PurchaseService.validatePurchaseRequest request = Ok tt ->
  PurchaseService.validateAndCalculateItems (World.products w)
    (CreatePurchaseRequest.items request) = Ok validated ->
  exists reference,
    map Purchase.externalReference
      (World.purchases (snd (PurchaseService.createPurchase request w)))
    = map Purchase.externalReference (World.purchases w) ++ [reference]
    /\ reference = "REF-" +:+ JSString.ofN (World.now w) +:+ "-"
                   +:+ JSString.substr 2 9 (PurchaseService.Math_random_toString36 w)
    /\ RefFormat JSString.isBase36
         (fun n => n = Nat.min 9 (List.length (World.random36 w))) reference.
Proof.
  intros Hreq Hitems.
  destruct (createPurchase_run request w validated Hreq Hitems) as (Hrows & _).
  exists (PurchaseService.newExternalReference w). split; [|split].
  - now rewrite (Hrows _ Purchase.externalReference) by reflexivity.
  - reflexivity.
  - apply newExternalReference_format.
Qed.

End Reference.

Lemma append_cons (c : ascii) (s t : string) : String c s +:+ t = String c (s +:+ t).
Proof. reflexivity. Qed.

Lemma append_empty (t : string) : "" +:+ t = t.
Proof. reflexivity. Qed.

(** A run of digits followed by a hyphen can be read in one way only. *)
Lemma digits_hyphen_unique (ts ts' a b : string) :
  JSString.all JSString.isDigit ts = true ->
  JSString.all JSString.isDigit ts' = true ->
  ts +:+ "-" +:+ a = ts' +:+ "-" +:+ b ->
  ts = ts' /\ a = b.
Proof.
  revert ts'. induction ts as [|c ts IH]; intros [|c' ts'] H H'; simpl in *;
    rewrite ?append_cons, ?append_empty.
  - intros [= ->]. auto.
  - intros [= <- _]. discriminate.
  - intros [= -> _]. discriminate.
  - apply andb_true_iff in H as [_ H]. apply andb_true_iff in H' as [_ H'].
    intros [= -> Heq]. destruct (IH ts' H H' Heq) as [-> ->]. auto.
Qed.

Lemma externalReference_format_counterexample :
  map Purchase.externalReference
    (World.purchases (snd (PurchaseService.createPurchase Sample.order Sample.halfShop)))
  = ["REF-1700000000000-i"]
  /\ ~ RefFormat JSString.isAlphaNum (fun n => n = 9%nat) "REF-1700000000000-i".
Proof.
  split; [reflexivity|].
  intros (ts & sfx & Heq & _ & Hdig & _ & Hlen).
  change ("REF-1700000000000-i") with ("REF-" +:+ "1700000000000" +:+ "-" +:+ "i") in Heq.
  rewrite !(append_cons _ _ (_ +:+ "-" +:+ _)), !append_empty in Heq.
  injection Heq as Heq.
  destruct (digits_hyphen_unique "1700000000000" ts "i" sfx eq_refl Hdig Heq) as [_ <-].
  discriminate.
Qed.

Lemma externalReference_format_witness :
  exists reference,
    map Purchase.externalReference
      (World.purchases (snd (PurchaseService.createPurchase Sample.order Sample.shop)))
    = [] ++ [reference]
    /\ reference = "REF-1700000000000-a3m7z0i9r"
    /\ RefFormat JSString.isBase36 (fun n => n = 9%nat) reference.
Proof.
  exact (externalReference_format Sample.order Sample.shop
           [ValidatedCartItem.mk Sample.twoLamps Sample.lamp 50%Z 100%Z]
           eq_refl eq_refl).
Defined.

(** ** Statistics of the backup *)

#[local] Set Warnings "-clear-no-such-hyp".

Section Backup.
Context {num : JSNumber}.

Lemma filter_all {A : Type} (l : list A) : List.filter (fun _ => true) l = l.
Proof. induction l as [|x l IH]; simpl; congruence. Qed.

Lemma addSold_union (details : list (OrderDetail.t * option Product.t)) (sold : gset Z) :
  PurchaseService.addSold details sold
  = sold ∪ list_to_set (map (fun d => OrderDetail.productId (fst d)) details).
Proof.
  unfold PurchaseService.addSold. revert sold.
  induction details as [|d details IH]; intros sold; simpl.
  - set_solver.
  - rewrite IH. set_solver.
Qed.

(** One turn of the loop adds the amount and the products of a purchase
    whose status, in upper case, is APPROVED or COMPLETED, and of no other. *)
Lemma tally_step (s : PurchaseStatistics.t) (sold : gset Z)
  (p : Purchase.t * list (OrderDetail.t * option Product.t)) :
  let after := PurchaseService.tally (s, sold) p in
  PurchaseStatistics.totalRevenue (fst after)
  = (if PurchaseService.isSuccessfulPayment (Purchase.status (fst p))
     then add (PurchaseStatistics.totalRevenue s) (Purchase.amount (fst p))
     else PurchaseStatistics.totalRevenue s)
  /\ snd after
     = (if PurchaseService.isSuccessfulPayment (Purchase.status (fst p))
        then PurchaseService.addSold (snd p) sold
        else sold).
Proof.
  unfold PurchaseService.tally, PurchaseService.isSuccessfulPayment. simpl.
  destruct (String.eqb (JSString.toUpperCase (Purchase.status (fst p))) "APPROVED");
    [simpl; auto|].
  destruct (String.eqb (JSString.toUpperCase (Purchase.status (fst p))) "COMPLETED");
    [simpl; auto|].
  simpl.
  repeat match goal with
         | |- context [if ?b then _ else _] => destruct b
         end; simpl; auto.
Qed.

Lemma fold_tally (w : World.t) (ps : list Purchase.t) (s : PurchaseStatistics.t)
  (sold : gset Z) :
  let successful :=
    List.filter (fun p => PurchaseService.isSuccessfulPayment (Purchase.status p)) ps in
  let after :=
    fold_left PurchaseService.tally (map (fun p => (p, Prisma.orderDetailsOf w p)) ps)
      (s, sold) in
  PurchaseStatistics.totalRevenue (fst after)
  = fold_left add (map Purchase.amount successful) (PurchaseStatistics.totalRevenue s)
  /\ snd after
     = sold ∪ list_to_set
                (flat_map (fun p => map (fun d => OrderDetail.productId (fst d))
                                      (Prisma.orderDetailsOf w p)) successful).
Proof.
  cbv zeta. revert s sold. induction ps as [|p ps IH]; intros s sold.
  - simpl. split; [reflexivity | set_solver].
  - cbn [map fold_left List.filter].
    destruct (tally_step s sold (p, Prisma.orderDetailsOf w p)) as [Hr Hs].
    destruct (PurchaseService.tally (s, sold) (p, Prisma.orderDetailsOf w p))
      as [s' sold'] eqn:Et.
    cbn [fst snd] in Hr, Hs.
    destruct (IH s' sold') as [IHr IHs]. rewrite IHr, IHs, Hr, Hs.
    destruct (PurchaseService.isSuccessfulPayment (Purchase.status p));
      cbn [map fold_left flat_map].
    + split; [reflexivity|]. rewrite addSold_union, list_to_set_app_L.
      now rewrite (assoc_L (∪)).
    + split; reflexivity.
Qed.

(** The product ids of the line items of a purchase, as the export
    includes them, are those of the order details with its id as
    [purchaseId]. *)
Lemma orderDetailsOf_productIds (w : World.t) (p : Purchase.t) :
  map (fun d => OrderDetail.productId (fst d)) (Prisma.orderDetailsOf w p)
  = map OrderDetail.productId
      (List.filter (fun d => Z.eqb (OrderDetail.purchaseId d) (Purchase.id p))
         (World.orderDetails w)).
Proof. unfold Prisma.orderDetailsOf. now rewrite map_map. Qed.

(** C6.  In the statistics of [generateBackupData], [totalRevenue] is the
    sum of the amounts of exactly the purchases whose status (compared in
    upper case, as everywhere in the service) is APPROVED or COMPLETED,
    added in the order of the export, and [uniqueProductsSold] is the
    number of distinct product ids among the line items of those purchases
    only, the line items of a purchase being the order details of the table
    with the id of the purchase as [purchaseId]; of the six statuses of the
    life cycle, APPROVED and COMPLETED count and PENDING, CANCELLED, REJECTED
    and FAILED do not.  The export is a reordering of the whole purchases
    table, and the operation always returns and writes nothing. *)
Theorem generateBackupData_statistics (w : World.t) :
  let exported := merge_sort Prisma.byCreatedAtDesc (World.purchases w) in
  let successful :=
    List.filter (fun p => PurchaseService.isSuccessfulPayment (Purchase.status p))
      exported in
  let lineItems p :=
    List.filter (fun d => Z.eqb (OrderDetail.purchaseId d) (Purchase.id p))
      (World.orderDetails w) in
  let soldIds := flat_map (fun p => map OrderDetail.productId (lineItems p)) successful in
  exported ≡ₚ World.purchases w
  /\ map PurchaseService.isSuccessfulPayment
       ["APPROVED"; "COMPLETED"; "PENDING"; "CANCELLED"; "REJECTED"; "FAILED"]
     = [true; true; false; false; false; false]
  /\ exists backup,
      PurchaseService.generateBackupData w = (Ok backup, w)
      /\ PurchaseStatistics.totalRevenue (PurchaseService.statistics backup)
         = sum (map Purchase.amount successful)
      /\ exists distinct,
          NoDup distinct
          /\ (forall i, In i distinct <-> In i soldIds)
          /\ PurchaseStatistics.uniqueProductsSold (PurchaseService.statistics backup)
             = List.length distinct.
Proof.
  cbv zeta. split; [apply merge_sort_Permutation|]. split; [reflexivity|].
  eexists. split.
  { unfold PurchaseService.generateBackupData, bind, Prisma.purchase_findMany,
      Prisma.includeOrderDetails, gets, ret. rewrite filter_all. reflexivity. }
  simpl. unfold PurchaseService.statisticsOf.
  set (ps := merge_sort Prisma.byCreatedAtDesc (World.purchases w)).
  destruct (fold_tally w ps
              (PurchaseService.initialStatistics
                 (List.length (map (fun p => (p, Prisma.orderDetailsOf w p)) ps))) ∅)
    as [Hr Hs].
  destruct (fold_left PurchaseService.tally _ _) as [s sold]. simpl in Hr, Hs.
  simpl. split; [exact Hr|].
  exists (elements sold). split; [apply NoDup_elements|]. split.
  - intros i. rewrite <- !list_elem_of_In, elem_of_elements, Hs.
    rewrite elem_of_union, elem_of_list_to_set.
    erewrite flat_map_ext by (intros p; apply orderDetailsOf_productIds).
    split; [|tauto].
    intros [H | H]; [|exact H]. now apply not_elem_of_empty in H.
  - reflexivity.
Qed.

End Backup.

(** ** Purchases of a buyer *)

Section History.
Context {num : JSNumber}.




Lemma formatLine_unknown (d : OrderDetail.t) :
  Line.productName (PurchaseService.formatLine "Unknown Product" (d, None))
  = "Unknown Product".
Proof. reflexivity. Qed.


End History.

(** ** Resending the confirmation e-mail *)

Section Resend.
Context {num : JSNumber}.

Lemma findUnique_found (purchaseId : string) (i : Z) (w : World.t) (p : Purchase.t) :
  JSParseInt.parseInt purchaseId = Some i ->
  find (Prisma.hasId i) (World.purchases w) = Some p ->
  Prisma.purchase_findUnique (JSParseInt.parseInt purchaseId) w = (Ok (Some p), w).
Proof. intros -> Hp. unfold Prisma.purchase_findUnique. now rewrite Hp. Qed.

(** A lookup of a purchase that misses, for whatever reason, makes the
    operation fail without a write: with the error of the client or of the
    database when the id is not a number or out of the range of the column,
    and with [Error "Purchase not found"] otherwise. *)
Lemma findUnique_miss_run {A : Type} (purchaseId : string) (w : World.t)
  (k : Purchase.t -> M A) :
  (forall i, JSParseInt.parseInt purchaseId = Some i ->
             find (Prisma.hasId i) (World.purchases w) = None) ->
  bind (Prisma.purchase_findUnique (JSParseInt.parseInt purchaseId))
    (fun found => match found with
                  | None => throw (Error "Purchase not found")
                  | Some purchase => k purchase
                  end) w
  = (Err (match JSParseInt.parseInt purchaseId with
          | None => PrismaClientValidationError
          | Some i => if Prisma.int4 i then Error "Purchase not found" else DatabaseError
          end), w).
Proof.
  intros Hmiss. destruct (JSParseInt.parseInt purchaseId) as [i|] eqn:Hi; [|reflexivity].
  unfold bind, Prisma.purchase_findUnique. rewrite (Hmiss i eq_refl).
  now destruct (Prisma.int4 i).
Qed.


End Resend.



(** ** Correcting the buyer's data *)

Section Update.
Context {num : JSNumber}.

Lemma hasId_eq (i : Z) (p : Purchase.t) : Prisma.hasId i p = true -> Purchase.id p = i.
Proof. unfold Prisma.hasId. apply Z.eqb_eq. Qed.

Lemma given_some (f : option string) (s : string) :
  PurchaseService.given f = Some s <-> f = Some s /\ s <> "".
Proof.
  unfold PurchaseService.given.
  destruct f as [x|]; [|split; [discriminate|intros []; discriminate]].
  destruct x; simpl; split.
  - discriminate.
  - intros [[= <-] H]. contradiction.
  - intros [= <-]. split; [reflexivity|discriminate].
  - now intros [-> _].
Qed.

Lemma updatePurchase_run (purchaseId : string) (i : Z) (patch : UpdatePurchaseData.t)
  (w : World.t) (p : Purchase.t) :
  JSParseInt.parseInt purchaseId = Some i ->
  find (Prisma.hasId i) (World.purchases w) = Some p ->
  PurchaseService.updatePurchase purchaseId patch w
  = match PurchaseService.validateUpdate patch with
    | Err e => (Err e, w)
    | Ok _ =>
        let d := PurchaseService.dataToUpdate (World.now w) patch in
        (Ok (true, "Purchase updated successfully",
             PurchaseService.formatPurchase "Unknown Product"
               (Purchase.apply d p, Prisma.orderDetailsOf w (Purchase.apply d p))),
         World.with_purchases (Prisma.updated i d (World.purchases w))
           (World.purchaseSeq w) w)
    end.
Proof.
  intros Hid Hp. unfold PurchaseService.updatePurchase.
  rewrite (bind_ok _ _ w w _ (findUnique_found purchaseId i w p Hid Hp)).
  pose proof (find_some _ _ Hp) as [_ Hi]. apply hasId_eq in Hi.
  unfold bind at 1. unfold lift at 1.
  destruct (PurchaseService.validateUpdate patch) as [[]|e]; [|reflexivity].
  unfold bind, gets, Prisma.purchase_update, ret. rewrite Hi, Hp. reflexivity.
Qed.

(** C9, as amended.  For a purchase id that reads as the integer [i] of an
    existing purchase: a non-empty [buyerEmail] of the patch that does not
    match the e-mail pattern, and a non-empty [buyerName] shorter than two
    characters after trimming, make [updatePurchase] fail with an [Error]
    and write nothing; otherwise it succeeds, and in the purchases table the
    row of the purchase keeps every field but [buyerEmail], [buyerName],
    [buyerContactNumber] and [updatedAt], which become the non-empty fields
    of the patch (the name trimmed) and the current time, a field of the
    patch that is absent or empty leaving the stored value as it is; no
    other row and no other table changes. *)
Theorem updatePurchase_contract (purchaseId : string) (i : Z)
  (patch : UpdatePurchaseData.t) (w : World.t) (p : Purchase.t) :
  JSParseInt.parseInt purchaseId = Some i ->
  firstWith (Prisma.hasId i) (World.purchases w) p ->
  let out := PurchaseService.updatePurchase purchaseId patch w in
  (forall email, UpdatePurchaseData.buyerEmail patch = Some email -> email <> "" ->
                 RegExp.test RegExp.emailRegex email = false ->
                 isError (fst out) = true /\ snd out = w)
  /\ (forall name, UpdatePurchaseData.buyerName patch = Some name -> name <> "" ->
                   (JSString.length (JSString.trim name) < 2)%nat ->
                   isError (fst out) = true /\ snd out = w)
  /\ ((forall email, UpdatePurchaseData.buyerEmail patch = Some email -> email <> "" ->
                     RegExp.test RegExp.emailRegex email = true) ->
      (forall name, UpdatePurchaseData.buyerName patch = Some name -> name <> "" ->
                    (2 <= JSString.length (JSString.trim name))%nat) ->
      failed (fst out) = false
      /\ sameButPurchases w (snd out)
      /\ Forall2 (fun old new =>
                    if Z.eqb (Purchase.id old) i
                    then sameButBuyer old new
                         /\ Purchase.updatedAt new = World.now w
                         /\ Purchase.buyerEmail new
                            = PurchaseService.orElse (UpdatePurchaseData.buyerEmail patch)
                                (Purchase.buyerEmail old)
                         /\ Purchase.buyerName new
                            = match UpdatePurchaseData.buyerName patch with
                              | Some (String c name) => JSString.trim (String c name)
                              | _ => Purchase.buyerName old
                              end
                         /\ Purchase.buyerContactNumber new
                            = match UpdatePurchaseData.buyerContactNumber patch with
                              | Some (String c number) => Some (String c number)
                              | _ => Purchase.buyerContactNumber old
                              end
                    else new = old)
           (World.purchases w) (World.purchases (snd out))).
Proof.
  intros Hid Hp out. apply firstWith_find in Hp.
  subst out. rewrite (updatePurchase_run purchaseId i patch w p Hid Hp).
  unfold PurchaseService.validateUpdate, PurchaseService.checkEmail,
    PurchaseService.checkName.
  split; [|split].
  - intros email He Hne Hbad.
    rewrite (proj2 (given_some _ _) (conj He Hne)), Hbad. simpl. auto.
  - intros name Hn Hne Hshort.
    rewrite (proj2 (given_some _ _) (conj Hn Hne)).
    apply Nat.ltb_lt in Hshort. rewrite Hshort.
    destruct (PurchaseService.given (UpdatePurchaseData.buyerEmail patch)) as [email|];
      [destruct (negb _)|]; simpl; auto.
  - intros Hemail Hname.
    assert (He : match PurchaseService.given (UpdatePurchaseData.buyerEmail patch) with
                 | Some email =>
                     if negb (RegExp.test RegExp.emailRegex email)
                     then Err (Error "Invalid email format") else Ok tt
                 | None => Ok tt
                 end = Ok tt).
    { destruct (PurchaseService.given (UpdatePurchaseData.buyerEmail patch))
        as [email|] eqn:E; [|reflexivity].
      apply given_some in E as [E Hne]. now rewrite (Hemail email E Hne). }
    assert (Hn : match PurchaseService.given (UpdatePurchaseData.buyerName patch) with
                 | Some name =>
                     if Nat.ltb (JSString.length (JSString.trim name)) 2
                     then Err (Error "Buyer name must be at least 2 characters long")
                     else Ok tt
                 | None => Ok tt
                 end = Ok tt).
    { destruct (PurchaseService.given (UpdatePurchaseData.buyerName patch))
        as [name|] eqn:E; [|reflexivity].
      apply given_some in E as [E Hne]. specialize (Hname name E Hne).
      apply Nat.ltb_ge in Hname. now rewrite Hname. }
    rewrite He, Hn. cbv zeta. simpl fst. simpl snd.
    split; [reflexivity|]. split; [repeat split|].
    apply Forall2_updated.
    + intros q Hq. rewrite Hq, Z.eqb_refl. unfold sameButBuyer. simpl.
      repeat split.
      * unfold PurchaseService.orElse, PurchaseService.given.
        destruct (UpdatePurchaseData.buyerEmail patch) as [[|c e]|]; reflexivity.
      * unfold PurchaseService.given.
        destruct (UpdatePurchaseData.buyerName patch) as [[|c n]|]; reflexivity.
      * unfold PurchaseService.given.
        destruct (UpdatePurchaseData.buyerContactNumber patch) as [[|c n]|]; reflexivity.
    + intros q Hq. apply Z.eqb_neq in Hq. now rewrite Hq.
Qed.

End Update.

Lemma updatePurchase_contract_counterexample :
  UpdatePurchaseData.buyerEmail (UpdatePurchaseData.mk (Some "") (Some "") None) = Some ""
  /\ RegExp.test RegExp.emailRegex "" = false
  /\ Nat.ltb (JSString.length (JSString.trim "")) 2 = true
  /\ failed (fst (PurchaseService.updatePurchase "1"
                    (UpdatePurchaseData.mk (Some "") (Some "") None) Sample.ledger))
     = false
  /\ map Purchase.buyerEmail
       (World.purchases
          (snd (PurchaseService.updatePurchase "1"
                  (UpdatePurchaseData.mk (Some "") (Some "") None) Sample.ledger)))
     = ["ana@shop.co"; "ana@shop.co"].
Proof. repeat split. Qed.

Lemma updatePurchase_contract_witness :
  isError (fst (PurchaseService.updatePurchase "1"
                  (UpdatePurchaseData.mk (Some "ana.shop.co") None None) Sample.ledger))
  = true
  /\ snd (PurchaseService.updatePurchase "1"
            (UpdatePurchaseData.mk (Some "ana.shop.co") None None) Sample.ledger)
     = Sample.ledger
  /\ isError (fst (PurchaseService.updatePurchase "1"
                     (UpdatePurchaseData.mk None (Some ("A" +:+ Utf8.nbsp)) None)
                     Sample.ledger))
     = true
  /\ isError (fst (PurchaseService.updatePurchase "1"
                     (UpdatePurchaseData.mk None (Some Utf8.eAcute) None) Sample.ledger))
     = true
  /\ map Purchase.buyerName
       (World.purchases
          (snd (PurchaseService.updatePurchase "1"
                  (UpdatePurchaseData.mk None (Some (" Jos" +:+ Utf8.eAcute +:+ Utf8.nbsp))
                     None)
                  Sample.ledger)))
     = ["Jos" +:+ Utf8.eAcute; "Ana Ruiz"].
Proof.
  assert (Hpaid : firstWith (Prisma.hasId 1) (World.purchases Sample.ledger) Sample.paid).
  { exists [], [Sample.pending]. repeat split. constructor. }
  destruct (updatePurchase_contract "1" 1
              (UpdatePurchaseData.mk (Some "ana.shop.co") None None)
              Sample.ledger Sample.paid eq_refl Hpaid) as (Hemail & _).
  destruct (updatePurchase_contract "1" 1
              (UpdatePurchaseData.mk None (Some ("A" +:+ Utf8.nbsp)) None)
              Sample.ledger Sample.paid eq_refl Hpaid) as (_ & Hpadded & _).
  destruct (updatePurchase_contract "1" 1
              (UpdatePurchaseData.mk None (Some Utf8.eAcute) None)
              Sample.ledger Sample.paid eq_refl Hpaid) as (_ & Hletter & _).
  destruct (Hemail "ana.shop.co") as [He Hsame];
    [reflexivity | discriminate | reflexivity |].
  destruct (Hpadded ("A" +:+ Utf8.nbsp)) as [Hp _];
    [reflexivity | discriminate | change (1 < 2)%nat; lia |].
  destruct (Hletter Utf8.eAcute) as [Hl _];
    [reflexivity | discriminate | change (1 < 2)%nat; lia |].
  repeat split; assumption.
Defined.

(** * Properties of the rest of the code *)

(** ** What [createPurchase] writes *)

Section CreationEffects.
Context {num : JSNumber}.

(** One call of the data source's [create] on the table as modelled,
    where the insert itself succeeds: the row is written, and the call fails
    only with the [SyntaxError] of the product's images. *)
Lemma adapter_create_step (d : OrderDetail.CreateInput) (w : World.t) :
  exists row r,
    OrderDetailPrismaAdapter.create d w
    = (r, World.with_orderDetails (World.orderDetails w ++ [row])
            (World.orderDetailSeq w + 1) w)
    /\ OrderDetail.id row = World.orderDetailSeq w
    /\ OrderDetail.purchaseId row = OrderDetail.new_purchaseId d
    /\ OrderDetail.productId row = OrderDetail.new_productId d
    /\ OrderDetail.quantity row = OrderDetail.new_quantity d
    /\ OrderDetail.unitPrice row = toDecimal (OrderDetail.new_unitPrice d)
    /\ OrderDetail.totalPrice row = toDecimal (OrderDetail.new_totalPrice d)
    /\ OrderDetail.selectedColor row = OrderDetail.new_selectedColor d
    /\ match r with
       | Ok e => OrderDetailPrismaAdapter.row e = row
       | Err e => e = SyntaxError
       end.
Proof.
  unfold OrderDetailPrismaAdapter.create, bind, Prisma.orderDetail_create, lift.
  eexists. eexists. split; [reflexivity|]. simpl. repeat split.
  unfold OrderDetailPrismaAdapter.mapToOrderDetail.
  destruct (Prisma.productOf w _) as [p|]; [|reflexivity].
  destruct (JSON.parse (Product.images p)); reflexivity.
Qed.

(** The loop of [createPurchase] over the validated items: it writes the
    order details of the items in order and stops at the first item whose
    write throws; nothing else changes. *)
Lemma forEach_create_spec (i : Z) (vs : list ValidatedCartItem.t) (w w' : World.t)
  (r : Result unit) :
  forEach (fun item =>
             do OrderDetailPrismaAdapter.create (PurchaseService.orderDetailOf i item)
             then ret tt) vs w = (r, w') ->
  exists details,
    World.orderDetails w' = World.orderDetails w ++ details
    /\ sameButOrderDetails w w'
    /\ Forall2 (detailFor i) (firstn (List.length details) vs) details
    /\ map OrderDetail.id details = idsFrom (World.orderDetailSeq w) (List.length details)
    /\ World.orderDetailSeq w'
       = (World.orderDetailSeq w + Z.of_nat (List.length details))%Z
    /\ match r with
       | Ok _ => List.length details = List.length vs
       | Err e => e = SyntaxError
                  /\ (1 <= List.length details <= List.length vs)%nat
       end.
Proof.
  revert w. induction vs as [|v vs IH]; intros w Hrun.
  - injection Hrun as <- <-. exists []. simpl. rewrite app_nil_r, Z.add_0_r.
    repeat split; constructor.
  - cbn [forEach] in Hrun.
    destruct (adapter_create_step (PurchaseService.orderDetailOf i v) w)
      as (row & r1 & Hstep & H0 & H1 & H2 & H3 & H4 & H5 & H6 & Hr).
    unfold bind at 1 in Hrun. unfold bind at 1 in Hrun. rewrite Hstep in Hrun.
    assert (Hrow : detailFor i v row) by (repeat split; assumption).
    destruct r1 as [e|e].
    + unfold ret at 1 in Hrun.
      destruct (IH _ Hrun) as (details & Hd & Hsame & Hall & Hids & Hseq & Hres).
      exists (row :: details). simpl World.orderDetails in Hd.
      simpl World.orderDetailSeq in Hids, Hseq.
      rewrite Hd, <- app_assoc. split; [reflexivity|]. split.
      { destruct Hsame as (S1 & S2 & S3 & S4 & S5 & S6 & S7 & S8 & S9).
        repeat split; (etransitivity; [eassumption|reflexivity]). }
      split; [simpl; constructor; assumption|].
      split; [simpl; now rewrite H0, Hids|].
      split; [rewrite Hseq; simpl List.length; lia|].
      destruct r; simpl; [lia|]. destruct Hres as [-> Hle]. split; [reflexivity|lia].
    + injection Hrun as <- <-. subst e.
      exists [row]. simpl. split; [reflexivity|]. split; [repeat split|].
      split; [constructor; [assumption|constructor]|].
      split; [now rewrite H0|]. split; [reflexivity|]. split; [reflexivity|lia].
Qed.

Lemma updated_fresh (i : Z) (d : Purchase.UpdateInput) (rows : list Purchase.t)
  (row : Purchase.t) :
  noneWith (Prisma.hasId i) rows -> Purchase.id row = i ->
  Prisma.updated i d (rows ++ [row]) = rows ++ [Purchase.apply d row].
Proof.
  intros Hnone Hid. unfold Prisma.updated. rewrite map_app. simpl.
  unfold Prisma.hasId at 2. rewrite Hid, Z.eqb_refl. f_equal.
  induction Hnone as [|q rows Hq _ IH]; simpl; [reflexivity|].
  now rewrite Hq, IH.
Qed.

(** Every run of [createPurchase] on a request that passes both validations,
    in a world whose next purchase id is not in use, on the tables as
    modelled: the loop threw, or the gateway failed, or the purchase was
    linked to the gateway's transaction. *)
Lemma createPurchase_outcomes (request : CreatePurchaseRequest.t) (w w' : World.t)
  (validated : list ValidatedCartItem.t) (r : Result CreatePurchaseResponse.t) :
  PurchaseService.validatePurchaseRequest request = Ok tt ->
  PurchaseService.validateAndCalculateItems (World.products w)
    (CreatePurchaseRequest.items request) = Ok validated ->
  noneWith (Prisma.hasId (World.purchaseSeq w)) (World.purchases w) ->
  PurchaseService.createPurchase request w = (r, w') ->
  let total := PurchaseService.totalOf validated in
  let call := PurchaseService.paymentOf request validated total in
  let row := Prisma.newRow
               (PurchaseService.purchaseData request total
                  (PurchaseService.newExternalReference w)) w in
  exists details,
    World.orderDetails w' = World.orderDetails w ++ details
    /\ Forall2 (detailFor (World.purchaseSeq w))
         (firstn (List.length details) validated) details
    /\ World.emailsSent w' = World.emailsSent w
    /\ World.products w' = World.products w
    /\ (World.purchaseSeq w' = World.purchaseSeq w + 1)%Z
    /\ map OrderDetail.id details = idsFrom (World.orderDetailSeq w) (List.length details)
    /\ World.orderDetailSeq w'
       = (World.orderDetailSeq w + Z.of_nat (List.length details))%Z
    /\ World.mailer w' = World.mailer w
    /\ ((r = Err SyntaxError
         /\ World.purchases w' = World.purchases w ++ [row]
         /\ World.gatewayCalls w' = World.gatewayCalls w
         /\ (1 <= List.length details <= List.length validated)%nat)
        \/ (exists e, r = Err e /\ World.wompi w call = Err e
                      /\ World.purchases w' = World.purchases w ++ [row]
                      /\ World.gatewayCalls w' = World.gatewayCalls w ++ [call]
                      /\ List.length details = List.length validated)
        \/ (exists session,
               World.wompi w call = Ok session
               /\ r = Ok {| CreatePurchaseResponse.purchaseId := World.purchaseSeq w;
                            CreatePurchaseResponse.wompiTransactionId :=
                              Payment.transactionId session;
                            CreatePurchaseResponse.paymentUrl := Payment.paymentUrl session;
                            CreatePurchaseResponse.totalAmount := total;
                            CreatePurchaseResponse.items :=
                              map PurchaseService.lineOf validated |}
               /\ World.purchases w'
                  = World.purchases w
                    ++ [Purchase.apply
                          (PurchaseService.gatewayReferenceData
                             (Payment.transactionId session)) row]
               /\ World.gatewayCalls w' = World.gatewayCalls w ++ [call]
               /\ List.length details = List.length validated)).
Proof.
  intros Hreq Hitems Hfresh Eout total call row.
  unfold PurchaseService.createPurchase in Eout.
  rewrite (bind_ok _ _ w w tt) in Eout by (unfold lift; now rewrite Hreq).
  rewrite (bind_ok _ _ w w validated) in Eout
    by (unfold bind, gets, lift; now rewrite Hitems).
  rewrite (bind_ok _ _ w w (PurchaseService.newExternalReference w)) in Eout
    by reflexivity.
  erewrite bind_ok in Eout by (unfold Prisma.purchase_create; reflexivity).
  fold total in Eout. fold row in Eout. fold call in Eout.
  change (Purchase.id row) with (World.purchaseSeq w) in Eout.
  unfold bind at 1 in Eout.
  match type of Eout with
  | context [forEach ?f validated ?w1] =>
      destruct (forEach f validated w1) as [rl w2] eqn:Eloop
  end.
  destruct (forEach_create_spec _ _ _ _ _ Eloop)
    as (details & Hd & (S1 & S2 & S3 & S4 & S5 & S6 & S7 & S8 & S9) & Hall & Hids & Hseq
        & Hres).
  simpl in Hd, S1, S2, S3, S4, S5, S6, S7, S8, S9, Hids, Hseq.
  destruct rl as [[]|e].
  - unfold bind at 1 in Eout. unfold WompiService.createPayment at 1 in Eout.
    rewrite S6 in Eout.
    destruct (World.wompi w call) as [session|e] eqn:Egw.
    + unfold bind at 1 in Eout. unfold Prisma.purchase_update at 1 in Eout.
      simpl World.purchases in Eout. rewrite S1 in Eout.
      destruct (find_hasId_In (World.purchases w ++ [row]) row) as [q Hq].
      { apply in_or_app. right. left. reflexivity. }
      change (Purchase.id row) with (World.purchaseSeq w) in Hq.
      rewrite Hq in Eout. unfold ret in Eout. injection Eout as <- <-.
      exists details. simpl. rewrite S4, S5, S2, S3, S7.
      repeat split; auto. right. right. exists session.
      rewrite (updated_fresh _ _ _ row Hfresh eq_refl). repeat split; auto.
    + injection Eout as <- <-. exists details. simpl. rewrite S1, S4, S5, S2, S3, S7.
      repeat split; auto. right. left. exists e. repeat split; auto.
  - injection Eout as <- <-. destruct Hres as [-> Hle].
    exists details. rewrite S1, S4, S5, S2, S3, S7. repeat split; auto.
Qed.

End CreationEffects.

Section CreationContracts.
Context {num : JSNumber}.

(** X1.  When [createPurchase] returns a response (for a request that passes
    both validations, in a world whose next purchase id is not in use), the
    gateway has answered the one call made to it, which carries the total
    (not the amount in cents) and the product ids of the cart; one purchase
    row has been added, PENDING, with the gateway's transaction id both as
    [preferenceId] and as [wompiTransactionId]; one order detail has been
    added per validated item, in the order of the cart, all for the new
    purchase; no e-mail is sent; and the response names the new purchase,
    the transaction, the payment URL and one line per item. *)
Theorem createPurchase_success_effects (request : CreatePurchaseRequest.t)
  (w w' : World.t) (validated : list ValidatedCartItem.t)
  (response : CreatePurchaseResponse.t) :
  PurchaseService.validatePurchaseRequest request = Ok tt ->
  PurchaseService.validateAndCalculateItems (World.products w)
    (CreatePurchaseRequest.items request) = Ok validated ->
  noneWith (Prisma.hasId (World.purchaseSeq w)) (World.purchases w) ->
  PurchaseService.createPurchase request w = (Ok response, w') ->
  exists session call row details,
    World.gatewayCalls w' = World.gatewayCalls w ++ [call]
    /\ World.wompi w call = Ok session
    /\ Payment.amount call = PurchaseService.totalOf validated
    /\ Payment.wallpaperNumbers call = map ValidatedCartItem.productId validated
    /\ Payment.buyerEmail call = CreatePurchaseRequest.buyerEmail request
    /\ World.purchases w' = World.purchases w ++ [row]
    /\ Purchase.id row = World.purchaseSeq w
    /\ Purchase.status row = "PENDING"
    /\ Purchase.preferenceId row = Payment.transactionId session
    /\ Purchase.wompiTransactionId row = Some (Payment.transactionId session)
    /\ Purchase.buyerEmail row = CreatePurchaseRequest.buyerEmail request
    /\ World.orderDetails w' = World.orderDetails w ++ details
    /\ Forall2 (detailFor (World.purchaseSeq w)) validated details
    /\ World.emailsSent w' = World.emailsSent w
    /\ CreatePurchaseResponse.purchaseId response = World.purchaseSeq w
    /\ CreatePurchaseResponse.wompiTransactionId response = Payment.transactionId session
    /\ CreatePurchaseResponse.paymentUrl response = Payment.paymentUrl session
    /\ CreatePurchaseResponse.items response = map PurchaseService.lineOf validated.
Proof.
  intros Hreq Hitems Hfresh Hrun.
  destruct (createPurchase_outcomes request w w' validated _ Hreq Hitems Hfresh Hrun)
    as (details & Hd & Hall & Hmail & _ & _ & _ & _ & _
        & [(Hr & _) | [(e & Hr & _) | Hok]]);
    try discriminate.
  destruct Hok as (session & Hgw & Hr & Hrows & Hcalls & Hlen).
  injection Hr as ->.
  exists session, (PurchaseService.paymentOf request validated
                     (PurchaseService.totalOf validated)).
  eexists. exists details.
  rewrite Hlen, firstn_all in Hall.
  split; [exact Hcalls|]. split; [exact Hgw|]. do 3 (split; [reflexivity|]).
  split; [exact Hrows|]. simpl. repeat split; assumption.
Qed.

(** X2.  When [createPurchase] fails after both validations have passed (in
    a world whose next purchase id is not in use), nothing is rolled back:
    the new purchase row stays, PENDING, with an empty [preferenceId] and no
    [wompiTransactionId], and so do the order details written so far, which
    are those of the first items of the cart, none of them when the first
    write already fails.  No e-mail is sent.  Either the gateway was never
    called, or all the order details were written and the one call to the
    gateway failed with the error that is returned. *)
Theorem createPurchase_failure_keeps_writes (request : CreatePurchaseRequest.t)
  (w w' : World.t) (validated : list ValidatedCartItem.t) (e : exn) :
  PurchaseService.validatePurchaseRequest request = Ok tt ->
  PurchaseService.validateAndCalculateItems (World.products w)
    (CreatePurchaseRequest.items request) = Ok validated ->
  noneWith (Prisma.hasId (World.purchaseSeq w)) (World.purchases w) ->
  PurchaseService.createPurchase request w = (Err e, w') ->
  exists row details,
    World.purchases w' = World.purchases w ++ [row]
    /\ pendingWithoutReference request (World.purchaseSeq w) row
    /\ World.orderDetails w' = World.orderDetails w ++ details
    /\ Forall2 (detailFor (World.purchaseSeq w))
         (firstn (List.length details) validated) details
    /\ World.emailsSent w' = World.emailsSent w
    /\ (World.gatewayCalls w' = World.gatewayCalls w
        \/ (exists call,
               World.gatewayCalls w' = World.gatewayCalls w ++ [call]
               /\ World.wompi w call = Err e
               /\ List.length details = List.length validated)).
Proof.
  intros Hreq Hitems Hfresh Hrun.
  destruct (createPurchase_outcomes request w w' validated _ Hreq Hitems Hfresh Hrun)
    as (details & Hd & Hall & Hmail & _ & _ & _ & _ & _ & Hcases).
  eexists. exists details.
  destruct Hcases as [(Hr & Hrows & Hcalls & Hle) | [(e' & Hr & Hgw & Hrows & Hcalls & Hlen)
                                                    | (session & _ & Hr & _)]];
    try discriminate.
  - injection Hr as ->. split; [exact Hrows|].
    split; [repeat split|]. repeat split; auto.
  - injection Hr as <-. split; [exact Hrows|].
    split; [repeat split|]. repeat split; auto. right. eexists. repeat split; eauto.
Qed.

End CreationContracts.

Lemma createPurchase_success_effects_witness :
  exists row detail,
    World.purchases (snd (PurchaseService.createPurchase Sample.order Sample.shop)) = [row]
    /\ Purchase.preferenceId row = "tx-100"
    /\ Purchase.wompiTransactionId row = Some "tx-100"
    /\ World.orderDetails (snd (PurchaseService.createPurchase Sample.order Sample.shop))
       = [detail]
    /\ OrderDetail.purchaseId detail = 10%Z
    /\ OrderDetail.totalPrice detail = 100%Z
    /\ map Payment.amount
         (World.gatewayCalls (snd (PurchaseService.createPurchase Sample.order Sample.shop)))
       = [100%Z].
Proof.
  destruct (createPurchase_success_effects Sample.order Sample.shop
              (snd (PurchaseService.createPurchase Sample.order Sample.shop))
              Scenario.validatedLamps
              ltac:(let r := eval vm_compute in
                      (fst (PurchaseService.createPurchase Sample.order Sample.shop)) in
                    match r with Ok ?x => exact x end)
              eq_refl eq_refl (List.Forall_nil _) eq_refl)
    as (session & call & row & details & Hcalls & Hgw & Hamount & _ & _ & Hrows & _ & _
        & Hpref & Htx & _ & Hd & Hall & _).
  injection Hgw as <-.
  inversion Hall as [|v d vs ds Hv Hrest]; subst. inversion Hrest; subst.
  destruct Hv as (Hp & _ & _ & _ & Ht & _).
  exists row, d. split; [exact Hrows|]. split; [exact Hpref|]. split; [exact Htx|].
  split; [exact Hd|]. split; [exact Hp|]. split; [exact Ht|].
  rewrite Hcalls. simpl. now rewrite Hamount.
Defined.

Lemma createPurchase_failure_keeps_writes_witness :
  exists row detail,
    fst (PurchaseService.createPurchase Sample.order Scenario.downShop)
    = Err (CollaboratorError "gateway timeout")
    /\ World.purchases (snd (PurchaseService.createPurchase Sample.order Scenario.downShop))
       = [row]
    /\ Purchase.status row = "PENDING"
    /\ Purchase.wompiTransactionId row = None
    /\ World.orderDetails
         (snd (PurchaseService.createPurchase Sample.order Scenario.downShop))
       = [detail]
    /\ OrderDetail.purchaseId detail = 10%Z.
Proof.
  destruct (createPurchase_failure_keeps_writes Sample.order Scenario.downShop
              (snd (PurchaseService.createPurchase Sample.order Scenario.downShop))
              Scenario.validatedLamps (CollaboratorError "gateway timeout")
              eq_refl eq_refl (List.Forall_nil _) eq_refl)
    as (row & details & Hrows & (_ & _ & Hst & _ & _ & Htx) & Hd & Hall & _
        & [Hcalls | (call & _ & _ & Hlen)]); [discriminate Hcalls|].
  destruct details as [|d [|d' ds]]; try discriminate Hlen.
  inversion Hall as [|v d0 vs ds Hv Hrest]; subst.
  destruct Hv as (Hp & _).
  exists row, d. repeat split; assumption.
Defined.

(** ** Notifications of the gateway *)

Section Notifications.
Context {num : JSNumber}.

Lemma apply_paymentStatusData_twice (tid s1 s2 : string) (t1 t2 : N) (q : Purchase.t) :
  Purchase.apply (PurchaseService.paymentStatusData tid s2 t2)
    (Purchase.apply (PurchaseService.paymentStatusData tid s1 t1) q)
  = Purchase.apply (PurchaseService.paymentStatusData tid s2 t2) q.
Proof. reflexivity. Qed.

Lemma updated_twice (i : Z) (d1 d2 : Purchase.UpdateInput) (rows : list Purchase.t) :
  (forall q, Purchase.apply d2 (Purchase.apply d1 q) = Purchase.apply d2 q) ->
  Prisma.updated i d2 (Prisma.updated i d1 rows) = Prisma.updated i d2 rows.
Proof.
  intros Htwice. unfold Prisma.updated. rewrite map_map. apply map_ext. intros q.
  destruct (Prisma.hasId i q) eqn:Hq.
  - change (Prisma.hasId i (Purchase.apply d1 q)) with (Prisma.hasId i q).
    rewrite Hq. apply Htwice.
  - now rewrite Hq.
Qed.

(** After a notification for [tid] has been applied to the rows with the
    id [i], the first purchase with the transaction id [tid] has the id [i]. *)
Lemma find_transaction_updated (tid status : string) (t : N) (i : Z)
  (before after : list Purchase.t) (p : Purchase.t) :
  Purchase.id p = i ->
  Forall (fun q => PurchaseService.hasTransactionId tid q = false) before ->
  exists q,
    find (PurchaseService.hasTransactionId tid)
      (Prisma.updated i (PurchaseService.paymentStatusData tid status t)
         (before ++ p :: after)) = Some q
    /\ Purchase.id q = i.
Proof.
  intros Hp Hbefore.
  assert (Hset : forall q,
             PurchaseService.hasTransactionId tid
               (Purchase.apply (PurchaseService.paymentStatusData tid status t) q) = true).
  { intros q. unfold PurchaseService.hasTransactionId. simpl. apply String.eqb_refl. }
  assert (Hi : Prisma.hasId i p = true) by (unfold Prisma.hasId; now rewrite Hp, Z.eqb_refl).
  unfold Prisma.updated.
  induction Hbefore as [|x before Hx _ IH]; cbn [app map find].
  - rewrite Hi, Hset. eexists. split; [reflexivity|]. exact Hp.
  - destruct (Prisma.hasId i x) eqn:Hix.
    + rewrite Hset. eexists. split; [reflexivity|]. now apply hasId_eq.
    + rewrite Hx. exact IH.
Qed.

Lemma reconciles_split (tid : string) (pd : option PaymentData.t)
  (rows : list Purchase.t) (p : Purchase.t) :
  reconciles tid pd rows p ->
  exists before after,
    rows = before ++ p :: after
    /\ Forall (fun q => PurchaseService.hasTransactionId tid q = false) before.
Proof.
  intros [(before & after & -> & _ & Hb) | (Hnone & r & _ & (before & after & -> & _ & _))].
  - exists before, after. split; [reflexivity|exact Hb].
  - exists before, after. split; [reflexivity|].
    apply Forall_app in Hnone. tauto.
Qed.

Lemma notified_hit (tid status : string) (pd : option PaymentData.t) (t : N)
  (w : World.t) (p : Purchase.t) :
  reconciles tid pd (World.purchases w) p ->
  notified tid status pd t w
  = World.with_purchases
      (Prisma.updated (Purchase.id p) (PurchaseService.paymentStatusData tid status t)
         (World.purchases w))
      (World.purchaseSeq w) (at_time t w).
Proof.
  intros Hp. unfold notified.
  now rewrite (updatePaymentStatus_hit tid status pd (at_time t w) p (matched_cases _ _ _ _ Hp)).
Qed.

(** Every notification either finds its purchase or changes nothing. *)
Lemma reconciles_or_not (tid : string) (pd : option PaymentData.t) (w : World.t) :
  (exists p, reconciles tid pd (World.purchases w) p)
  \/ (forall status t, notified tid status pd t w = at_time t w).
Proof.
  destruct (find (PurchaseService.hasTransactionId tid) (World.purchases w)) as [p|] eqn:Htid.
  { left. exists p. left. now apply find_firstWith. }
  destruct (PurchaseService.referenceOf pd) as [r|] eqn:Hr.
  - destruct (JSString.truthy r) eqn:Htruthy.
    + destruct (find (PurchaseService.hasExternalReference r) (World.purchases w))
        as [p|] eqn:Href.
      * left. exists p. right. split; [now apply find_noneWith|].
        exists r. split; [split; [exact Hr|now apply truthy_nonempty]|].
        now apply find_firstWith.
      * right. intros status t. unfold notified.
        rewrite updatePaymentStatus_miss; [reflexivity|exact Htid|].
        intros r' Hr' _. rewrite Hr in Hr'. injection Hr' as <-. exact Href.
    + right. intros status t. unfold notified.
      rewrite updatePaymentStatus_miss; [reflexivity|exact Htid|].
      intros r' Hr' Ht'. rewrite Hr in Hr'. injection Hr' as <-. congruence.
  - right. intros status t. unfold notified.
    rewrite updatePaymentStatus_miss; [reflexivity|exact Htid|].
    intros r' Hr'. rewrite Hr in Hr'. discriminate.
Qed.

(** A row that the lookup can return gives the first such row of the
    table. *)
Lemma matchedBy_reconciles (tid : string) (pd : option PaymentData.t)
  (rows : list Purchase.t) (p : Purchase.t) :
  matchedBy tid pd rows p -> exists q, matchedBy tid pd rows q /\ reconciles tid pd rows q.
Proof.
  intros Hp. destruct (matchedBy_found tid pd rows (ex_intro _ p Hp)) as (q & Hq & Hfind).
  exists q. split; [exact Hq|].
  destruct Hfind as [Hfind | (Hnone & r & Hr & Ht & Hfind)].
  - left. now apply find_firstWith.
  - right. split; [now apply find_noneWith|]. exists r.
    split; [split; [exact Hr|now apply truthy_nonempty]|now apply find_firstWith].
Qed.

(** X3.  A later notification for the same transaction overwrites an earlier
    one without a trace, when the rows that the notification can be applied
    to are one purchase: handling [s1] at [t1] and then [s2] at [t2] leaves
    the world that handling [s2] at [t2] alone leaves, whatever the two
    statuses are (no transition is refused, so a purchase can go back from
    APPROVED to PENDING), and handling the same notification twice at the
    same time is handling it once.  Once a notification has found its
    purchase, a later one for the same transaction id finds the same purchase
    whatever payment data it carries. *)
Theorem later_notification_wins (tid s1 s2 : string) (pd : option PaymentData.t)
  (t1 t2 : N) (w : World.t) :
  oneMatch tid pd (World.purchases w) ->
  notified tid s2 pd t2 (notified tid s1 pd t1 w) = notified tid s2 pd t2 w
  /\ notified tid s1 pd t1 (notified tid s1 pd t1 w) = notified tid s1 pd t1 w
  /\ (forall p pd',
         matchedBy tid pd (World.purchases w) p ->
         notified tid s2 pd' t2 (notified tid s1 pd t1 w) = notified tid s2 pd t2 w).
Proof.
  intros Hone.
  assert (Hfound : forall s s' t t' p pd',
             reconciles tid pd (World.purchases w) p ->
             notified tid s' pd' t' (notified tid s pd t w) = notified tid s' pd t' w).
  { intros s s' t t' p pd' Hp.
    rewrite (notified_hit tid s pd t w p Hp), (notified_hit tid s' pd t' w p Hp).
    destruct (reconciles_split _ _ _ _ Hp) as (before & after & Hrows & Hbefore).
    destruct (find_transaction_updated tid s t (Purchase.id p) before after p eq_refl Hbefore)
      as (q & Hq & Hid).
    rewrite <- Hrows in Hq.
    rewrite (notified_hit tid s' pd' t' _ q).
    - simpl World.purchases. rewrite Hid, updated_twice by apply apply_paymentStatusData_twice.
      reflexivity.
    - left. apply find_firstWith. exact Hq. }
  assert (Hany : forall s s' t t',
             notified tid s' pd t' (notified tid s pd t w) = notified tid s' pd t' w).
  { intros s s' t t'. destruct (reconciles_or_not tid pd w) as [[p Hp] | Hmiss].
    - now apply (Hfound s s' t t' p pd).
    - rewrite (Hmiss s t). unfold notified. reflexivity. }
  split; [apply Hany|]. split; [apply Hany|].
  intros p pd' Hp. destruct (matchedBy_reconciles tid pd _ p Hp) as (q & _ & Hq).
  now apply (Hfound s1 s2 t1 t2 q pd').
Qed.

End Notifications.

Lemma later_notification_wins_witness :
  notified "tx-2" "REJECTED" (Some (PaymentData.mk (Some "REF-2-bbbbbbbbb"))) 1700000060000
    (notified "tx-2" "APPROVED" (Some (PaymentData.mk (Some "REF-2-bbbbbbbbb")))
       1700000030000 Sample.ledger)
  = notified "tx-2" "REJECTED" (Some (PaymentData.mk (Some "REF-2-bbbbbbbbb")))
      1700000060000 Sample.ledger
  /\ map Purchase.status
       (World.purchases
          (notified "tx-2" "REJECTED" (Some (PaymentData.mk (Some "REF-2-bbbbbbbbb")))
             1700000060000 Sample.ledger))
     = ["COMPLETED"; "REJECTED"].
Proof.
  split; [|reflexivity].
  exact (proj1 (later_notification_wins "tx-2" "APPROVED" "REJECTED"
                  (Some (PaymentData.mk (Some "REF-2-bbbbbbbbb")))
                  1700000030000 1700000060000 Sample.ledger
                  (proj2 sample_pending_by_reference))).
Defined.

(** ** Histories of calls *)

Section HistoryLemmas.
Context {num : JSNumber}.

Lemma idsFrom_In (start : Z) (n : nat) (x : Z) :
  In x (idsFrom start n) <-> (start <= x < start + Z.of_nat n)%Z.
Proof.
  revert start. induction n as [|n IH]; intros start; simpl idsFrom.
  - simpl. lia.
  - simpl In. rewrite IH. lia.
Qed.

Lemma idsFrom_NoDup (start : Z) (n : nat) : NoDup (idsFrom start n).
Proof.
  revert start. induction n as [|n IH]; intros start; simpl; constructor.
  - rewrite list_elem_of_In, idsFrom_In. lia.
  - apply IH.
Qed.

Lemma sameRecord_refl (p : Purchase.t) : sameRecord p p.
Proof. repeat split. Qed.

Lemma sameRecord_trans (p q r : Purchase.t) :
  sameRecord p q -> sameRecord q r -> sameRecord p r.
Proof. unfold sameRecord. intuition congruence. Qed.

Lemma Forall2_sameRecord_refl (rows : list Purchase.t) : Forall2 sameRecord rows rows.
Proof. induction rows; constructor; auto using sameRecord_refl. Qed.

Lemma Forall2_sameRecord_ids (rows rows' : list Purchase.t) :
  Forall2 sameRecord rows rows' -> map Purchase.id rows' = map Purchase.id rows.
Proof.
  induction 1 as [|p q rows rows' Hpq _ IH]; simpl; [reflexivity|].
  destruct Hpq as (-> & _). now rewrite IH.
Qed.

Lemma sameRecord_updated (i : Z) (d : Purchase.UpdateInput) (rows : list Purchase.t) :
  (forall q, sameRecord q (Purchase.apply d q)) ->
  Forall2 sameRecord rows (Prisma.updated i d rows).
Proof.
  intros Hd. apply Forall2_updated; [intros q _; apply Hd|intros q _; apply sameRecord_refl].
Qed.

Lemma step_same (w w' : World.t) :
  World.purchases w' = World.purchases w ->
  World.orderDetails w' = World.orderDetails w ->
  World.products w' = World.products w ->
  World.purchaseSeq w' = World.purchaseSeq w ->
  World.orderDetailSeq w' = World.orderDetailSeq w ->
  step w w'.
Proof.
  intros Hp Hd Hc Hps Hds. split; [exact Hc|]. exists [], (World.purchases w).
  rewrite app_nil_r. simpl. rewrite Z.add_0_r.
  repeat split; auto using Forall2_sameRecord_refl.
Qed.

Lemma step_refl (w : World.t) : step w w.
Proof. now apply step_same. Qed.

Lemma step_updated (i : Z) (d : Purchase.UpdateInput) (w : World.t) :
  (forall q, sameRecord q (Purchase.apply d q)) ->
  step w (World.with_purchases (Prisma.updated i d (World.purchases w))
            (World.purchaseSeq w) w).
Proof.
  intros Hd. split; [reflexivity|].
  exists [], (Prisma.updated i d (World.purchases w)).
  simpl. rewrite app_nil_r, Z.add_0_r. repeat split; auto using sameRecord_updated.
Qed.

Lemma numbered_fresh (w : World.t) :
  numbered w -> noneWith (Prisma.hasId (World.purchaseSeq w)) (World.purchases w).
Proof.
  intros [Hp _]. unfold noneWith. eapply Forall_impl; [exact Hp|].
  intros p Hlt. unfold Prisma.hasId. apply Z.eqb_neq. simpl in Hlt. lia.
Qed.

Lemma step_createPurchase (request : CreatePurchaseRequest.t) (w : World.t) :
  numbered w -> step w (snd (PurchaseService.createPurchase request w)).
Proof.
  intros Hnum.
  destruct (PurchaseService.validatePurchaseRequest request) as [[]|e] eqn:Hreq.
  2:{ rewrite (createPurchase_rejected request w e) by (now left). apply step_refl. }
  destruct (PurchaseService.validateAndCalculateItems (World.products w)
              (CreatePurchaseRequest.items request)) as [validated|e] eqn:Hitems.
  2:{ rewrite (createPurchase_rejected request w e) by (now right). apply step_refl. }
  destruct (PurchaseService.createPurchase request w) as [r w'] eqn:Hrun.
  destruct (createPurchase_outcomes request w w' validated r Hreq Hitems
              (numbered_fresh w Hnum) Hrun)
    as (details & Hd & Hall & _ & Hc & Hps & Hids & Hds & _ & Hcases).
  simpl. split; [exact Hc|]. exists details, (World.purchases w).
  split; [exact Hd|]. split; [exact Hids|]. split; [exact Hds|]. split.
  { clear -Hall. remember (firstn (List.length details) validated) as vs eqn:E. clear E.
    induction Hall as [|v d vs ds Hv _ IH]; constructor; [apply Hv|apply IH]. }
  split; [apply Forall2_sameRecord_refl|]. right.
  destruct Hcases as [(_ & Hrows & _) | [(e & _ & _ & Hrows & _) | (s & _ & _ & Hrows & _)]];
    eexists; (split; [exact Hrows|]); repeat split; auto.
Qed.

Lemma updatePaymentStatus_world (tid status : string) (pd : option PaymentData.t)
  (w : World.t) :
  snd (PurchaseService.updatePaymentStatus tid status pd w) = w
  \/ exists i,
      snd (PurchaseService.updatePaymentStatus tid status pd w)
      = World.with_purchases
          (Prisma.updated i (PurchaseService.paymentStatusData tid status (World.now w))
             (World.purchases w))
          (World.purchaseSeq w) w.
Proof.
  destruct (find (PurchaseService.hasTransactionId tid) (World.purchases w)) as [p|] eqn:Htid.
  { right. exists (Purchase.id p). rewrite (updatePaymentStatus_hit tid status pd w p); auto. }
  destruct (PurchaseService.referenceOf pd) as [r|] eqn:Hr.
  - destruct (JSString.truthy r) eqn:Htruthy.
    + destruct (find (PurchaseService.hasExternalReference r) (World.purchases w))
        as [p|] eqn:Href.
      * right. exists (Purchase.id p).
        rewrite (updatePaymentStatus_hit tid status pd w p); [reflexivity|].
        right. split; [exact Htid|]. exists r. auto.
      * left. rewrite updatePaymentStatus_miss; [reflexivity|exact Htid|].
        intros r' Hr' _. rewrite Hr in Hr'. injection Hr' as <-. exact Href.
    + left. rewrite updatePaymentStatus_miss; [reflexivity|exact Htid|].
      intros r' Hr' Ht'. rewrite Hr in Hr'. injection Hr' as <-. congruence.
  - left. rewrite updatePaymentStatus_miss; [reflexivity|exact Htid|].
    intros r' Hr'. rewrite Hr in Hr'. discriminate.
Qed.

Lemma resendEmailForPurchase_world (purchaseId : string) (w : World.t) :
  snd (PurchaseService.resendEmailForPurchase purchaseId w) = w
  \/ exists email,
      snd (PurchaseService.resendEmailForPurchase purchaseId w)
      = World.with_emailsSent (World.emailsSent w ++ [email]) w.
Proof.
  unfold PurchaseService.resendEmailForPurchase.
  destruct (JSParseInt.parseInt purchaseId) as [i|] eqn:Hi; [|left; reflexivity].
  rewrite <- Hi.
  destruct (find (Prisma.hasId i) (World.purchases w)) as [p|] eqn:Hp.
  2:{ left. rewrite findUnique_miss_run by (intros i' Hi'; congruence). reflexivity. }
  rewrite (bind_ok _ _ w w _ (findUnique_found purchaseId i w p Hi Hp)).
  destruct (negb (PurchaseService.isSuccessfulPayment (Purchase.status p)));
    [left; reflexivity|].
  right. eexists. unfold bind, gets, EmailService.sendPaymentConfirmationEmail, ret.
  match goal with |- context [World.mailer w ?d] => destruct (World.mailer w d) end;
    reflexivity.
Qed.

Lemma updatePurchase_world (purchaseId : string) (patch : UpdatePurchaseData.t)
  (w : World.t) :
  snd (PurchaseService.updatePurchase purchaseId patch w) = w
  \/ exists i,
      snd (PurchaseService.updatePurchase purchaseId patch w)
      = World.with_purchases
          (Prisma.updated i (PurchaseService.dataToUpdate (World.now w) patch)
             (World.purchases w))
          (World.purchaseSeq w) w.
Proof.
  destruct (JSParseInt.parseInt purchaseId) as [i|] eqn:Hi.
  2:{ left. unfold PurchaseService.updatePurchase. rewrite Hi. reflexivity. }
  destruct (find (Prisma.hasId i) (World.purchases w)) as [p|] eqn:Hp.
  2:{ left. unfold PurchaseService.updatePurchase.
      rewrite findUnique_miss_run by (intros i' Hi'; congruence). reflexivity. }
  rewrite (updatePurchase_run purchaseId i patch w p Hi Hp).
  destruct (PurchaseService.validateUpdate patch); [|left; reflexivity].
  right. exists i. reflexivity.
Qed.

Lemma step_after (c : call) (w : World.t) : numbered w -> step w (after c w).
Proof.
  intros Hnum. destruct c as [request|tid status pd|email| |purchaseId|purchaseId patch];
    simpl after.
  - now apply step_createPurchase.
  - destruct (updatePaymentStatus_world tid status pd w) as [-> | [i ->]];
      [apply step_refl|].
    apply step_updated. intros q. repeat split.
  - apply step_refl.
  - apply step_refl.
  - destruct (resendEmailForPurchase_world purchaseId w) as [-> | [email ->]];
      [apply step_refl|]. now apply step_same.
  - destruct (updatePurchase_world purchaseId patch w) as [-> | [i ->]];
      [apply step_refl|].
    apply step_updated. intros q. repeat split.
Qed.

Lemma Forall2_sameRecord_In (rows rows' : list Purchase.t) (p : Purchase.t) :
  Forall2 sameRecord rows rows' -> In p rows ->
  exists q, In q rows' /\ Purchase.id q = Purchase.id p.
Proof.
  induction 1 as [|a b rows rows' Hab _ IH]; intros Hin; [destruct Hin|].
  destruct Hin as [<- | Hin].
  - exists b. split; [now left|apply Hab].
  - destruct (IH Hin) as (q & Hq & Hid). exists q. split; [now right|exact Hid].
Qed.

Lemma Forall2_sameRecord_In_r (rows rows' : list Purchase.t) (q : Purchase.t) :
  Forall2 sameRecord rows rows' -> In q rows' ->
  exists p, In p rows /\ Purchase.id q = Purchase.id p.
Proof.
  induction 1 as [|a b rows rows' Hab _ IH]; intros Hin; [destruct Hin|].
  destruct Hin as [<- | Hin].
  - exists a. split; [now left|apply Hab].
  - destruct (IH Hin) as (p & Hp & Hid). exists p. split; [now right|exact Hid].
Qed.

Lemma Forall_ids_below (rows : list Purchase.t) (s : Z) :
  Forall (fun p => (Purchase.id p < s)%Z) rows <->
  (forall x, In x (map Purchase.id rows) -> (x < s)%Z).
Proof.
  rewrite List.Forall_forall. split.
  - intros H x Hx. apply in_map_iff in Hx. destruct Hx as (p & <- & Hp). now apply H.
  - intros H p Hp. apply H. now apply in_map.
Qed.

Lemma new_ids_bounds (details : list OrderDetail.t) (s : Z) :
  map OrderDetail.id details = idsFrom s (List.length details) ->
  forall x, In x (map OrderDetail.id details) ->
            (s <= x < s + Z.of_nat (List.length details))%Z.
Proof. intros -> x. apply idsFrom_In. Qed.

Lemma numbered_step (w w' : World.t) : numbered w -> step w w' -> numbered w'.
Proof.
  intros [Hp Hd] (_ & details & olds & Hrows & Hids & Hds & _ & Hsame & Hcases).
  pose proof (Forall2_sameRecord_ids _ _ Hsame) as Hmap.
  pose proof (new_ids_bounds details _ Hids) as Hnew.
  split.
  - apply Forall_ids_below. rewrite Forall_ids_below in Hp. rewrite <- Hmap in Hp.
    destruct Hcases as [(-> & -> & _) | (row & -> & Hrow & ->)]; [exact Hp|].
    intros x. rewrite map_app, in_app_iff. simpl.
    intros [Hx | [<- | []]]; [specialize (Hp x Hx)|]; lia.
  - rewrite Hrows, Hds. apply Forall_app. split.
    + eapply Forall_impl; [exact Hd|]. simpl. intros d Hlt. lia.
    + apply List.Forall_forall. intros d Hin.
      specialize (Hnew (OrderDetail.id d) (in_map _ _ _ Hin)). lia.
Qed.

Lemma consistent_step (w w' : World.t) : consistent w -> step w w' -> consistent w'.
Proof.
  intros (Hnum & Hnp & Hnd & Hfk) Hstep.
  split; [exact (numbered_step w w' Hnum Hstep)|].
  destruct Hnum as [Hp Hd].
  destruct Hstep as (_ & details & olds & Hrows & Hids & Hds & Hpid & Hsame & Hcases).
  pose proof (Forall2_sameRecord_ids _ _ Hsame) as Hmap.
  pose proof (new_ids_bounds details _ Hids) as Hnew.
  rewrite Forall_ids_below in Hp.
  assert (Hkept : forall p, In p (World.purchases w) ->
                            exists q, In q (World.purchases w')
                                      /\ Purchase.id q = Purchase.id p).
  { intros p Hin. destruct (Forall2_sameRecord_In _ _ p Hsame Hin) as (q & Hq & Hid).
    exists q. split; [|exact Hid].
    destruct Hcases as [(-> & _) | (row & -> & _)]; [exact Hq|].
    apply in_or_app. now left. }
  split; [|split].
  - destruct Hcases as [(-> & _) | (row & -> & Hrow & _)]; [now rewrite Hmap|].
    rewrite map_app, Hmap. apply NoDup_app. split; [exact Hnp|]. split.
    + intros x Hx Hx'. apply list_elem_of_In in Hx, Hx'. simpl in Hx'.
      destruct Hx' as [<- | []]. specialize (Hp _ Hx). lia.
    + apply NoDup_singleton.
  - rewrite Hrows, map_app. apply NoDup_app. split; [exact Hnd|]. split.
    + intros x Hx Hx'. apply list_elem_of_In in Hx, Hx'.
      specialize (Hnew x Hx'). apply in_map_iff in Hx. destruct Hx as (d & <- & Hin).
      rewrite List.Forall_forall in Hd. specialize (Hd d Hin). simpl in Hd. lia.
    + rewrite Hids. apply idsFrom_NoDup.
  - rewrite Hrows. apply Forall_app. split.
    + eapply Forall_impl; [exact Hfk|]. simpl. intros d (p & Hin & Hid).
      destruct (Hkept p Hin) as (q & Hq & Hqid). exists q. split; [exact Hq|congruence].
    + destruct Hcases as [(_ & _ & ->) | (row & -> & Hrow & _)]; [constructor|].
      eapply Forall_impl; [exact Hpid|]. simpl. intros d Hdp. exists row.
      split; [apply in_or_app; right; now left|congruence].
Qed.

Lemma grownFrom_refl (w : World.t) : grownFrom w w.
Proof.
  split; [reflexivity|]. split; [exists []; now rewrite app_nil_r|].
  exists (World.purchases w), []. rewrite app_nil_r.
  split; [reflexivity|apply Forall2_sameRecord_refl].
Qed.

Lemma Forall2_sameRecord_trans (a b c : list Purchase.t) :
  Forall2 sameRecord a b -> Forall2 sameRecord b c -> Forall2 sameRecord a c.
Proof.
  intros Hab. revert c. induction Hab as [|x y a b Hxy _ IH]; intros c Hbc.
  - inversion Hbc. constructor.
  - inversion Hbc as [|y' z b' c' Hyz Hrest]; subst. constructor.
    + exact (sameRecord_trans _ _ _ Hxy Hyz).
    + now apply IH.
Qed.

Lemma grownFrom_trans (w1 w2 w3 : World.t) :
  grownFrom w1 w2 -> grownFrom w2 w3 -> grownFrom w1 w3.
Proof.
  intros (Hc1 & (d1 & Hd1) & (o1 & n1 & Hp1 & Hs1))
         (Hc2 & (d2 & Hd2) & (o2 & n2 & Hp2 & Hs2)).
  split; [congruence|]. split.
  - exists (d1 ++ d2). now rewrite Hd2, Hd1, app_assoc.
  - rewrite Hp1 in Hs2. apply Forall2_app_inv_l in Hs2.
    destruct Hs2 as (o2a & o2b & Ha & Hb & ->).
    exists o2a, (o2b ++ n2). split; [now rewrite Hp2, app_assoc|].
    exact (Forall2_sameRecord_trans _ _ _ Hs1 Ha).
Qed.

Lemma grownFrom_step (w w' : World.t) : step w w' -> grownFrom w w'.
Proof.
  intros (Hc & details & olds & Hrows & _ & _ & _ & Hsame & Hcases).
  split; [exact Hc|]. split; [exists details; exact Hrows|].
  destruct Hcases as [(-> & _) | (row & -> & _)].
  - exists olds, []. now rewrite app_nil_r.
  - exists olds, [row]. auto.
Qed.

Lemma step_at_moment (m : Moment) (w : World.t) : step w (at_moment m w).
Proof. now apply step_same. Qed.

Lemma step_call (m : Moment) (c : call) (w : World.t) :
  numbered w ->
  numbered (after c (at_moment m w)) /\ grownFrom w (after c (at_moment m w))
  /\ (consistent w -> consistent (after c (at_moment m w))).
Proof.
  intros Hnum.
  pose proof (numbered_step _ _ Hnum (step_at_moment m w)) as Hnum'.
  pose proof (step_after c _ Hnum') as Hstep.
  split; [exact (numbered_step _ _ Hnum' Hstep)|]. split.
  - eapply grownFrom_trans; apply grownFrom_step; [apply step_at_moment|exact Hstep].
  - intros Hcons. eapply consistent_step; [|exact Hstep].
    eapply consistent_step; [exact Hcons|apply step_at_moment].
Qed.

End HistoryLemmas.

Section HistoryTheorems.
Context {num : JSNumber}.

(** X4.  The service keeps the tables consistent: if the ids of the rows
    are keys below the next ids of the sequences and every order detail
    belongs to a purchase of the table, then the same holds after any
    sequence of calls of [createPurchase], [updatePaymentStatus],
    [getPurchasesByEmail], [generateBackupData], [resendEmailForPurchase]
    and [updatePurchase], whatever the clock, the random source, the gateway
    and the e-mail service do in between and whether the calls succeed or
    fail.  (A purchase may be left without any order detail: nothing is
    rolled back when a call fails.) *)
Theorem service_keeps_tables_consistent (h : list (Moment * call)) (w : World.t) :
  consistent w -> consistent (afterAll h w).
Proof.
  revert w. induction h as [|[m c] h IH]; intros w Hcons; [exact Hcons|].
  simpl. apply IH. destruct Hcons as [Hnum Hrest].
  apply (step_call m c w Hnum). split; assumption.
Qed.

(** X5.  No call of the service deletes or rewrites an order detail, deletes
    a purchase, writes a product, or changes the id, identification number,
    shipping address, order status, amount, currency, payment provider,
    external reference, preference id or creation time of a purchase of the
    table: after any sequence of calls, the products are the same, the order
    details are the old ones followed by new ones, and the purchases are the
    old ones, with these fields unchanged, followed by new ones. *)
Theorem service_only_appends (h : list (Moment * call)) (w : World.t) :
  numbered w -> grownFrom w (afterAll h w).
Proof.
  revert w. induction h as [|[m c] h IH]; intros w Hnum; [apply grownFrom_refl|].
  simpl. destruct (step_call m c w Hnum) as (Hnum' & Hgrown & _).
  eapply grownFrom_trans; [exact Hgrown|]. now apply IH.
Qed.

End HistoryTheorems.


Lemma service_keeps_tables_consistent_witness :
  consistent (afterAll Scenario.history Scenario.store)
  /\ map Purchase.status (World.purchases (afterAll Scenario.history Scenario.store))
     = ["COMPLETED"; "PENDING"; "APPROVED"]
  /\ List.length (World.emailsSent (afterAll Scenario.history Scenario.store)) = 1%nat.
Proof.
  split; [|split; reflexivity].
  apply (service_keeps_tables_consistent Scenario.history Scenario.store).
  split; [split; repeat constructor|].
  split; [repeat constructor; rewrite list_elem_of_In; simpl; intuition discriminate|].
  split; [repeat constructor; rewrite list_elem_of_In; simpl; intuition discriminate|].
  constructor; [exists Sample.paid; split; [now left|reflexivity]|].
  constructor; [exists Sample.pending; split; [right; now left|reflexivity]|constructor].
Defined.

Lemma service_only_appends_witness :
  grownFrom Scenario.store (afterAll Scenario.history Scenario.store)
  /\ map Purchase.id (World.purchases (afterAll Scenario.history Scenario.store))
     = [1; 2; 10]%Z
  /\ map Purchase.buyerName (World.purchases (afterAll Scenario.history Scenario.store))
     = ["Ana Ruiz"; "Ana Ruiz"; "Ana Maria Ruiz"].
Proof.
  split; [|split; reflexivity].
  apply (service_only_appends Scenario.history Scenario.store).
  split; repeat constructor.
Defined.

(** ** From the order to the confirmation e-mail *)

Section Workflow.
Context {num : JSNumber}.

Lemma createPurchase_ok_validated (request : CreatePurchaseRequest.t) (w w' : World.t)
  (response : CreatePurchaseResponse.t) :
  PurchaseService.createPurchase request w = (Ok response, w') ->
  PurchaseService.validatePurchaseRequest request = Ok tt
  /\ exists validated,
      PurchaseService.validateAndCalculateItems (World.products w)
        (CreatePurchaseRequest.items request) = Ok validated.
Proof.
  intros Hrun.
  destruct (PurchaseService.validatePurchaseRequest request) as [[]|e] eqn:Hreq.
  2:{ rewrite (createPurchase_rejected request w e) in Hrun by (now left). discriminate. }
  split; [reflexivity|].
  destruct (PurchaseService.validateAndCalculateItems (World.products w)
              (CreatePurchaseRequest.items request)) as [validated|e] eqn:Hitems.
  - now exists validated.
  - rewrite (createPurchase_rejected request w e) in Hrun by (now right). discriminate.
Qed.

Lemma find_fresh {A : Type} (f : A -> bool) (rows : list A) (row : A) :
  noneWith f rows -> f row = true -> find f (rows ++ [row]) = Some row.
Proof.
  intros Hnone Hrow. induction Hnone as [|q rows Hq _ IH]; simpl.
  - now rewrite Hrow.
  - now rewrite Hq.
Qed.

(** The world after an order has been created and a notification for its
    transaction handled, when the gateway's transaction id is a new one. *)
Lemma created_then_notified (request : CreatePurchaseRequest.t) (w w1 : World.t)
  (response : CreatePurchaseResponse.t) (status : string) (pd : option PaymentData.t)
  (t : N) :
  numbered w ->
  PurchaseService.createPurchase request w = (Ok response, w1) ->
  noneWith (PurchaseService.hasTransactionId
              (CreatePurchaseResponse.wompiTransactionId response)) (World.purchases w) ->
  let tid := CreatePurchaseResponse.wompiTransactionId response in
  let w2 := notified tid status pd t w1 in
  exists validated details,
    PurchaseService.validateAndCalculateItems (World.products w)
      (CreatePurchaseRequest.items request) = Ok validated
    /\ CreatePurchaseResponse.items response = map PurchaseService.lineOf validated
    /\ CreatePurchaseResponse.purchaseId response = World.purchaseSeq w
    /\ CreatePurchaseResponse.totalAmount response = PurchaseService.totalOf validated
    /\ World.purchases w2
       = World.purchases w
         ++ [Purchase.apply (PurchaseService.paymentStatusData tid status t)
               (Purchase.apply (PurchaseService.gatewayReferenceData tid)
                  (Prisma.newRow
                     (PurchaseService.purchaseData request
                        (PurchaseService.totalOf validated)
                        (PurchaseService.newExternalReference w)) w))]
    /\ World.orderDetails w2 = World.orderDetails w ++ details
    /\ Forall2 (detailFor (World.purchaseSeq w)) validated details
    /\ World.products w2 = World.products w
    /\ World.emailsSent w2 = World.emailsSent w
    /\ World.mailer w2 = World.mailer w.
Proof.
  intros Hnum Hrun Hfresh tid w2.
  destruct (createPurchase_ok_validated _ _ _ _ Hrun) as (Hreq & validated & Hitems).
  destruct (createPurchase_outcomes request w w1 validated _ Hreq Hitems
              (numbered_fresh w Hnum) Hrun)
    as (details & Hd & Hall & Hmail & Hc & _ & _ & _ & Hmailer
        & [(Hr & _) | [(e & Hr & _) | (session & _ & Hr & Hrows & _ & Hlen)]]);
    try discriminate.
  injection Hr as Hr. rewrite Hlen, firstn_all in Hall.
  assert (Htid : tid = Payment.transactionId session) by (subst tid; now rewrite Hr).
  rewrite <- Htid in Hrows.
  exists validated, details. rewrite Hr. simpl.
  repeat (split; [reflexivity|]).
  set (row1 := Purchase.apply (PurchaseService.gatewayReferenceData tid) _) in *.
  assert (Hp : reconciles tid pd (World.purchases w1) row1).
  { left. rewrite Hrows. exists (World.purchases w), []. split; [reflexivity|].
    split; [|exact Hfresh].
    unfold PurchaseService.hasTransactionId, row1. simpl. apply String.eqb_refl. }
  subst w2. rewrite (notified_hit tid status pd t w1 row1 Hp). simpl.
  rewrite Hrows.
  rewrite (updated_fresh _ _ _ row1 (numbered_fresh w Hnum) eq_refl).
  repeat split; assumption.
Qed.

(** X6.  The transaction id that [createPurchase] returns is the key of the
    new purchase for the notifications of the gateway, provided that no
    older purchase has it: a notification for it then sets the status and
    the update time of the new purchase, whose amount is the total of the
    response in cents, and leaves the older purchases as they were. *)
Theorem created_purchase_is_reconciled (request : CreatePurchaseRequest.t)
  (w w1 : World.t) (response : CreatePurchaseResponse.t) (status : string)
  (pd : option PaymentData.t) (t : N) :
  numbered w ->
  PurchaseService.createPurchase request w = (Ok response, w1) ->
  let tid := CreatePurchaseResponse.wompiTransactionId response in
  let w2 := notified tid status pd t w1 in
  noneWith (PurchaseService.hasTransactionId tid) (World.purchases w) ->
  exists row,
    World.purchases w2 = World.purchases w ++ [row]
    /\ Purchase.id row = CreatePurchaseResponse.purchaseId response
    /\ Purchase.status row = status
    /\ Purchase.updatedAt row = t
    /\ Purchase.wompiTransactionId row = Some tid
    /\ Purchase.preferenceId row = tid
    /\ Purchase.orderStatus row = "PENDING"
    /\ Purchase.amount row
       = Math_round (mul (CreatePurchaseResponse.totalAmount response) hundred)
    /\ Purchase.buyerEmail row = CreatePurchaseRequest.buyerEmail request.
Proof.
  intros Hnum Hrun tid w2 Hfresh.
  destruct (created_then_notified request w w1 response status pd t Hnum Hrun Hfresh)
    as (validated & details & _ & _ & Hid & Htotal & Hrows & _).
  eexists. split; [exact Hrows|]. rewrite Hid, Htotal. repeat split.
Qed.

Lemma orderDetailsOf_new (w2 : World.t) (olds details : list OrderDetail.t)
  (row : Purchase.t) :
  World.orderDetails w2 = olds ++ details ->
  Forall (fun d => OrderDetail.purchaseId d <> Purchase.id row) olds ->
  Forall (fun d => OrderDetail.purchaseId d = Purchase.id row) details ->
  Prisma.orderDetailsOf w2 row = map (fun d => (d, Prisma.productOf w2 d)) details.
Proof.
  intros Hrows Holds Hnew. unfold Prisma.orderDetailsOf. rewrite Hrows. f_equal.
  clear Hrows. rewrite List.filter_app.
  assert (Hnone : List.filter
                    (fun d => Z.eqb (OrderDetail.purchaseId d) (Purchase.id row)) olds
                  = []).
  { induction Holds as [|d olds Hd _ IH]; simpl; [reflexivity|].
    apply Z.eqb_neq in Hd. now rewrite Hd. }
  assert (Hall : List.filter
                   (fun d => Z.eqb (OrderDetail.purchaseId d) (Purchase.id row)) details
                 = details).
  { induction Hnew as [|d details Hd _ IH]; simpl; [reflexivity|].
    rewrite Hd, Z.eqb_refl. now f_equal. }
  now rewrite Hnone, Hall.
Qed.

Lemma validated_products (catalog : list Product.t) (items : list CartItem.t)
  (validated : list ValidatedCartItem.t) :
  PurchaseService.validateAndCalculateItems catalog items = Ok validated ->
  Forall (fun v => ProductDataSource.getById catalog (ValidatedCartItem.productId v)
                   = Some (ValidatedCartItem.product v)) validated.
Proof.
  intros Hitems. pose proof (validateAndCalculateItems_ok _ _ _ Hitems) as Hvalid.
  clear Hitems.
  induction Hvalid as [|item v items validated (Hitem & Hget & _) _ IH]; constructor.
  - unfold ValidatedCartItem.productId. now rewrite Hitem.
  - exact IH.
Qed.

Lemma email_lines (w w2 : World.t) (i : Z) (validated : list ValidatedCartItem.t)
  (details : list OrderDetail.t) :
  World.products w2 = World.products w ->
  Forall (fun v => ProductDataSource.getById (World.products w)
                     (ValidatedCartItem.productId v)
                   = Some (ValidatedCartItem.product v)) validated ->
  Forall2 (detailFor i) validated details ->
  Forall2 emailLineFor (map PurchaseService.lineOf validated)
    (map (fun d => PurchaseService.emailItemOf (d, Prisma.productOf w2 d)) details).
Proof.
  intros Hc Hprod Hall.
  induction Hall as [|v d vs ds (_ & Hp & Hq & Hu & Ht & _) _ IH]; simpl; constructor.
  - inversion Hprod as [|v' vs' Hv _]; subst.
    unfold emailLineFor, PurchaseService.emailItemOf. simpl.
    rewrite Hq, Hu, Ht. repeat (split; [reflexivity|]).
    unfold Prisma.productOf. rewrite Hc, Hp.
    unfold ProductDataSource.getById in Hv. rewrite Hv. reflexivity.
  - apply IH. now inversion Hprod.
Qed.

(** X7.  From the order to the confirmation e-mail: when [createPurchase]
    has returned a response, a notification with a status that counts as paid
    has been handled for the returned transaction id (which no older purchase
    has) and [resendEmailForPurchase] is called with the returned purchase
    id, exactly one e-mail is sent, to the buyer of the request; the call
    succeeds when the e-mail service does and fails with its error otherwise.
    The e-mail has one line per line of the response, with the prices as
    the decimal columns return them, and its total amount is the amount of
    the purchase row, that is the total of the response in cents: a hundred
    times the sum of its lines. *)
Theorem paid_order_confirmation_email (request : CreatePurchaseRequest.t)
  (w w1 : World.t) (response : CreatePurchaseResponse.t) (status : string)
  (pd : option PaymentData.t) (t : N) (purchaseId : string) :
  consistent w ->
  PurchaseService.createPurchase request w = (Ok response, w1) ->
  noneWith (PurchaseService.hasTransactionId
              (CreatePurchaseResponse.wompiTransactionId response)) (World.purchases w) ->
  PurchaseService.isSuccessfulPayment status = true ->
  JSParseInt.parseInt purchaseId = Some (CreatePurchaseResponse.purchaseId response) ->
  let tid := CreatePurchaseResponse.wompiTransactionId response in
  let out := PurchaseService.resendEmailForPurchase purchaseId
               (notified tid status pd t w1) in
  exists email,
    World.emailsSent (snd out) = World.emailsSent w ++ [email]
    /\ fst out = match World.mailer w email with
                 | Ok _ => Ok (true, "Payment confirmation email resent successfully")
                 | Err e => Err e
                 end
    /\ EmailData.buyerEmail email = CreatePurchaseRequest.buyerEmail request
    /\ EmailData.buyerName email = CreatePurchaseRequest.buyerName request
    /\ EmailData.status email = status
    /\ EmailData.paymentId email = PurchaseService.orElse (Some tid) "N/A"
    /\ EmailData.purchaseDate email = t
    /\ EmailData.totalAmount email
       = Math_round (mul (CreatePurchaseResponse.totalAmount response) hundred)
    /\ Forall2 emailLineFor (CreatePurchaseResponse.items response)
         (EmailData.items email).
Proof.
  intros Hcons Hrun Hfresh Hpaid Hid tid out.
  destruct Hcons as (Hnum & _ & _ & Hfk).
  destruct (created_then_notified request w w1 response status pd t Hnum Hrun Hfresh)
    as (validated & details & Hitems & Hlines & Hpid & Htotal & Hrows & Hd & Hall & Hc
        & Hsent & Hmailer).
  fold tid in Hrows, Hd, Hc, Hsent, Hmailer.
  set (w2 := notified tid status pd t w1) in *.
  set (row := Purchase.apply (PurchaseService.paymentStatusData tid status t) _) in Hrows.
  assert (Hfind : find (Prisma.hasId (CreatePurchaseResponse.purchaseId response))
                    (World.purchases w2) = Some row).
  { rewrite Hrows, Hpid. apply find_fresh; [apply (numbered_fresh w Hnum)|].
    unfold Prisma.hasId, row. simpl. apply Z.eqb_refl. }
  assert (Hdetails : Prisma.orderDetailsOf w2 row
                     = map (fun d => (d, Prisma.productOf w2 d)) details).
  { apply (orderDetailsOf_new w2 (World.orderDetails w) details row Hd).
    - destruct Hnum as [Hp _]. rewrite List.Forall_forall in Hp, Hfk.
      apply List.Forall_forall. intros d Hin. destruct (Hfk d Hin) as (p & Hpin & Heq).
      specialize (Hp p Hpin). simpl in Hp. rewrite <- Heq.
      change (Purchase.id row) with (World.purchaseSeq w). lia.
    - clear -Hall. induction Hall as [|v d vs ds Hv _ IH]; constructor; [apply Hv|apply IH]. }
  subst out. unfold PurchaseService.resendEmailForPurchase.
  rewrite (bind_ok _ _ w2 w2 _ (findUnique_found purchaseId _ w2 row Hid Hfind)).
  change (Purchase.status row) with status. rewrite Hpaid.
  change (negb true) with false. cbv iota.
  unfold bind, gets, EmailService.sendPaymentConfirmationEmail, ret.
  rewrite Hdetails, Hmailer, Hsent.
  match goal with
  | |- context [World.mailer w ?d] => exists d; destruct (World.mailer w d) as [[]|e] eqn:Hm
  end; simpl; (split; [reflexivity|]); (split; [reflexivity|]);
    repeat (split; [reflexivity|]);
    (split; [now rewrite Htotal|]);
    rewrite Hlines, map_map;
    exact (email_lines w w2 _ validated details Hc (validated_products _ _ _ Hitems) Hall).
Qed.

End Workflow.

Lemma created_purchase_is_reconciled_witness :
  exists row,
    World.purchases
      (notified "tx-100" "APPROVED" None 1700000030000
         (snd (PurchaseService.createPurchase Sample.order Sample.shop)))
    = [row]
    /\ Purchase.id row = 10%Z
    /\ Purchase.status row = "APPROVED"
    /\ Purchase.amount row = 10000%Z.
Proof.
  destruct (created_purchase_is_reconciled Sample.order Sample.shop
              (snd (PurchaseService.createPurchase Sample.order Sample.shop))
              ltac:(let r := eval vm_compute in
                      (fst (PurchaseService.createPurchase Sample.order Sample.shop)) in
                    match r with Ok ?x => exact x end)
              "APPROVED" None 1700000030000
              (conj (List.Forall_nil _) (List.Forall_nil _)) eq_refl (List.Forall_nil _))
    as (row & Hrows & Hid & Hstatus & _ & _ & _ & _ & Hamount & _).
  exists row. split; [exact Hrows|]. split; [exact Hid|]. split; [exact Hstatus|].
  exact Hamount.
Defined.

Lemma paid_order_confirmation_email_witness :
  exists email,
    World.emailsSent
      (snd (PurchaseService.resendEmailForPurchase "10"
              (notified "tx-100" "APPROVED" None 1700000030000
                 (snd (PurchaseService.createPurchase Sample.order Sample.shop)))))
    = [email]
    /\ EmailData.buyerEmail email = "ana@shop.co"
    /\ EmailData.totalAmount email = 10000%Z
    /\ exists line, EmailData.items email = [line] /\ EmailData.totalPrice line = 100%Z.
Proof.
  destruct (paid_order_confirmation_email Sample.order Sample.shop
              (snd (PurchaseService.createPurchase Sample.order Sample.shop))
              ltac:(let r := eval vm_compute in
                      (fst (PurchaseService.createPurchase Sample.order Sample.shop)) in
                    match r with Ok ?x => exact x end)
              "APPROVED" None 1700000030000 "10"
              ltac:(repeat constructor) eq_refl (List.Forall_nil _) eq_refl eq_refl)
    as (email & Hsent & _ & Hto & _ & _ & _ & _ & Htotal & Hlines).
  exists email. split; [exact Hsent|]. split; [exact Hto|]. split; [exact Htotal|].
  inversion Hlines as [|line item lines items' Hline Hrest Hl Hi]; subst.
  inversion Hrest; subst. exists item. split; [reflexivity|]. apply Hline.
Defined.

(** ** The backup report *)

Section BackupReport.
Context {num : JSNumber}.

Lemma tally_counts (s : PurchaseStatistics.t) (sold : gset Z)
  (p : Purchase.t * list (OrderDetail.t * option Product.t)) :
  let after := fst (PurchaseService.tally (s, sold) p) in
  let n st := List.length (withStatus st [fst p]) in
  PurchaseStatistics.totalPurchases after = PurchaseStatistics.totalPurchases s
  /\ PurchaseStatistics.approvedCount after
     = (PurchaseStatistics.approvedCount s + n "APPROVED")%nat
  /\ PurchaseStatistics.completedCount after
     = (PurchaseStatistics.completedCount s + n "COMPLETED")%nat
  /\ PurchaseStatistics.pendingCount after
     = (PurchaseStatistics.pendingCount s + n "PENDING")%nat
  /\ PurchaseStatistics.cancelledCount after
     = (PurchaseStatistics.cancelledCount s + n "CANCELLED")%nat
  /\ PurchaseStatistics.rejectedCount after
     = (PurchaseStatistics.rejectedCount s + n "REJECTED")%nat
  /\ PurchaseStatistics.failedCount after
     = (PurchaseStatistics.failedCount s + n "FAILED")%nat.
Proof.
  unfold PurchaseService.tally, withStatus. cbn [List.filter].
  set (st := JSString.toUpperCase (Purchase.status (fst p))).
  destruct (String.eqb st "APPROVED") eqn:E1;
    [apply String.eqb_eq in E1; rewrite ?E1; cbn; repeat split; lia|].
  destruct (String.eqb st "COMPLETED") eqn:E2;
    [apply String.eqb_eq in E2; rewrite ?E2; cbn; repeat split; lia|].
  destruct (String.eqb st "PENDING") eqn:E3;
    [apply String.eqb_eq in E3; rewrite ?E3; cbn; repeat split; lia|].
  destruct (String.eqb st "CANCELLED") eqn:E4;
    [apply String.eqb_eq in E4; rewrite ?E4; cbn; repeat split; lia|].
  destruct (String.eqb st "REJECTED") eqn:E5;
    [apply String.eqb_eq in E5; rewrite ?E5; cbn; repeat split; lia|].
  destruct (String.eqb st "FAILED") eqn:E6;
    [apply String.eqb_eq in E6; rewrite ?E6; cbn; repeat split; lia|].
  cbn. repeat split; lia.
Qed.

Lemma withStatus_cons (st : string) (p : Purchase.t) (rows : list Purchase.t) :
  List.length (withStatus st (p :: rows))
  = (List.length (withStatus st [p]) + List.length (withStatus st rows))%nat.
Proof.
  unfold withStatus. simpl.
  destruct (String.eqb (JSString.toUpperCase (Purchase.status p)) st); reflexivity.
Qed.

Lemma fold_tally_counts (l : list (Purchase.t * list (OrderDetail.t * option Product.t)))
  (s : PurchaseStatistics.t) (sold : gset Z) :
  let after := fst (fold_left PurchaseService.tally l (s, sold)) in
  let n st := List.length (withStatus st (map fst l)) in
  PurchaseStatistics.totalPurchases after = PurchaseStatistics.totalPurchases s
  /\ PurchaseStatistics.approvedCount after
     = (PurchaseStatistics.approvedCount s + n "APPROVED")%nat
  /\ PurchaseStatistics.completedCount after
     = (PurchaseStatistics.completedCount s + n "COMPLETED")%nat
  /\ PurchaseStatistics.pendingCount after
     = (PurchaseStatistics.pendingCount s + n "PENDING")%nat
  /\ PurchaseStatistics.cancelledCount after
     = (PurchaseStatistics.cancelledCount s + n "CANCELLED")%nat
  /\ PurchaseStatistics.rejectedCount after
     = (PurchaseStatistics.rejectedCount s + n "REJECTED")%nat
  /\ PurchaseStatistics.failedCount after
     = (PurchaseStatistics.failedCount s + n "FAILED")%nat.
Proof.
  revert s sold. induction l as [|p l IH]; intros s sold.
  - cbn. repeat split; lia.
  - cbn [fold_left map].
    destruct (PurchaseService.tally (s, sold) p) as [s1 sold1] eqn:Estep.
    pose proof (tally_counts s sold p) as Hstep. rewrite Estep in Hstep.
    cbn [fst] in Hstep.
    destruct Hstep as (T0 & T1 & T2 & T3 & T4 & T5 & T6).
    destruct (IH s1 sold1) as (I0 & I1 & I2 & I3 & I4 & I5 & I6).
    cbv zeta. rewrite !(withStatus_cons _ (fst p) (map fst l)).
    rewrite I0, I1, I2, I3, I4, I5, I6, T0, T1, T2, T3, T4, T5, T6.
    repeat split; lia.
Qed.

Lemma withStatus_Permutation (st : string) (l l' : list Purchase.t) :
  l ≡ₚ l' -> List.length (withStatus st l) = List.length (withStatus st l').
Proof.
  induction 1 as [|x l l' _ IH|x y l|l l' l'' _ IH1 _ IH2].
  - reflexivity.
  - rewrite (withStatus_cons st x l), (withStatus_cons st x l'). now rewrite IH.
  - rewrite (withStatus_cons st y (x :: l)), (withStatus_cons st x l),
      (withStatus_cons st x (y :: l)), (withStatus_cons st y l). lia.
  - congruence.
Qed.

Lemma counted_sum (rows : list Purchase.t) :
  (List.length (withStatus "APPROVED" rows) + List.length (withStatus "COMPLETED" rows)
   + List.length (withStatus "PENDING" rows) + List.length (withStatus "CANCELLED" rows)
   + List.length (withStatus "REJECTED" rows) + List.length (withStatus "FAILED" rows))%nat
  = List.length (List.filter counted rows).
Proof.
  induction rows as [|p rows IH]; [reflexivity|].
  rewrite !(withStatus_cons _ p rows). cbn [List.filter].
  assert (Hp : (List.length (withStatus "APPROVED" [p])
                + List.length (withStatus "COMPLETED" [p])
                + List.length (withStatus "PENDING" [p])
                + List.length (withStatus "CANCELLED" [p])
                + List.length (withStatus "REJECTED" [p])
                + List.length (withStatus "FAILED" [p]))%nat
               = if counted p then 1%nat else 0%nat).
  { unfold withStatus, counted, countedStatuses. cbn [List.filter existsb].
    set (st := JSString.toUpperCase (Purchase.status p)).
    destruct (String.eqb st "APPROVED") eqn:E1;
      [apply String.eqb_eq in E1; rewrite ?E1; reflexivity|].
    destruct (String.eqb st "COMPLETED") eqn:E2;
      [apply String.eqb_eq in E2; rewrite ?E2; reflexivity|].
    destruct (String.eqb st "PENDING") eqn:E3;
      [apply String.eqb_eq in E3; rewrite ?E3; reflexivity|].
    destruct (String.eqb st "CANCELLED") eqn:E4;
      [apply String.eqb_eq in E4; rewrite ?E4; reflexivity|].
    destruct (String.eqb st "REJECTED") eqn:E5;
      [apply String.eqb_eq in E5; rewrite ?E5; reflexivity|].
    destruct (String.eqb st "FAILED") eqn:E6; reflexivity. }
  revert Hp. destruct (counted p); simpl List.length; intros Hp; lia.
Qed.

(** X8.  The counts of the backup report: [generateBackupData] returns and
    writes nothing; [totalPurchases] is the number of purchases, each of the
    six counts is the number of purchases whose status, in upper case, is the
    counted one, and a purchase with any other status is in the total only,
    so the six counts add up to the number of purchases with one of the six
    statuses; [generatedAt] is the time of the call. *)
Theorem generateBackupData_counts (w : World.t) :
  exists backup,
    PurchaseService.generateBackupData w = (Ok backup, w)
    /\ PurchaseService.generatedAt backup = World.now w
    /\ let s := PurchaseService.statistics backup in
       let n st := List.length (withStatus st (World.purchases w)) in
       PurchaseStatistics.totalPurchases s = List.length (World.purchases w)
       /\ PurchaseStatistics.approvedCount s = n "APPROVED"
       /\ PurchaseStatistics.completedCount s = n "COMPLETED"
       /\ PurchaseStatistics.pendingCount s = n "PENDING"
       /\ PurchaseStatistics.cancelledCount s = n "CANCELLED"
       /\ PurchaseStatistics.rejectedCount s = n "REJECTED"
       /\ PurchaseStatistics.failedCount s = n "FAILED"
       /\ (PurchaseStatistics.approvedCount s + PurchaseStatistics.completedCount s
           + PurchaseStatistics.pendingCount s + PurchaseStatistics.cancelledCount s
           + PurchaseStatistics.rejectedCount s + PurchaseStatistics.failedCount s)%nat
          = List.length (List.filter counted (World.purchases w)).
Proof.
  eexists. split; [reflexivity|]. split; [reflexivity|].
  cbn [PurchaseService.statistics]. unfold PurchaseService.statisticsOf.
  set (sorted := merge_sort Prisma.byCreatedAtDesc
                   (List.filter (fun _ => true) (World.purchases w))).
  assert (Hperm : sorted ≡ₚ World.purchases w).
  { unfold sorted. rewrite filter_all. apply merge_sort_Permutation. }
  set (l := map (fun p => (p, Prisma.orderDetailsOf w p)) sorted).
  assert (Hfst : map fst l = sorted).
  { unfold l. rewrite map_map. simpl. apply map_id. }
  destruct (fold_left PurchaseService.tally l
              (PurchaseService.initialStatistics (List.length l), ∅)) as [s sold] eqn:Efold.
  pose proof (fold_tally_counts l (PurchaseService.initialStatistics (List.length l)) ∅)
    as Hcounts.
  rewrite Efold in Hcounts. cbn [fst] in Hcounts. cbv zeta in Hcounts.
  rewrite Hfst in Hcounts. cbn in Hcounts.
  destruct Hcounts as (T0 & T1 & T2 & T3 & T4 & T5 & T6).
  cbn. rewrite T0, T1, T2, T3, T4, T5, T6.
  rewrite !(withStatus_Permutation _ _ _ Hperm).
  split; [unfold l; rewrite length_map; now apply Permutation_length|].
  repeat (split; [reflexivity|]). apply counted_sum.
Qed.




End BackupReport.

(** ** Corrections of the buyer's data and e-mails sent again *)

Section Corrections.
Context {num : JSNumber}.

(** X10.  [updatePurchase] looks the purchase up before it looks at the
    patch, and a call that fails writes nothing: an id that [parseInt] reads
    as [NaN] is rejected by the ORM client, an id of no purchase gives the
    error [Purchase not found] even when the patch is malformed (and an
    error of the database when the id is beyond the range of the column),
    and whenever the call fails, for whatever reason, the world is as
    before.  A call that succeeds has found the purchase and returns it as
    stored, with the order details of the purchase. *)
Theorem updatePurchase_fails_without_writing (purchaseId : string)
  (patch : UpdatePurchaseData.t) (w : World.t) :
  let out := PurchaseService.updatePurchase purchaseId patch w in
  (JSParseInt.parseInt purchaseId = None ->
   out = (Err PrismaClientValidationError, w))
  /\ (forall i, JSParseInt.parseInt purchaseId = Some i ->
                noneWith (Prisma.hasId i) (World.purchases w) ->
                out = (Err (if Prisma.int4 i then Error "Purchase not found"
                            else DatabaseError), w))
  /\ (failed (fst out) = true -> snd out = w)
  /\ (forall result, fst out = Ok result ->
        exists i p stored,
          JSParseInt.parseInt purchaseId = Some i
          /\ firstWith (Prisma.hasId i) (World.purchases w) p
          /\ firstWith (Prisma.hasId i) (World.purchases (snd out)) stored
          /\ result = (true, "Purchase updated successfully",
                       PurchaseService.formatPurchase "Unknown Product"
                         (stored, Prisma.orderDetailsOf (snd out) stored))).
Proof.
  intros out. subst out.
  assert (Hmiss : (forall i, JSParseInt.parseInt purchaseId = Some i ->
                             find (Prisma.hasId i) (World.purchases w) = None) ->
                  PurchaseService.updatePurchase purchaseId patch w
                  = (Err (match JSParseInt.parseInt purchaseId with
                          | None => PrismaClientValidationError
                          | Some i => if Prisma.int4 i then Error "Purchase not found"
                                      else DatabaseError
                          end), w)).
  { intros H. unfold PurchaseService.updatePurchase. now apply findUnique_miss_run. }
  destruct (JSParseInt.parseInt purchaseId) as [i|] eqn:Hi.
  2:{ rewrite Hmiss by discriminate.
      repeat split; try reflexivity; try discriminate. }
  destruct (find (Prisma.hasId i) (World.purchases w)) as [p|] eqn:Hp.
  2:{ rewrite Hmiss by (intros i' [= <-]; exact Hp).
      split; [discriminate|]. split; [intros i' [= <-] _; reflexivity|].
      split; [reflexivity|discriminate]. }
  rewrite <- Hi. rewrite (updatePurchase_run purchaseId i patch w p Hi Hp). rewrite Hi.
  split; [discriminate|]. split.
  { intros i' Hi' Hnone. injection Hi' as <-.
    rewrite (noneWith_find _ _ Hnone) in Hp. discriminate. }
  destruct (PurchaseService.validateUpdate patch) as [[]|e].
  - split; [discriminate|]. intros result Hresult. injection Hresult as <-.
    exists i, p, (Purchase.apply (PurchaseService.dataToUpdate (World.now w) patch) p).
    split; [reflexivity|]. split; [now apply find_firstWith|]. split; [|reflexivity].
    cbn [snd World.purchases World.with_purchases].
    apply find_firstWith in Hp. destruct Hp as (before & after & -> & Hf & Hb).
    exists (Prisma.updated i (PurchaseService.dataToUpdate (World.now w) patch) before),
      (Prisma.updated i (PurchaseService.dataToUpdate (World.now w) patch) after).
    split; [|split].
    + unfold Prisma.updated. rewrite map_app. simpl. now rewrite Hf.
    + exact Hf.
    + unfold Prisma.updated. apply Forall_map. eapply Forall_impl; [exact Hb|].
      simpl. intros q Hq. now rewrite Hq.
  - split; [reflexivity|discriminate].
Qed.

(** X11.  [resendEmailForPurchase] on any input: it never writes a table
    and never calls the gateway; it hands one e-mail to the e-mail service
    exactly when the id is read by [parseInt] as the id of a purchase whose
    status counts as paid, and then returns what the e-mail service
    answers; in every other case it fails and the world is as before. *)
Theorem resendEmailForPurchase_sends_iff_paid (purchaseId : string) (w : World.t) :
  let out := PurchaseService.resendEmailForPurchase purchaseId w in
  World.purchases (snd out) = World.purchases w
  /\ World.orderDetails (snd out) = World.orderDetails w
  /\ World.products (snd out) = World.products w
  /\ World.gatewayCalls (snd out) = World.gatewayCalls w
  /\ ((exists i p,
          JSParseInt.parseInt purchaseId = Some i
          /\ firstWith (Prisma.hasId i) (World.purchases w) p
          /\ PurchaseService.isSuccessfulPayment (Purchase.status p) = true
          /\ World.emailsSent (snd out)
             = World.emailsSent w
               ++ [PurchaseService.emailDataOf (p, Prisma.orderDetailsOf w p)]
          /\ fst out
             = match World.mailer w
                       (PurchaseService.emailDataOf (p, Prisma.orderDetailsOf w p)) with
               | Ok _ => Ok (true, "Payment confirmation email resent successfully")
               | Err e => Err e
               end)
      \/ (failed (fst out) = true /\ snd out = w
          /\ ~ exists i p,
                JSParseInt.parseInt purchaseId = Some i
                /\ firstWith (Prisma.hasId i) (World.purchases w) p
                /\ PurchaseService.isSuccessfulPayment (Purchase.status p) = true)).
Proof.
  intros out. subst out. unfold PurchaseService.resendEmailForPurchase.
  destruct (JSParseInt.parseInt purchaseId) as [i|] eqn:Hi.
  2:{ repeat (split; [reflexivity|]). right. repeat (split; [reflexivity|]).
      intros (i & p & Hi' & _). discriminate. }
  rewrite <- Hi.
  destruct (find (Prisma.hasId i) (World.purchases w)) as [p|] eqn:Hp.
  2:{ rewrite findUnique_miss_run by (intros i' Hi'; congruence).
      repeat (split; [reflexivity|]). right. repeat (split; [reflexivity|]).
      intros (i' & p & Hi' & Hfirst & _). rewrite Hi in Hi'. injection Hi' as <-.
      apply firstWith_find in Hfirst. congruence. }
  rewrite (bind_ok _ _ w w _ (findUnique_found purchaseId i w p Hi Hp)).
  destruct (PurchaseService.isSuccessfulPayment (Purchase.status p)) eqn:Hpaid.
  - change (negb true) with false. cbv iota.
    unfold bind, gets, EmailService.sendPaymentConfirmationEmail, ret.
    destruct (World.mailer w (PurchaseService.emailDataOf (p, Prisma.orderDetailsOf w p)))
      as [[]|e] eqn:Hm; cbn [fst snd];
      repeat (split; [reflexivity|]); left; exists i, p;
      (split; [exact Hi|]); (split; [now apply find_firstWith|]); (split; [exact Hpaid|]);
      (split; [reflexivity|]); now rewrite Hm.
  - change (negb false) with true. cbv iota.
    repeat (split; [reflexivity|]). right. repeat (split; [reflexivity|]).
    intros (i' & p' & Hi' & Hfirst & Hpaid'). rewrite Hi in Hi'. injection Hi' as <-.
    apply firstWith_find in Hfirst. congruence.
Qed.

(** X12.  A correction is read back as returned: after [updatePurchase] has
    succeeded, [getPurchasesByEmail] for the buyer e-mail of the purchase
    returned lists that very purchase, as [updatePurchase] returned it. *)
Theorem updatePurchase_then_history (purchaseId : string) (patch : UpdatePurchaseData.t)
  (w : World.t) (message : string) (updated : FormattedPurchase.t) :
  fst (PurchaseService.updatePurchase purchaseId patch w) = Ok (true, message, updated) ->
  exists history,
    fst (PurchaseService.getPurchasesByEmail (FormattedPurchase.buyerEmail updated)
           (snd (PurchaseService.updatePurchase purchaseId patch w)))
    = Ok history
    /\ In updated history.
Proof.
  intros Hok.
  destruct (JSParseInt.parseInt purchaseId) as [i|] eqn:Hi.
  2:{ unfold PurchaseService.updatePurchase in Hok. rewrite Hi in Hok. discriminate. }
  destruct (find (Prisma.hasId i) (World.purchases w)) as [p|] eqn:Hp.
  2:{ unfold PurchaseService.updatePurchase in Hok.
      rewrite findUnique_miss_run in Hok by (intros i' Hi'; congruence).
      discriminate. }
  rewrite (updatePurchase_run purchaseId i patch w p Hi Hp) in Hok |- *.
  destruct (PurchaseService.validateUpdate patch) as [[]|e]; [|discriminate].
  cbn [fst snd] in Hok |- *. injection Hok as _ <-.
  set (d := PurchaseService.dataToUpdate (World.now w) patch).
  set (w' := World.with_purchases _ _ w).
  eexists. split.
  { unfold PurchaseService.getPurchasesByEmail, bind, Prisma.purchase_findMany,
      Prisma.includeOrderDetails, gets, ret. reflexivity. }
  rewrite map_map. apply in_map_iff. exists (Purchase.apply d p). split; [reflexivity|].
  apply list_elem_of_In.
  rewrite merge_sort_Permutation. apply list_elem_of_In.
  apply filter_In. split.
  - subst w'. cbn [World.purchases World.with_purchases]. unfold Prisma.updated.
    apply in_map_iff. exists p. apply find_some in Hp. destruct Hp as [Hin Hid].
    rewrite Hid. split; [reflexivity|exact Hin].
  - unfold PurchaseService.hasBuyerEmail. apply String.eqb_refl.
Qed.

End Corrections.

Lemma updatePurchase_then_history_witness :
  exists history entry,
    fst (PurchaseService.getPurchasesByEmail "ana@shop.co"
           (snd (PurchaseService.updatePurchase "1" Scenario.rename Sample.ledger)))
    = Ok history
    /\ In entry history
    /\ FormattedPurchase.id entry = 1%Z
    /\ FormattedPurchase.buyerName entry = "Ana Maria Ruiz".
Proof.
  destruct (updatePurchase_then_history "1" Scenario.rename Sample.ledger
              "Purchase updated successfully"
              ltac:(let r := eval vm_compute in
                      (fst (PurchaseService.updatePurchase "1" Scenario.rename
                              Sample.ledger)) in
                    match r with Ok (_, _, ?x) => exact x end)
              eq_refl) as (history & Hhistory & Hin).
  eexists. eexists. split; [exact Hhistory|]. split; [exact Hin|].
  split; reflexivity.
Defined.

(** ** The e-mail pattern *)

Section Patterns.

Lemma append_nil_r (s : string) : s +:+ "" = s.
Proof. induction s as [|c s IH]; [reflexivity|]. now rewrite append_cons, IH. Qed.

Lemma nullable_matches (r : RegExp.regex) :
  RegExp.nullable r = true <-> matches r [].
Proof.
  induction r as [| |p|r1 IH1 r2 IH2|r1 IH1 r2 IH2|r IH]; simpl.
  - split; [discriminate|]. intros H. inversion H.
  - split; [constructor|reflexivity].
  - split; [discriminate|]. intros H. inversion H.
  - rewrite andb_true_iff, IH1, IH2. split.
    + intros [H1 H2]. change (@nil N) with (@nil N ++ []). now constructor.
    + intros H. inversion H as [| |? ? s1 s2 H1 H2 Hr Hs| | | |]; subst.
      apply app_eq_nil in Hs as [-> ->]. auto.
  - rewrite orb_true_iff, IH1, IH2. split.
    + intros [H|H]; [now apply matches_Alt_l|now apply matches_Alt_r].
    + intros H. inversion H; subst; auto.
  - split; [constructor|reflexivity].
Qed.

(** A match of [r*] by a non-empty sequence starts with a non-empty match
    of [r]. *)
Lemma matches_Star_cons (r : RegExp.regex) (u : N) (s : list N) :
  matches (RegExp.Star r) (u :: s) ->
  exists s1 s2, s = s1 ++ s2 /\ matches r (u :: s1) /\ matches (RegExp.Star r) s2.
Proof.
  intros H. remember (RegExp.Star r) as r' eqn:Er. remember (u :: s) as s' eqn:Es.
  revert u s Es.
  induction H as [| | | | | |r0 s1 s2 H1 _ H2 IH2]; intros ch str Es; try discriminate.
  injection Er as ->. destruct s1 as [|x s1].
  - simpl in Es. now apply IH2.
  - simpl in Es. injection Es as -> <-. exists s1, s2. auto.
Qed.

Lemma deriv_matches (r : RegExp.regex) (u : N) (s : list N) :
  matches (RegExp.deriv u r) s <-> matches r (u :: s).
Proof.
  revert s. induction r as [| |p|r1 IH1 r2 IH2|r1 IH1 r2 IH2|r IH]; intros s; simpl.
  - split; intros H; inversion H.
  - split; intros H; inversion H.
  - destruct (p u) eqn:Hp; split; intros H.
    + inversion H; subst. now constructor.
    + inversion H; subst. constructor.
    + inversion H.
    + inversion H; subst. congruence.
  - assert (Hfirst : matches (RegExp.Cat (RegExp.deriv u r1) r2) s ->
                     matches (RegExp.Cat r1 r2) (u :: s)).
    { intros H. inversion H as [| |? ? s1 s2 H1 H2 Hr Hs| | | |]; subst.
      change (u :: s1 ++ s2) with ((u :: s1) ++ s2).
      constructor; [now apply IH1|exact H2]. }
    assert (Hback : matches (RegExp.Cat r1 r2) (u :: s) ->
                    matches (RegExp.Cat (RegExp.deriv u r1) r2) s
                    \/ (matches r1 [] /\ matches (RegExp.deriv u r2) s)).
    { intros H. inversion H as [| |? ? s1 s2 H1 H2 Hr Hs| | | |]; subst.
      destruct s1 as [|x s1].
      - simpl in Hs. subst s2. right. split; [exact H1|now apply IH2].
      - simpl in Hs. injection Hs as -> <-. left.
        constructor; [now apply IH1|exact H2]. }
    destruct (RegExp.nullable r1) eqn:Hn.
    + split.
      * intros H. inversion H; subst; [now apply Hfirst|].
        change (u :: s) with ([] ++ u :: s).
        constructor; [now apply nullable_matches|now apply IH2].
      * intros H. destruct (Hback H) as [H'|[_ H']];
          [now apply matches_Alt_l|now apply matches_Alt_r].
    + split; [exact Hfirst|]. intros H. destruct (Hback H) as [H'|[H' _]]; [exact H'|].
      apply nullable_matches in H'. congruence.
  - split.
    + intros H. inversion H; subst;
        [apply matches_Alt_l; now apply IH1|apply matches_Alt_r; now apply IH2].
    + intros H. inversion H; subst;
        [apply matches_Alt_l; now apply IH1|apply matches_Alt_r; now apply IH2].
  - split.
    + intros H. inversion H as [| |? ? s1 s2 H1 H2 Hr Hs| | | |]; subst.
      change (u :: s1 ++ s2) with ((u :: s1) ++ s2).
      constructor; [now apply IH|exact H2].
    + intros H. destruct (matches_Star_cons r u s H) as (s1 & s2 & -> & H1 & H2).
      constructor; [now apply IH|exact H2].
Qed.

Lemma matchUnits_matches (r : RegExp.regex) (s : list N) :
  RegExp.matchUnits r s = true <-> matches r s.
Proof.
  revert r. induction s as [|u s IH]; intros r; simpl.
  - apply nullable_matches.
  - rewrite IH. apply deriv_matches.
Qed.

Lemma matches_Star_Class (p : N -> bool) (s : list N) :
  matches (RegExp.Star (RegExp.Class p)) s <-> forallb p s = true.
Proof.
  split.
  - intros H. remember (RegExp.Star (RegExp.Class p)) as r eqn:Er.
    induction H as [| | | | | |r0 s1 s2 H1 _ H2 IH2]; try discriminate; [reflexivity|].
    injection Er as ->. inversion H1 as [|p' x Hx| | | | |]; subst.
    simpl. rewrite Hx. now apply IH2.
  - induction s as [|u s IH]; simpl; [constructor|].
    intros H. apply andb_true_iff in H as [Hu Hs].
    change (u :: s) with ([u] ++ s). constructor; [now constructor|auto].
Qed.

Lemma matches_Plus_Class (p : N -> bool) (s : list N) :
  matches (RegExp.Plus (RegExp.Class p)) s <-> s <> [] /\ forallb p s = true.
Proof.
  unfold RegExp.Plus. split.
  - intros H. inversion H as [| |? ? s1 s2 H1 H2 Hr Hs| | | |]; subst.
    inversion H1 as [|p' x Hx| | | | |]; subst.
    split; [discriminate|].
    simpl. rewrite Hx. now apply matches_Star_Class.
  - intros [Hne Hall]. destruct s as [|u s]; [congruence|].
    simpl in Hall. apply andb_true_iff in Hall as [Hu Hs].
    change (u :: s) with ([u] ++ s).
    constructor; [now constructor|now apply matches_Star_Class].
Qed.

Lemma matches_Chr (c : ascii) (s : list N) :
  matches (RegExp.Chr c) s <-> s = [N_of_ascii c].
Proof.
  unfold RegExp.Chr. split.
  - intros H. inversion H as [|p' x Hx| | | | |]; subst. apply N.eqb_eq in Hx.
    now subst.
  - intros ->. constructor. apply N.eqb_refl.
Qed.

(** The sequences of code units that the e-mail pattern accepts. *)
Lemma emailRegex_language (units : list N) :
  RegExp.matchUnits RegExp.emailRegex units = true <-> emailShaped units.
Proof.
  rewrite matchUnits_matches. unfold RegExp.emailRegex, emailShaped, word. split.
  - intros H.
    inversion H as [| |? ? a s1 Ha H1 Hr Hs| | | |]; subst.
    inversion H1 as [| |? ? at_ s2 Hat H2 Hr Hs| | | |]; subst.
    inversion H2 as [| |? ? b s3 Hb H3 Hr Hs| | | |]; subst.
    inversion H3 as [| |? ? dot c Hdot Hc Hr Hs| | | |]; subst.
    apply matches_Chr in Hat, Hdot. subst at_ dot.
    apply matches_Plus_Class in Ha, Hb, Hc.
    exists a, b, c. auto.
  - intros (a & b & c & -> & Ha & Hb & Hc).
    apply matches_Plus_Class in Ha, Hb, Hc.
    repeat (constructor; try assumption); now apply (matches_Chr _ [_]).
Qed.

(** In a part of an address there is no [@] and no white space. *)
Lemma word_units (units : list N) :
  forallb RegExp.notSpaceAt units = true ->
  count_occ N.eq_dec units 64%N = 0%nat
  /\ forallb (fun u => negb (JSString.isSpace u)) units = true.
Proof.
  induction units as [|u units IH]; [auto|]. cbn [forallb count_occ]. intros H.
  apply andb_true_iff in H as [Hu Hrest]. destruct (IH Hrest) as [Hcount Hall].
  unfold RegExp.notSpaceAt in Hu. apply andb_true_iff in Hu as [Hspace Hat].
  rewrite Hspace, Hall. split; [|reflexivity].
  destruct (N.eq_dec u 64%N) as [-> | _]; [discriminate Hat|exact Hcount].
Qed.

(** X13.  The e-mail pattern [/^[^\s@]+@[^\s@]+\.[^\s@]+$/], as the
    derivatives match it, accepts exactly the strings whose UTF-16 code
    units are [local@domain.tld] where [local], [domain] and [tld] are
    non-empty and contain no white space of the class [\s] (U+00A0, U+2003
    and the like included) and no [@]; so an accepted address has exactly
    one [@] and no white space anywhere, and dots are allowed anywhere
    else, a [local] or [tld] that is a single dot included. *)
Theorem emailRegex_accepts_exactly (s : string) :
  (RegExp.test RegExp.emailRegex s = true <-> emailShaped (JSString.codeUnits s))
  /\ (RegExp.test RegExp.emailRegex s = true ->
      count_occ N.eq_dec (JSString.codeUnits s) 64%N = 1%nat
      /\ forallb (fun u => negb (JSString.isSpace u)) (JSString.codeUnits s) = true).
Proof.
  unfold RegExp.test. split; [apply emailRegex_language|].
  intros Htest. apply emailRegex_language in Htest.
  destruct Htest as (local & domain & tld & -> & [_ Hl] & [_ Hd] & [_ Ht]).
  destruct (word_units _ Hl) as [Hl1 Hl2].
  destruct (word_units _ Hd) as [Hd1 Hd2].
  destruct (word_units _ Ht) as [Ht1 Ht2].
  split.
  - rewrite !count_occ_app, Hl1, Hd1, Ht1. reflexivity.
  - rewrite !forallb_app, Hl2, Hd2, Ht2. reflexivity.
Qed.

End Patterns.

(** ** Validation of a request *)

Section RequestValidation.
Context {num : JSNumber}.

Lemma too_short_iff (s : string) (f : string -> string) (n : nat) :
  f "" = "" -> (0 < n)%nat ->
  negb (JSString.truthy s) || Nat.ltb (JSString.length (f s)) n = false
  <-> (n <= JSString.length (f s))%nat.
Proof.
  intros Hf Hn. rewrite orb_false_iff, negb_false_iff, Nat.ltb_ge. split; [tauto|].
  intros Hlen. split; [|exact Hlen].
  destruct s; [rewrite Hf in Hlen; change (JSString.length "") with 0%nat in Hlen; lia
              |reflexivity].
Qed.

(** X14.  [validatePurchaseRequest] accepts exactly the requests with at
    least one item, a buyer e-mail of the shape [local@domain.tld], a buyer
    name of at least two characters once trimmed, an identification number of
    at least six characters and a contact number of at least ten (neither of
    them trimmed, so blanks count), a character being a UTF-16 code unit, as
    [length] counts; every rejection is a [ValidationError]. *)
Theorem validatePurchaseRequest_accepts_exactly (request : CreatePurchaseRequest.t) :
  (PurchaseService.validatePurchaseRequest request = Ok tt
   <-> CreatePurchaseRequest.items request <> []
       /\ emailShaped (JSString.codeUnits (CreatePurchaseRequest.buyerEmail request))
       /\ (2 <= JSString.length (JSString.trim (CreatePurchaseRequest.buyerName request)))%nat
       /\ (6 <= JSString.length (CreatePurchaseRequest.buyerIdentificationNumber request))%nat
       /\ (10 <= JSString.length (CreatePurchaseRequest.buyerContactNumber request))%nat)
  /\ (forall e, PurchaseService.validatePurchaseRequest request = Err e ->
                exists message, e = ValidationError message).
Proof.
  split; [|apply validatePurchaseRequest_error].
  rewrite <- emailRegex_language.
  change (RegExp.matchUnits RegExp.emailRegex
            (JSString.codeUnits (CreatePurchaseRequest.buyerEmail request)))
    with (RegExp.test RegExp.emailRegex (CreatePurchaseRequest.buyerEmail request)).
  rewrite <- (too_short_iff (CreatePurchaseRequest.buyerName request) JSString.trim 2)
    by (reflexivity || lia).
  rewrite <- (too_short_iff (CreatePurchaseRequest.buyerIdentificationNumber request)
                (fun s => s) 6) by (reflexivity || lia).
  rewrite <- (too_short_iff (CreatePurchaseRequest.buyerContactNumber request)
                (fun s => s) 10) by (reflexivity || lia).
  unfold PurchaseService.validatePurchaseRequest.
  destruct (CreatePurchaseRequest.items request) as [|item items]; simpl.
  { split; [discriminate|]. intros [H _]. congruence. }
  destruct (RegExp.test RegExp.emailRegex (CreatePurchaseRequest.buyerEmail request));
    simpl; [|split; [discriminate|intros (_ & H & _); discriminate]].
  destruct (negb (JSString.truthy (CreatePurchaseRequest.buyerName request))
            || Nat.ltb (JSString.length
                          (JSString.trim (CreatePurchaseRequest.buyerName request))) 2);
    [split; [discriminate|intros (_ & _ & H & _); discriminate]|].
  destruct (negb (JSString.truthy (CreatePurchaseRequest.buyerIdentificationNumber request))
            || Nat.ltb (JSString.length
                          (CreatePurchaseRequest.buyerIdentificationNumber request)) 6);
    [split; [discriminate|intros (_ & _ & _ & H & _); discriminate]|].
  destruct (negb (JSString.truthy (CreatePurchaseRequest.buyerContactNumber request))
            || Nat.ltb (JSString.length
                          (CreatePurchaseRequest.buyerContactNumber request)) 10);
    [split; [discriminate|intros (_ & _ & _ & _ & H); discriminate]|].
  split; [|reflexivity]. intros _. repeat split. discriminate.
Qed.

End RequestValidation.

Example validatePurchaseRequest_counts_code_units :
  @PurchaseService.validatePurchaseRequest ZNumber
    (CreatePurchaseRequest.mk "ana@shop.co" Utf8.eAcute "10203040" "3001234567" None
       [Sample.twoLamps])
  = Err (ValidationError "Buyer name must be at least 2 characters long")
  /\ @PurchaseService.validatePurchaseRequest ZNumber
       (CreatePurchaseRequest.mk "ana@shop.co" ("A" +:+ Utf8.nbsp +:+ Utf8.emSpace)
          "10203040" "3001234567" None [Sample.twoLamps])
     = Err (ValidationError "Buyer name must be at least 2 characters long")
  /\ @PurchaseService.validatePurchaseRequest ZNumber
       (CreatePurchaseRequest.mk "ana@shop.co" "Ana Ruiz"
          (Utf8.enye +:+ Utf8.enye +:+ Utf8.enye +:+ Utf8.enye +:+ Utf8.enye)
          "3001234567" None [Sample.twoLamps])
     = Err (ValidationError "Identification number must be at least 6 characters long")
  /\ @PurchaseService.validatePurchaseRequest ZNumber
       (CreatePurchaseRequest.mk ("ana" +:+ Utf8.nbsp +:+ "@shop.co") "Ana Ruiz" "10203040"
          "3001234567" None [Sample.twoLamps])
     = Err (ValidationError "Invalid email format")
  /\ @PurchaseService.validatePurchaseRequest ZNumber
       (CreatePurchaseRequest.mk "ana@shop.co" ("Jos" +:+ Utf8.eAcute) "10203040"
          "3001234567" None [Sample.twoLamps])
     = Ok tt.
Proof. repeat split; reflexivity. Qed.

(** ** The order-detail data source *)

Section OrderDetails.
Context {num : JSNumber}.








Lemma mapResult_ok {A B : Type} (f : A -> Result B) (l : list A) (ys : list B) :
  mapResult f l = Ok ys <-> Forall2 (fun x y => f x = Ok y) l ys.
Proof.
  revert ys. induction l as [|x l IH]; intros ys; simpl.
  - split; [intros H; injection H as <-; constructor|intros H; now inversion H].
  - destruct (f x) as [y|e] eqn:Hx.
    + destruct (mapResult f l) as [ys'|e] eqn:Hl.
      * split.
        -- intros H. injection H as <-. constructor; [exact Hx|now apply IH].
        -- intros H. inversion H as [|? y' ? ys'' Hy Hrest]; subst.
           apply IH in Hrest. congruence.
      * split; [discriminate|]. intros H. inversion H as [|? y' ? ys'' Hy Hrest]; subst.
        apply IH in Hrest. discriminate.
    + split; [discriminate|]. intros H. inversion H; subst. congruence.
Qed.



(** X18.  What [create] returns is what [getById] then reads: when the ids
    of the order details are below the next id of the sequence and [create]
    returns an order detail, [getById] for its id returns the same order
    detail, [getByPurchaseId] for its purchase lists it, and [delete] for its
    id returns [true] and leaves the order details that were there before
    [create]. *)
Theorem create_then_read (d : OrderDetail.CreateInput) (w w' : World.t)
  (e : OrderDetailPrismaAdapter.entity) :
  Forall (fun r => (OrderDetail.id r < World.orderDetailSeq w)%Z) (World.orderDetails w) ->
  OrderDetailPrismaAdapter.create d w = (Ok e, w') ->
  let i := OrderDetail.id (OrderDetailPrismaAdapter.row e) in
  IOrderDetailDataSource.getById i w' = (Ok (Some e), w')
  /\ (forall entities,
         fst (IOrderDetailDataSource.getByPurchaseId (OrderDetail.new_purchaseId d) w')
         = Ok entities ->
         In e entities)
  /\ fst (IOrderDetailDataSource.delete i w') = Ok true
  /\ World.orderDetails (snd (IOrderDetailDataSource.delete i w')) = World.orderDetails w.
Proof.
  intros Hnum Hrun i.
  unfold OrderDetailPrismaAdapter.create, bind, Prisma.orderDetail_create, lift in Hrun.
  set (row := {| OrderDetail.id := World.orderDetailSeq w;
                 OrderDetail.purchaseId := OrderDetail.new_purchaseId d;
                 OrderDetail.productId := OrderDetail.new_productId d;
                 OrderDetail.quantity := OrderDetail.new_quantity d;
                 OrderDetail.unitPrice := toDecimal (OrderDetail.new_unitPrice d);
                 OrderDetail.totalPrice := toDecimal (OrderDetail.new_totalPrice d);
                 OrderDetail.selectedColor := OrderDetail.new_selectedColor d |}) in *.
  injection Hrun as Hmap <-.
  change (OrderDetailPrismaAdapter.mapToOrderDetail (row, Prisma.productOf w row) = Ok e)
    in Hmap.
  assert (Hrow : OrderDetailPrismaAdapter.row e = row).
  { unfold OrderDetailPrismaAdapter.mapToOrderDetail in Hmap.
    destruct (Prisma.productOf w row) as [p|].
    - destruct (JSON.parse (Product.images p)); [|discriminate]. now injection Hmap as <-.
    - now injection Hmap as <-. }
  assert (Hi : i = World.orderDetailSeq w) by (subst i; now rewrite Hrow).
  assert (Hnone : noneWith (PrismaOrderDetail.hasId i) (World.orderDetails w)).
  { unfold noneWith. eapply Forall_impl; [exact Hnum|]. simpl. intros r Hr.
    unfold PrismaOrderDetail.hasId. apply Z.eqb_neq. lia. }
  assert (Hhas : PrismaOrderDetail.hasId i row = true).
  { unfold PrismaOrderDetail.hasId. rewrite Hi. apply Z.eqb_refl. }
  assert (Hfind : find (PrismaOrderDetail.hasId i) (World.orderDetails w ++ [row])
                  = Some row) by now apply find_fresh.
  split; [|split; [|split]].
  - unfold IOrderDetailDataSource.getById, bind,
      PrismaOrderDetail.orderDetail_findUnique, gets.
    cbn [World.orderDetails World.with_orderDetails]. rewrite Hfind.
    unfold PrismaOrderDetail.withProduct, lift, ret. cbn [option_map]. cbv beta iota.
    change (Prisma.productOf (World.with_orderDetails _ _ w) row)
      with (Prisma.productOf w row).
    now rewrite Hmap.
  - intros entities Hok.
    unfold IOrderDetailDataSource.getByPurchaseId, bind,
      PrismaOrderDetail.orderDetail_findMany, gets, lift in Hok. cbn [fst] in Hok.
    apply mapResult_ok in Hok.
    match type of Hok with
    | Forall2 _ ?l _ =>
        set (listed := l) in *;
        assert (Hin : In (PrismaOrderDetail.withProduct w row) listed)
    end.
    { subst listed. apply in_map_iff. exists row. split; [reflexivity|].
      apply list_elem_of_In. rewrite merge_sort_Permutation. apply list_elem_of_In.
      apply filter_In. split; [apply in_or_app; right; now left|].
      unfold PrismaOrderDetail.ofPurchase. apply Z.eqb_refl. }
    clearbody listed. clear -Hok Hin Hmap. revert Hin.
    induction Hok as [|x y xs ys Hxy _ IH]; intros Hin; [destruct Hin|].
    destruct Hin as [-> | Hin].
    + left. unfold PrismaOrderDetail.withProduct in Hxy. congruence.
    + right. now apply IH.
  - unfold IOrderDetailDataSource.delete, try_catch, bind,
      PrismaOrderDetail.orderDetail_delete.
    cbn [World.orderDetails World.with_orderDetails]. now rewrite Hfind.
  - unfold IOrderDetailDataSource.delete, try_catch, bind,
      PrismaOrderDetail.orderDetail_delete.
    cbn [World.orderDetails World.with_orderDetails]. rewrite Hfind.
    cbn [snd ret World.orderDetails World.with_orderDetails].
    rewrite List.filter_app. simpl. rewrite Hhas. simpl. rewrite app_nil_r.
    clear -Hnone. induction Hnone as [|q rows Hq _ IH]; simpl; [reflexivity|].
    rewrite Hq. simpl. now f_equal.
Qed.

End OrderDetails.

Lemma create_then_read_witness :
  exists e,
    IOrderDetailDataSource.getById 10
      (snd (OrderDetailPrismaAdapter.create Scenario.threeLamps Scenario.store))
    = (Ok (Some e),
       snd (OrderDetailPrismaAdapter.create Scenario.threeLamps Scenario.store))
    /\ OrderDetail.purchaseId (OrderDetailPrismaAdapter.row e) = 2%Z
    /\ OrderDetailPrismaAdapter.totalPrice e = 150%Z
    /\ World.orderDetails
         (snd (IOrderDetailDataSource.delete 10
                 (snd (OrderDetailPrismaAdapter.create Scenario.threeLamps
                         Scenario.store))))
       = World.orderDetails Scenario.store.
Proof.
  destruct (create_then_read Scenario.threeLamps Scenario.store
              (snd (OrderDetailPrismaAdapter.create Scenario.threeLamps Scenario.store))
              ltac:(let r := eval vm_compute in
                      (fst (OrderDetailPrismaAdapter.create Scenario.threeLamps
                              Scenario.store)) in
                    match r with Ok ?x => exact x end)
              ltac:(repeat constructor) eq_refl) as (Hread & _ & _ & Hdeleted).
  eexists. split; [exact Hread|]. split; [reflexivity|]. split; [reflexivity|].
  exact Hdeleted.
Defined.

(** ** [WompiPurchaseService] *)

Section Wompi.
Context {num : JSNumber} {ord : JSNumberOrder num}.
Variable wompiService : Payment.Request -> Result WompiPayment.t.

Lemma checkWallpaperNumbers_ok (l : list Z) :
  WompiPurchaseService.checkWallpaperNumbers l = Ok tt
  <-> Forall (fun n => (1 <= n <= 5000)%Z) l.
Proof.
  induction l as [|n l IH]; simpl; [split; [constructor|reflexivity]|].
  unfold WompiPurchaseService.outOfRange.
  destruct (Z.leb_spec n 0) as [Hlow|Hlow]; simpl.
  { split; [discriminate|]. intros Hall. inversion Hall; subst. lia. }
  destruct (Z.ltb_spec 5000 n) as [Hhigh|Hhigh].
  { split; [discriminate|]. intros Hall. inversion Hall; subst. lia. }
  rewrite IH. split; [intros Hall; constructor; [lia|exact Hall]|].
  intros Hall. now inversion Hall.
Qed.

Lemma checkWallpaperNumbers_error (l : list Z) (e : exn) :
  WompiPurchaseService.checkWallpaperNumbers l = Err e ->
  exists message, e = ValidationError message.
Proof.
  induction l as [|n l IH]; simpl; [discriminate|].
  destruct (WompiPurchaseService.outOfRange n); [|exact IH].
  intros H. injection H as <-. eauto.
Qed.

Lemma wompi_validate_error (request : CreateWompiPurchaseRequest.t) (e : exn) :
  WompiPurchaseService.validatePurchaseRequest request = Err e ->
  exists message, e = ValidationError message.
Proof.
  unfold WompiPurchaseService.validatePurchaseRequest. intros H.
  destruct (Nat.eqb _ 0); [injection H as <-; eauto|].
  destruct (WompiPurchaseService.checkWallpaperNumbers _) as [[]|e'] eqn:Hloop.
  2:{ injection H as <-. now apply checkWallpaperNumbers_error in Hloop. }
  repeat match type of H with
         | (if ?c then _ else _) = _ => destruct c; [injection H as <-; eauto|]
         end.
  discriminate.
Qed.

(** X19.  [validatePurchaseRequest] of [WompiPurchaseService] accepts
    exactly the requests with at least one wallpaper number, all of them
    (whole numbers here) between 1 and 5000, a buyer e-mail of the shape
    [local@domain.tld], a name of at least two characters once trimmed, an
    identification number of at least six characters, a contact number of at
    least ten (a character being a UTF-16 code unit, as [length] counts),
    and an amount that is not zero or [NaN], not [<= 0] and not [< 1000];
    every rejection is a [ValidationError]. *)
Theorem wompi_validatePurchaseRequest_accepts_exactly
  (request : CreateWompiPurchaseRequest.t) :
  (WompiPurchaseService.validatePurchaseRequest request = Ok tt
   <-> wompiAcceptable request)
  /\ (forall e, WompiPurchaseService.validatePurchaseRequest request = Err e ->
                exists message, e = ValidationError message).
Proof.
  split; [|apply wompi_validate_error].
  unfold wompiAcceptable.
  rewrite <- emailRegex_language, <- checkWallpaperNumbers_ok.
  change (RegExp.matchUnits RegExp.emailRegex
            (JSString.codeUnits (CreateWompiPurchaseRequest.buyerEmail request)))
    with (RegExp.test RegExp.emailRegex (CreateWompiPurchaseRequest.buyerEmail request)).
  rewrite <- (too_short_iff (CreateWompiPurchaseRequest.buyerName request) JSString.trim 2)
    by (reflexivity || lia).
  rewrite <- (too_short_iff (CreateWompiPurchaseRequest.buyerIdentificationNumber request)
                (fun s => s) 6) by (reflexivity || lia).
  rewrite <- (too_short_iff (CreateWompiPurchaseRequest.buyerContactNumber request)
                (fun s => s) 10) by (reflexivity || lia).
  unfold WompiPurchaseService.validatePurchaseRequest.
  destruct (CreateWompiPurchaseRequest.wallpaperNumbers request) as [|n l] eqn:Hl.
  { simpl. split; [discriminate|]. intros [H _]. congruence. }
  cbn [List.length Nat.eqb].
  destruct (WompiPurchaseService.checkWallpaperNumbers (n :: l)) as [[]|e];
    [|split; [discriminate|intros (_ & H & _); discriminate]].
  destruct (RegExp.test RegExp.emailRegex (CreateWompiPurchaseRequest.buyerEmail request));
    simpl; [|split; [discriminate|intros (_ & _ & H & _); discriminate]].
  destruct (negb (JSString.truthy (CreateWompiPurchaseRequest.buyerName request))
            || Nat.ltb (JSString.length
                          (JSString.trim (CreateWompiPurchaseRequest.buyerName request))) 2);
    [split; [discriminate|intros (_ & _ & _ & H & _); discriminate]|].
  destruct (negb (JSString.truthy
                    (CreateWompiPurchaseRequest.buyerIdentificationNumber request))
            || Nat.ltb (JSString.length
                          (CreateWompiPurchaseRequest.buyerIdentificationNumber request)) 6);
    [split; [discriminate|intros (_ & _ & _ & _ & H & _); discriminate]|].
  destruct (negb (JSString.truthy (CreateWompiPurchaseRequest.buyerContactNumber request))
            || Nat.ltb (JSString.length
                          (CreateWompiPurchaseRequest.buyerContactNumber request)) 10);
    [split; [discriminate|intros (_ & _ & _ & _ & _ & H & _); discriminate]|].
  destruct (falsy (CreateWompiPurchaseRequest.amount request));
    [split; [discriminate|intros (_ & _ & _ & _ & _ & _ & H & _); discriminate]|].
  destruct (leq_zero (CreateWompiPurchaseRequest.amount request));
    [split; [discriminate|intros (_ & _ & _ & _ & _ & _ & _ & H & _); discriminate]|].
  simpl.
  destruct (lt_thousand (CreateWompiPurchaseRequest.amount request));
    [split; [discriminate|intros (_ & _ & _ & _ & _ & _ & _ & _ & H); discriminate]|].
  split; [|reflexivity]. intros _. repeat split. discriminate.
Qed.

Lemma wompi_createPurchase_run (request : CreateWompiPurchaseRequest.t) (w : World.t) :
  WompiPurchaseService.validatePurchaseRequest request = Ok tt ->
  let call := WompiPurchaseService.paymentOf request in
  let called := World.with_gatewayCalls (World.gatewayCalls w ++ [call]) w in
  WompiPurchaseService.createPurchase wompiService request w
  = match wompiService call with
    | Ok payment =>
        (Ok {| CreateWompiPurchaseResponse.purchaseId :=
                 JSString.ofZ (World.purchaseSeq w);
               CreateWompiPurchaseResponse.reference := WompiPayment.reference payment;
               CreateWompiPurchaseResponse.publicKey := WompiPayment.publicKey payment;
               CreateWompiPurchaseResponse.signature := WompiPayment.signature payment;
               CreateWompiPurchaseResponse.amountInCents :=
                 WompiPayment.amountInCents payment;
               CreateWompiPurchaseResponse.wallpaperNumbers :=
                 CreateWompiPurchaseRequest.wallpaperNumbers request;
               CreateWompiPurchaseResponse.currency := WompiPayment.currency payment;
               CreateWompiPurchaseResponse.checkoutUrl :=
                 WompiPayment.paymentUrl payment |},
         World.with_purchases
           (World.purchases w ++ [WompiPurchaseService.purchaseRow request payment w])
           (World.purchaseSeq w + 1) called)
    | Err e => (Err e, called)
    end.
Proof.
  intros Hok call called.
  unfold WompiPurchaseService.createPurchase, bind, lift,
    WompiPurchaseService.createPayment, PrismaPurchase.purchase_insert, ret.
  rewrite Hok. fold call. destruct (wompiService call); reflexivity.
Qed.

(** X20.  [createPurchase] of [WompiPurchaseService] calls the gateway
    before it writes: a request that is rejected reaches neither the gateway
    nor the table; for an accepted one the gateway is called once, with the
    amount of the request, and when it fails its error is returned and no
    purchase is written, so this path leaves no purchase without a payment
    reference.  When the gateway answers, one purchase is added, PENDING,
    with the amount of the request as it is (not in cents) and the
    gateway's reference as external reference, preference id and
    transaction id, and the response carries the id of the purchase as a
    string and the parameters of the checkout.  No order detail is ever
    written, so the new purchase has none. *)
Theorem wompi_createPurchase_gateway_first (request : CreateWompiPurchaseRequest.t)
  (w : World.t) :
  let out := WompiPurchaseService.createPurchase wompiService request w in
  let call := WompiPurchaseService.paymentOf request in
  (forall e, WompiPurchaseService.validatePurchaseRequest request = Err e ->
             out = (Err e, w))
  /\ (WompiPurchaseService.validatePurchaseRequest request = Ok tt ->
      World.gatewayCalls (snd out) = World.gatewayCalls w ++ [call]
      /\ Payment.amount call = CreateWompiPurchaseRequest.amount request
      /\ World.orderDetails (snd out) = World.orderDetails w
      /\ World.products (snd out) = World.products w
      /\ World.emailsSent (snd out) = World.emailsSent w
      /\ (forall e, wompiService call = Err e ->
                    fst out = Err e
                    /\ World.purchases (snd out) = World.purchases w
                    /\ World.purchaseSeq (snd out) = World.purchaseSeq w)
      /\ (forall payment, wompiService call = Ok payment ->
            exists row,
              World.purchases (snd out) = World.purchases w ++ [row]
              /\ World.purchaseSeq (snd out) = (World.purchaseSeq w + 1)%Z
              /\ Purchase.id row = World.purchaseSeq w
              /\ Purchase.status row = "PENDING"
              /\ Purchase.orderStatus row = "PENDING"
              /\ Purchase.amount row = CreateWompiPurchaseRequest.amount request
              /\ Purchase.buyerEmail row = CreateWompiPurchaseRequest.buyerEmail request
              /\ Purchase.externalReference row = WompiPayment.reference payment
              /\ Purchase.preferenceId row = WompiPayment.reference payment
              /\ Purchase.wompiTransactionId row = Some (WompiPayment.reference payment)
              /\ (Forall (fun d => OrderDetail.purchaseId d <> World.purchaseSeq w)
                    (World.orderDetails w) ->
                  Prisma.orderDetailsOf (snd out) row = [])
              /\ exists response,
                  fst out = Ok response
                  /\ CreateWompiPurchaseResponse.purchaseId response
                     = JSString.ofZ (World.purchaseSeq w)
                  /\ CreateWompiPurchaseResponse.reference response
                     = WompiPayment.reference payment
                  /\ CreateWompiPurchaseResponse.amountInCents response
                     = WompiPayment.amountInCents payment
                  /\ CreateWompiPurchaseResponse.checkoutUrl response
                     = WompiPayment.paymentUrl payment
                  /\ CreateWompiPurchaseResponse.wallpaperNumbers response
                     = CreateWompiPurchaseRequest.wallpaperNumbers request)).
Proof.
  intros out call. subst out. split.
  - intros e He. unfold WompiPurchaseService.createPurchase, bind, lift. now rewrite He.
  - intros Hok. rewrite (wompi_createPurchase_run request w Hok). fold call.
    destruct (wompiService call) as [payment|e] eqn:Hgw;
      cbn [fst snd World.gatewayCalls World.with_gatewayCalls World.with_purchases
           World.orderDetails World.products World.emailsSent World.purchases
           World.purchaseSeq].
    + repeat (split; [reflexivity|]). split; [intros e He; discriminate He|].
      intros payment' Hp. injection Hp as <-. eexists. split; [reflexivity|].
      repeat (split; [reflexivity|]). split.
      * intros Hnone. unfold Prisma.orderDetailsOf.
        cbn [World.orderDetails World.with_purchases World.with_gatewayCalls].
        replace (List.filter _ (World.orderDetails w)) with (@nil OrderDetail.t);
          [reflexivity|].
        symmetry. induction Hnone as [|d ds Hd _ IH]; simpl; [reflexivity|].
        apply Z.eqb_neq in Hd. simpl in Hd. now rewrite Hd.
      * eexists. split; [reflexivity|]. repeat split.
    + repeat (split; [reflexivity|]). split; [|intros payment Hp; discriminate Hp].
      intros e' He. injection He as <-. repeat split.
Qed.

Lemma recorded_run (reference status : string) (t : N) (w : World.t) :
  WompiPurchaseService.updatePurchaseStatusByReference reference status (at_time t w)
  = (Ok tt,
     World.with_purchases
       (map (fun q => if PurchaseService.hasExternalReference reference q
                      then Purchase.apply (WompiPurchaseService.statusData status t) q
                      else q) (World.purchases w))
       (World.purchaseSeq w) (at_time t w)).
Proof. reflexivity. Qed.

(** X21.  [updatePurchaseStatusByReference] never fails.  It sets the
    status and the update time of every purchase with the external
    reference, not only of the first, and changes nothing else: not the
    transaction id, no other field, no other purchase, no other table; for a
    reference of no purchase the purchases are as before.  A later call for
    the same reference overwrites an earlier one without a trace, whatever
    the two statuses are. *)
Theorem updatePurchaseStatusByReference_updates_all (reference s1 s2 : string)
  (t1 t2 : N) (w : World.t) :
  WompiPurchaseService.updatePurchaseStatusByReference reference s1 (at_time t1 w)
  = (Ok tt, recorded reference s1 t1 w)
  /\ sameButPurchases (at_time t1 w) (recorded reference s1 t1 w)
  /\ Forall2 (fun old new =>
                if String.eqb (Purchase.externalReference old) reference
                then Purchase.status new = s1
                     /\ Purchase.updatedAt new = t1
                     /\ sameButStatus old new
                else new = old)
       (World.purchases w) (World.purchases (recorded reference s1 t1 w))
  /\ (noneWith (PurchaseService.hasExternalReference reference) (World.purchases w) ->
      World.purchases (recorded reference s1 t1 w) = World.purchases w)
  /\ recorded reference s2 t2 (recorded reference s1 t1 w) = recorded reference s2 t2 w.
Proof.
  unfold recorded. rewrite !recorded_run. cbn [snd].
  split; [reflexivity|]. split; [repeat split|]. split; [|split].
  - cbn [World.purchases World.with_purchases].
    induction (World.purchases w) as [|q rows IH]; simpl; constructor; [|exact IH].
    unfold PurchaseService.hasExternalReference.
    destruct (String.eqb (Purchase.externalReference q) reference); [|reflexivity].
    repeat split.
  - intros Hnone. cbn [World.purchases World.with_purchases].
    induction Hnone as [|q rows Hq _ IH]; simpl; [reflexivity|].
    rewrite Hq. now f_equal.
  - cbn [World.purchases World.with_purchases World.purchaseSeq].
    unfold World.with_purchases, at_time. cbn. f_equal.
    rewrite map_map. apply map_ext. intros q.
    destruct (PurchaseService.hasExternalReference reference q) eqn:Hq.
    + change (PurchaseService.hasExternalReference reference
                (Purchase.apply (WompiPurchaseService.statusData s1 t1) q))
        with (PurchaseService.hasExternalReference reference q).
      rewrite Hq. reflexivity.
    + now rewrite Hq.
Qed.

(** X22.  A purchase created by [WompiPurchaseService] is found again by
    the reference that the gateway gave: [updatePurchaseStatusByReference]
    for that reference sets the status of the new purchase (and of every
    older purchase with the same external reference), and so does
    [updatePaymentStatus] of [PurchaseService] with the reference as
    transaction id, which then changes the new purchase only, provided that
    no older purchase has it as transaction id. *)
Theorem wompi_purchase_is_reconciled (request : CreateWompiPurchaseRequest.t)
  (w : World.t) (payment : WompiPayment.t) (status : string) (t : N)
  (pd : option PaymentData.t) :
  WompiPurchaseService.validatePurchaseRequest request = Ok tt ->
  wompiService (WompiPurchaseService.paymentOf request) = Ok payment ->
  let w1 := snd (WompiPurchaseService.createPurchase wompiService request w) in
  let reference := WompiPayment.reference payment in
  (exists olds row,
      World.purchases (recorded reference status t w1) = olds ++ [row]
      /\ Purchase.id row = World.purchaseSeq w
      /\ Purchase.status row = status
      /\ Purchase.updatedAt row = t
      /\ Purchase.amount row = CreateWompiPurchaseRequest.amount request
      /\ Forall2 (fun old new =>
                    if String.eqb (Purchase.externalReference old) reference
                    then Purchase.status new = status
                    else new = old)
           (World.purchases w) olds)
  /\ (numbered w ->
      noneWith (PurchaseService.hasTransactionId reference) (World.purchases w) ->
      exists row,
        World.purchases (notified reference status pd t w1) = World.purchases w ++ [row]
        /\ Purchase.id row = World.purchaseSeq w
        /\ Purchase.status row = status
        /\ Purchase.updatedAt row = t
        /\ Purchase.wompiTransactionId row = Some reference).
Proof.
  intros Hok Hgw w1 reference. subst w1.
  pose proof (wompi_createPurchase_run request w Hok) as Hrun. cbv zeta in Hrun.
  rewrite Hgw in Hrun. rewrite Hrun. cbn [snd]. clear Hrun.
  set (row1 := WompiPurchaseService.purchaseRow request payment w).
  split.
  - unfold recorded. rewrite recorded_run. cbn [snd World.purchases World.with_purchases].
    rewrite map_app. cbn [map].
    assert (Hrow : PurchaseService.hasExternalReference reference row1 = true)
      by apply String.eqb_refl.
    rewrite Hrow. eexists. eexists. split; [reflexivity|].
    repeat (split; [reflexivity|]).
    induction (World.purchases w) as [|q rows IH]; simpl; constructor; [|exact IH].
    unfold PurchaseService.hasExternalReference.
    destruct (String.eqb (Purchase.externalReference q) reference); reflexivity.
  - intros Hnum Hfresh.
    set (w1 := World.with_purchases _ _ _).
    assert (Hp : reconciles reference pd (World.purchases w1) row1).
    { left. exists (World.purchases w), []. split; [reflexivity|].
      split; [|exact Hfresh].
      unfold PurchaseService.hasTransactionId, row1. simpl. apply String.eqb_refl. }
    rewrite (notified_hit reference status pd t w1 row1 Hp).
    subst w1. cbn [World.purchases World.with_purchases World.with_gatewayCalls].
    rewrite (updated_fresh _ _ _ row1 (numbered_fresh w Hnum) eq_refl).
    eexists. split; [reflexivity|]. repeat split.
Qed.

End Wompi.

Lemma wompi_purchase_is_reconciled_witness :
  (exists olds row,
      World.purchases
        (recorded "WP-77" "APPROVED" 1700000030000
           (snd (@WompiPurchaseService.createPurchase ZNumber ZNumberOrder
                   Scenario.wompiGateway Scenario.wallpapers Scenario.store)))
      = olds ++ [row]
      /\ Purchase.id row = 10%Z
      /\ Purchase.status row = "APPROVED"
      /\ Purchase.amount row = 25000%Z)
  /\ (exists row,
         World.purchases
           (notified "WP-77" "APPROVED" None 1700000030000
              (snd (@WompiPurchaseService.createPurchase ZNumber ZNumberOrder
                      Scenario.wompiGateway Scenario.wallpapers Scenario.store)))
         = [Sample.paid; Sample.pending] ++ [row]
         /\ Purchase.status row = "APPROVED"
         /\ Purchase.wompiTransactionId row = Some "WP-77").
Proof.
  destruct (@wompi_purchase_is_reconciled ZNumber ZNumberOrder Scenario.wompiGateway
              Scenario.wallpapers Scenario.store Scenario.checkout "APPROVED"
              1700000030000 None eq_refl eq_refl) as [Hrecorded Hnotified].
  destruct Hrecorded as (olds & row & Hrows & Hid & Hstatus & _ & Hamount & _).
  destruct (Hnotified ltac:(split; repeat constructor) ltac:(repeat constructor))
    as (row' & Hrows' & _ & Hstatus' & _ & Htid).
  split.
  - exists olds, row. split; [exact Hrows|]. split; [exact Hid|].
    split; [exact Hstatus|exact Hamount].
  - exists row'. split; [exact Hrows'|]. split; [exact Hstatus'|exact Htid].
Defined.

(** ** The HTTP functions *)

Section HttpFunctions.
Context {Data Body Store : Type}.

Lemma upperChar_idempotent (c : ascii) :
  JSString.upperChar (JSString.upperChar c) = JSString.upperChar c.
Proof. destruct c as [[] [] [] [] [] [] [] []]; reflexivity. Qed.

Lemma toUpperCase_idempotent (s : string) :
  JSString.toUpperCase (JSString.toUpperCase s) = JSString.toUpperCase s.
Proof.
  induction s as [|c s IH]; simpl; [reflexivity|].
  now rewrite upperChar_idempotent, IH.
Qed.

Lemma invoke_called {A : Type} (c : @Http.Call Body) (answer : Store -> Result A * Store)
  (k : A -> @Http.Svc Body Store (@Http.Response Data)) (st : @Http.State Body Store) :
  (forall a st', exists data message, k a st' = (Ok (Http.success data message), st')) ->
  Http.calledOnce st (Http.bindS (Http.invoke c answer) k st).
Proof.
  intros Hk. unfold Http.calledOnce, Http.bindS, Http.invoke.
  destruct (answer (snd st)) as [[a|e] store]; cbn [fst snd].
  - destruct (Hk a (fst st ++ [c], store)) as (data & message & ->). cbn [fst snd].
    split; [now exists c|exact I].
  - split; [now exists c|exact I].
Qed.

(** X23.  The two HTTP functions answer with a validation error, without
    calling their service, exactly the requests whose method is none of GET,
    POST, PUT and DELETE (in any letter case), the POST requests with an id
    and the PUT and DELETE requests without one (an empty id is no id).  For
    every other request they call exactly one method of the service, and
    what they return is a success or the exception of that method. *)
Theorem http_functions_reject_or_call_once
  (productService : @Http.ProductService Data Body Store)
  (categoryService : @Http.CategoryService Data Body Store)
  (req : @Http.HttpRequest Body) (st : @Http.State Body Store) :
  (Http.rejected req = true ->
   (exists errors,
       Http.funcProducts productService req st = (Ok (Http.validationError errors), st))
   /\ (exists errors,
          Http.funcCategories categoryService req st
          = (Ok (Http.validationError errors), st)))
  /\ (Http.rejected req = false ->
      Http.calledOnce st (Http.funcProducts productService req st)
      /\ Http.calledOnce st (Http.funcCategories categoryService req st)).
Proof.
  unfold Http.rejected, Http.funcProducts, Http.funcCategories.
  destruct (Http.isMethod (Http.methodOf req) "GET").
  { split; [discriminate|]. intros _.
    destruct (Http.id req) as [[|c i]|];
      repeat match goal with
             | |- context [if ?b then _ else _] => destruct b
             | |- context [match Http.lookup ?n ?q with _ => _ end] =>
                 destruct (Http.lookup n q) as [[|? ?]|]
             end;
      split; apply invoke_called; intros; eexists; eexists; reflexivity. }
  destruct (Http.isMethod (Http.methodOf req) "POST").
  { destruct (JSString.truthyOpt (Http.id req)).
    - split; [|discriminate]. intros _. split; eexists; reflexivity.
    - split; [discriminate|]. intros _.
      split; apply invoke_called; intros; eexists; eexists; reflexivity. }
  destruct (Http.isMethod (Http.methodOf req) "PUT").
  { cbn [orb]. destruct (Http.id req) as [[|c i]|];
      cbn [JSString.truthyOpt JSString.truthy negb].
    - split; [|discriminate]. intros _. split; eexists; reflexivity.
    - split; [discriminate|]. intros _.
      split; apply invoke_called; intros; eexists; eexists; reflexivity.
    - split; [|discriminate]. intros _. split; eexists; reflexivity. }
  destruct (Http.isMethod (Http.methodOf req) "DELETE").
  { cbn [orb]. destruct (Http.id req) as [[|c i]|];
      cbn [JSString.truthyOpt JSString.truthy negb].
    - split; [|discriminate]. intros _. split; eexists; reflexivity.
    - split; [discriminate|]. intros _.
      split; apply invoke_called; intros; eexists; eexists; reflexivity.
    - split; [|discriminate]. intros _. split; eexists; reflexivity. }
  cbn [orb]. split; [|discriminate]. intros _. split; eexists; reflexivity.
Qed.

Lemma invoke_log {A : Type} (c : @Http.Call Body) (answer : Store -> Result A * Store)
  (k : A -> @Http.Svc Body Store (@Http.Response Data)) (st : @Http.State Body Store) :
  (forall a st', fst (snd (k a st')) = fst st') ->
  fst (snd (Http.bindS (Http.invoke c answer) k st)) = fst st ++ [c].
Proof.
  intros Hk. unfold Http.bindS, Http.invoke.
  destruct (answer (snd st)) as [[a|e] store]; cbn [fst snd]; [|reflexivity].
  now rewrite Hk.
Qed.

(** X24.  A GET request only reads, and the id of the route has
    precedence over the query: [funcProducts] calls [getProductById] when
    the route has an id, whatever the query says; without an id it calls
    [getShowcaseProducts] when the query has [showcase] equal to [true] in
    exactly this spelling, else [getProductsByCategory] when the query has a
    non-empty [categoryId], else [getAllProducts] with the whole query.
    [funcCategories] knows no such filters: it calls [getCategoryById] or
    [getAllCategories].  The spelling of the method does not matter to
    either function. *)
Theorem http_get_precedence
  (productService : @Http.ProductService Data Body Store)
  (categoryService : @Http.CategoryService Data Body Store)
  (req : @Http.HttpRequest Body) (st : @Http.State Body Store) :
  Http.isMethod (Http.methodOf req) "GET" = true ->
  let q := Http.query req in
  let called := fst (snd (Http.funcProducts productService req st)) in
  let calledCategories := fst (snd (Http.funcCategories categoryService req st)) in
  (forall i, Http.id req = Some i -> i <> "" ->
             called = fst st ++ [Http.getById i]
             /\ calledCategories = fst st ++ [Http.getById i])
  /\ (JSString.truthyOpt (Http.id req) = false ->
      calledCategories = fst st ++ [Http.getAll q]
      /\ (Http.lookup "showcase" q = Some "true" ->
          called = fst st ++ [Http.getShowcase])
      /\ (Http.lookup "showcase" q <> Some "true" ->
          (forall categoryId,
              Http.lookup "categoryId" q = Some categoryId -> categoryId <> "" ->
              called = fst st ++ [Http.getByCategory categoryId])
          /\ (JSString.truthyOpt (Http.lookup "categoryId" q) = false ->
              called = fst st ++ [Http.getAll q])))
  /\ Http.funcProducts productService
       (Http.withMethod (Http.methodOf req) req) st
     = Http.funcProducts productService req st
  /\ Http.funcCategories categoryService
       (Http.withMethod (Http.methodOf req) req) st
     = Http.funcCategories categoryService req st.
Proof.
  intros Hget q called calledCategories. subst called calledCategories.
  assert (Hmethod : Http.methodOf (Http.withMethod (Http.methodOf req) req)
                    = Http.methodOf req).
  { unfold Http.methodOf, Http.withMethod. cbn [Http.method].
    destruct (Http.method req) as [m|]; simpl; [|reflexivity].
    now rewrite toUpperCase_idempotent. }
  split; [|split; [|split]].
  - intros i Hi Hne. unfold Http.funcProducts, Http.funcCategories.
    rewrite Hget, Hi. destruct i as [|c i]; [congruence|].
    split; apply invoke_log; reflexivity.
  - intros Hid. unfold Http.funcProducts, Http.funcCategories. rewrite Hget. fold q.
    destruct (Http.id req) as [[|c i]|]; try discriminate Hid.
    + split; [apply invoke_log; reflexivity|]. split.
      * intros ->. cbn [String.eqb Ascii.eqb]. simpl. apply invoke_log. reflexivity.
      * intros Hshow.
        assert (Hno : match Http.lookup "showcase" q with
                      | Some v => String.eqb v "true"
                      | None => false
                      end = false).
        { destruct (Http.lookup "showcase" q) as [v|]; [|reflexivity].
          apply String.eqb_neq. congruence. }
        rewrite Hno. split.
        -- intros categoryId -> Hne. destruct categoryId as [|c i]; [congruence|].
           apply invoke_log. reflexivity.
        -- intros Hcat. destruct (Http.lookup "categoryId" q) as [[|c i]|];
             try discriminate Hcat; apply invoke_log; reflexivity.
    + split; [apply invoke_log; reflexivity|]. split.
      * intros ->. simpl. apply invoke_log. reflexivity.
      * intros Hshow.
        assert (Hno : match Http.lookup "showcase" q with
                      | Some v => String.eqb v "true"
                      | None => false
                      end = false).
        { destruct (Http.lookup "showcase" q) as [v|]; [|reflexivity].
          apply String.eqb_neq. congruence. }
        rewrite Hno. split.
        -- intros categoryId -> Hne. destruct categoryId as [|c i]; [congruence|].
           apply invoke_log. reflexivity.
        -- intros Hcat. destruct (Http.lookup "categoryId" q) as [[|c i]|];
             try discriminate Hcat; apply invoke_log; reflexivity.
  - unfold Http.funcProducts. now rewrite Hmethod.
  - unfold Http.funcCategories. now rewrite Hmethod.
Qed.

End HttpFunctions.

Lemma http_get_precedence_witness :
  fst (snd (Http.funcProducts Scenario.productService Scenario.showcaseRequest ([], tt)))
  = [] ++ [Http.getShowcase]
  /\ fst (snd (Http.funcCategories Scenario.categoryService Scenario.showcaseRequest
                 ([], tt)))
     = [] ++ [Http.getAll [("showcase", "true"); ("categoryId", "3")]].
Proof.
  destruct (http_get_precedence Scenario.productService Scenario.categoryService
              Scenario.showcaseRequest ([], tt) eq_refl) as (_ & Hquery & _).
  destruct (Hquery eq_refl) as (Hcategories & Hshowcase & _).
  split; [exact (Hshowcase eq_refl)|exact Hcategories].
Defined.

(** ** Ids as strings *)

Section IdStrings.

Ltac digit_step :=
  cbn [NilEmpty.string_of_uint];
  rewrite ?append_cons;
  cbn [JSParseInt.digits];
  match goal with
  | |- context [JSParseInt.digitOf 10 ?c] =>
      let v := eval vm_compute in (JSParseInt.digitOf 10 c) in
      change (JSParseInt.digitOf 10 c) with v
  end;
  cbv iota beta.

Lemma digits_acc (d : Decimal.uint) (p : positive) (rest : string) :
  JSParseInt.digits 10 (NilEmpty.string_of_uint d +:+ rest) (Some (Npos p))
  = JSParseInt.digits 10 rest (Some (Npos (Pos.of_uint_acc d p))).
Proof.
  revert p. induction d as [|d IH|d IH|d IH|d IH|d IH|d IH|d IH|d IH|d IH|d IH];
    intros p; [reflexivity|..];
    digit_step; cbn [Pos.of_uint_acc]; rewrite <- IH; do 2 f_equal; lia.
Qed.

Lemma digits_zero (d : Decimal.uint) (rest : string) :
  JSParseInt.digits 10 (NilEmpty.string_of_uint d +:+ rest) (Some 0%N)
  = JSParseInt.digits 10 rest (Some (Pos.of_uint d)).
Proof.
  induction d as [|d IH|d IH|d IH|d IH|d IH|d IH|d IH|d IH|d IH|d IH];
    [reflexivity|digit_step; exact IH|..];
    digit_step; cbn [Pos.of_uint N.mul N.add Pos.add]; apply digits_acc.
Qed.

Lemma digits_none (d : Decimal.uint) (rest : string) :
  d <> Decimal.Nil ->
  JSParseInt.digits 10 (NilEmpty.string_of_uint d +:+ rest) None
  = JSParseInt.digits 10 rest (Some (Pos.of_uint d)).
Proof.
  destruct d; [congruence|..]; intros _;
    [digit_step; cbn [Pos.of_uint]; apply digits_zero|..];
    digit_step; cbn [Pos.of_uint]; apply digits_acc.
Qed.

Lemma digitOf_not_digit (c : ascii) :
  JSString.isDigit c = false -> JSParseInt.digitOf 10 c = None.
Proof. destruct c as [[] [] [] [] [] [] [] []]; vm_compute; congruence. Qed.

Lemma digits_stop (rest : string) (acc : option N) :
  endsNumber rest -> JSParseInt.digits 10 rest acc = acc.
Proof.
  destruct rest as [|c rest]; [reflexivity|]. intros (Hc & _).
  cbn [JSParseInt.digits]. now rewrite (digitOf_not_digit c Hc).
Qed.

Lemma to_uint_no_leading_zero (p : positive) (d : Decimal.uint) :
  Pos.to_uint p <> Decimal.D0 d.
Proof.
  intros Hp.
  pose proof (Stdlib.Numbers.DecimalPos.Unsigned.to_of (Pos.to_uint p)) as Hnorm.
  rewrite Stdlib.Numbers.DecimalPos.Unsigned.of_to in Hnorm.
  change (N.to_uint (Npos p)) with (Pos.to_uint p) in Hnorm.
  rewrite Hp in Hnorm. rewrite Stdlib.Numbers.DecimalFacts.unorm_D0 in Hnorm.
  unfold Decimal.unorm in Hnorm.
  destruct (Decimal.nzhead d) eqn:Hhead;
    try (symmetry in Hnorm;
         exact (Stdlib.Numbers.DecimalFacts.nzhead_nonzero d d
                  (eq_trans Hhead Hnorm))).
  injection Hnorm as ->.
  exact (Stdlib.Numbers.DecimalPos.Unsigned.to_uint_nonzero p Hp).
Qed.

(** The decimal digits of a positive number start with a digit that is not
    zero: they are no hexadecimal literal, they have no sign and nothing of
    them is trimmed. *)
Lemma unsigned_to_uint (p : positive) (rest : string) :
  endsNumber rest ->
  JSParseInt.unsigned (NilEmpty.string_of_uint (Pos.to_uint p) +:+ rest) = Some (Npos p)
  /\ exists c r, NilEmpty.string_of_uint (Pos.to_uint p) = String c r
                 /\ (N_of_ascii c <? 128)%N = true
                 /\ JSString.isWhiteSpace c = false
                 /\ Ascii.eqb c "-" = false /\ Ascii.eqb c "+" = false.
Proof.
  intros Hrest.
  pose proof (Stdlib.Numbers.DecimalPos.Unsigned.to_uint_nonnil p) as Hnil.
  pose proof (Stdlib.Numbers.DecimalPos.Unsigned.of_to p) as Hof.
  pose proof (to_uint_no_leading_zero p) as Hzero.
  pose proof (digits_none (Pos.to_uint p) rest Hnil) as Hdigits.
  rewrite Hof, (digits_stop rest _ Hrest) in Hdigits.
  destruct (Pos.to_uint p) as [|d|d|d|d|d|d|d|d|d|d]; [congruence|..];
    try (exfalso; exact (Hzero d eq_refl));
    (split; [|eexists; eexists; split; [reflexivity|repeat split; reflexivity]]);
    unfold JSParseInt.unsigned; cbn [NilEmpty.string_of_uint] in *;
    rewrite append_cons in *;
    destruct (NilEmpty.string_of_uint d +:+ rest); exact Hdigits.
Qed.

Lemma string_of_uint_nonnil (d : Decimal.uint) :
  d <> Decimal.Nil -> NilZero.string_of_uint d = NilEmpty.string_of_uint d.
Proof. destruct d; [congruence|..]; reflexivity. Qed.

(** Nothing is trimmed before a character of one byte that is no white
    space. *)
Lemma trimStart_head (c : ascii) (t : string) :
  (N_of_ascii c <? 128)%N = true -> JSString.isWhiteSpace c = false ->
  JSString.trimStart (String c t) = String c t.
Proof.
  intros Hc Hws. cbn [JSString.trimStart]. rewrite Hws. apply N.ltb_lt in Hc.
  assert (H2 : forall b, JSString.isWhiteSpace2 c b = false).
  { intros b. unfold JSString.isWhiteSpace2, JSString.decode2.
    destruct (N.leb_spec 194 (N_of_ascii c)) as [H|H]; [lia|reflexivity]. }
  assert (H3 : forall b d, JSString.isWhiteSpace3 c b d = false).
  { intros b d. unfold JSString.isWhiteSpace3, JSString.decode3.
    destruct (N.leb_spec 224 (N_of_ascii c)) as [H|H]; [lia|reflexivity]. }
  destruct t as [|b [|d t]]; try reflexivity; rewrite ?H2, ?H3; reflexivity.
Qed.

Lemma trimStart_blanks (blanks s : string) :
  JSString.all JSString.isWhiteSpace blanks = true ->
  JSString.trimStart (blanks +:+ s) = JSString.trimStart s.
Proof.
  induction blanks as [|c blanks IH]; [now rewrite append_empty|].
  cbn [JSString.all]. intros H. apply andb_true_iff in H as [Hc Hrest].
  rewrite append_cons. cbn [JSString.trimStart]. rewrite Hc. auto.
Qed.

Lemma parseInt_leading_integer (z : Z) (blanks rest : string) :
  JSString.all JSString.isWhiteSpace blanks = true ->
  endsNumber rest ->
  JSParseInt.parseInt (blanks +:+ JSString.ofZ z +:+ rest) = Some z.
Proof.
  intros Hblanks Hrest. unfold JSParseInt.parseInt.
  rewrite (trimStart_blanks _ _ Hblanks). unfold JSString.ofZ.
  destruct z as [|p|p]; cbn [Z.to_int NilZero.string_of_int].
  - cbn [NilZero.string_of_uint NilEmpty.string_of_uint].
    rewrite append_cons, append_empty.
    rewrite (trimStart_head "0" rest eq_refl eq_refl).
    change (Ascii.eqb "0" "-") with false. change (Ascii.eqb "0" "+") with false.
    cbv iota. unfold JSParseInt.unsigned.
    destruct rest as [|c rest]; [reflexivity|]. destruct Hrest as (Hc & Hx & HX).
    rewrite Hx, HX. change (Ascii.eqb "0" "0") with true. cbn [andb orb].
    cbn [JSParseInt.digits]. change (JSParseInt.digitOf 10 "0") with (Some 0%N).
    cbv iota beta. now rewrite (digitOf_not_digit c Hc).
  - rewrite (string_of_uint_nonnil _ (Stdlib.Numbers.DecimalPos.Unsigned.to_uint_nonnil p)).
    destruct (unsigned_to_uint p rest Hrest)
      as (Hunsigned & c & r & Hs & Hascii & Hws & Hminus & Hplus).
    rewrite Hs in Hunsigned |- *. rewrite append_cons in Hunsigned |- *.
    rewrite (trimStart_head c _ Hascii Hws), Hminus, Hplus, Hunsigned. reflexivity.
  - rewrite (string_of_uint_nonnil _ (Stdlib.Numbers.DecimalPos.Unsigned.to_uint_nonnil p)).
    destruct (unsigned_to_uint p rest Hrest) as (Hunsigned & _).
    rewrite append_cons. rewrite (trimStart_head "-" _ eq_refl eq_refl).
    change (Ascii.eqb "-" "-") with true. cbv iota. rewrite Hunsigned. reflexivity.
Qed.

Lemma parseInt_ofZ (z : Z) : JSParseInt.parseInt (JSString.ofZ z) = Some z.
Proof.
  pose proof (parseInt_leading_integer z "" "" eq_refl I) as H.
  now rewrite append_empty, append_nil_r in H.
Qed.

End IdStrings.

Section LenientIds.
Context {num : JSNumber}.

(** X25.  The two operations that take the id of a purchase as a string
    read it with [parseInt], which skips leading white space and stops at
    the first character that is no digit: the printed id [z], preceded by
    blanks and followed by anything that does not start with a digit or an
    [x], names the same purchase as [z] itself, for [resendEmailForPurchase]
    and for [updatePurchase]; and for an id [z] in the range of the [id]
    column, the string that [toString()] prints for [z] finds the purchase
    with the id [z], if there is one. *)
Theorem ids_are_read_leniently (z : Z) (blanks rest : string)
  (patch : UpdatePurchaseData.t) (w : World.t) :
  JSString.all JSString.isWhiteSpace blanks = true ->
  endsNumber rest ->
  PurchaseService.resendEmailForPurchase (blanks +:+ JSString.ofZ z +:+ rest) w
  = PurchaseService.resendEmailForPurchase (JSString.ofZ z) w
  /\ PurchaseService.updatePurchase (blanks +:+ JSString.ofZ z +:+ rest) patch w
     = PurchaseService.updatePurchase (JSString.ofZ z) patch w
  /\ (Prisma.int4 z = true ->
      Prisma.purchase_findUnique (JSParseInt.parseInt (JSString.ofZ z)) w
      = (Ok (find (Prisma.hasId z) (World.purchases w)), w)).
Proof.
  intros Hblanks Hrest.
  unfold PurchaseService.resendEmailForPurchase, PurchaseService.updatePurchase.
  rewrite (parseInt_leading_integer z blanks rest Hblanks Hrest), (parseInt_ofZ z).
  repeat split. intros Hrange. unfold Prisma.purchase_findUnique.
  destruct (find (Prisma.hasId z) (World.purchases w)); [reflexivity|].
  now rewrite Hrange.
Qed.

End LenientIds.

Lemma ids_are_read_leniently_witness :
  PurchaseService.resendEmailForPurchase "  1/resend" Sample.ledger
  = PurchaseService.resendEmailForPurchase "1" Sample.ledger
  /\ fst (PurchaseService.resendEmailForPurchase "  1/resend" Sample.ledger)
     = Ok (true, "Payment confirmation email resent successfully").
Proof.
  destruct (ids_are_read_leniently 1 "  " "/resend" Scenario.rename Sample.ledger
              eq_refl ltac:(repeat split)) as (Hresend & _).
  split; [exact Hresend|]. etransitivity; [exact (f_equal fst Hresend)|reflexivity].
Defined.

Section WompiEmail.
Context {num : JSNumber} {ord : JSNumberOrder num}.
Variable wompiService : Payment.Request -> Result WompiPayment.t.

(** X26.  The confirmation e-mail of a purchase made through
    [WompiPurchaseService]: when [createPurchase] has returned a response
    (in consistent tables), a status that counts as paid has been recorded
    for the returned reference and [resendEmailForPurchase] is called with
    the returned purchase id, exactly one e-mail is sent to the buyer; it
    has no line at all, since this path writes no order detail, and its
    total amount is the amount of the request as it was given, not in cents
    as for a purchase made through [PurchaseService]. *)
Theorem wompi_confirmation_email (request : CreateWompiPurchaseRequest.t)
  (w w1 : World.t) (response : CreateWompiPurchaseResponse.t) (status : string) (t : N) :
  consistent w ->
  WompiPurchaseService.createPurchase wompiService request w = (Ok response, w1) ->
  PurchaseService.isSuccessfulPayment status = true ->
  let out := PurchaseService.resendEmailForPurchase
               (CreateWompiPurchaseResponse.purchaseId response)
               (recorded (CreateWompiPurchaseResponse.reference response) status t w1) in
  exists email,
    World.emailsSent (snd out) = World.emailsSent w ++ [email]
    /\ fst out = match World.mailer w email with
                 | Ok _ => Ok (true, "Payment confirmation email resent successfully")
                 | Err e => Err e
                 end
    /\ EmailData.buyerEmail email = CreateWompiPurchaseRequest.buyerEmail request
    /\ EmailData.status email = status
    /\ EmailData.purchaseDate email = t
    /\ EmailData.items email = []
    /\ EmailData.totalAmount email = CreateWompiPurchaseRequest.amount request
    /\ EmailData.paymentId email
       = PurchaseService.orElse
           (Some (CreateWompiPurchaseResponse.reference response)) "N/A".
Proof.
  intros Hcons Hrun Hpaid out. subst out.
  destruct Hcons as (Hnum & _ & _ & Hfk).
  destruct (WompiPurchaseService.validatePurchaseRequest request) as [[]|e] eqn:Hok.
  2:{ unfold WompiPurchaseService.createPurchase, bind, lift in Hrun.
      rewrite Hok in Hrun. discriminate. }
  rewrite (wompi_createPurchase_run wompiService request w Hok) in Hrun.
  destruct (wompiService (WompiPurchaseService.paymentOf request)) as [payment|e];
    [|discriminate].
  injection Hrun as <- <-.
  cbn [CreateWompiPurchaseResponse.purchaseId CreateWompiPurchaseResponse.reference].
  set (row1 := WompiPurchaseService.purchaseRow request payment w).
  unfold recorded. rewrite recorded_run. cbn [snd].
  set (w2 := World.with_purchases _ _ _).
  set (olds := map (fun q => if PurchaseService.hasExternalReference
                                  (WompiPayment.reference payment) q
                             then Purchase.apply
                                    (WompiPurchaseService.statusData status t) q
                             else q) (World.purchases w)).
  assert (Hrows : World.purchases w2
                  = olds ++ [Purchase.apply (WompiPurchaseService.statusData status t) row1]).
  { subst w2. cbn [World.purchases World.with_purchases World.with_gatewayCalls at_time].
    rewrite map_app. cbn [map].
    assert (Hrow : PurchaseService.hasExternalReference (WompiPayment.reference payment)
                     row1 = true) by apply String.eqb_refl.
    now rewrite Hrow. }
  set (row2 := Purchase.apply (WompiPurchaseService.statusData status t) row1) in Hrows.
  assert (Hfind : find (Prisma.hasId (World.purchaseSeq w)) (World.purchases w2)
                  = Some row2).
  { rewrite Hrows. apply find_fresh; [|unfold Prisma.hasId; apply Z.eqb_refl].
    unfold noneWith, olds. apply Forall_map.
    eapply Forall_impl; [exact (numbered_fresh w Hnum)|].
    simpl. intros q Hq.
    destruct (PurchaseService.hasExternalReference (WompiPayment.reference payment) q);
      exact Hq. }
  assert (Hdetails : Prisma.orderDetailsOf w2 row2 = []).
  { unfold Prisma.orderDetailsOf.
    replace (List.filter _ (World.orderDetails w2)) with (@nil OrderDetail.t);
      [reflexivity|].
    symmetry. change (World.orderDetails w2) with (World.orderDetails w).
    change (Purchase.id row2) with (World.purchaseSeq w).
    destruct Hnum as [Hp _]. rewrite List.Forall_forall in Hp.
    clear -Hfk Hp. induction Hfk as [|d ds (p & Hin & Hid) _ IH]; simpl; [reflexivity|].
    specialize (Hp p Hin). simpl in Hp.
    assert (Hne : Z.eqb (OrderDetail.purchaseId d) (World.purchaseSeq w) = false)
      by (apply Z.eqb_neq; lia).
    now rewrite Hne. }
  unfold PurchaseService.resendEmailForPurchase.
  rewrite (bind_ok _ _ w2 w2 _
             (findUnique_found (JSString.ofZ (World.purchaseSeq w)) _ w2 row2
                (parseInt_ofZ (World.purchaseSeq w)) Hfind)).
  change (Purchase.status row2) with status. rewrite Hpaid.
  change (negb true) with false. cbv iota.
  unfold bind, gets, EmailService.sendPaymentConfirmationEmail, ret.
  rewrite Hdetails.
  change (World.mailer w2) with (World.mailer w).
  change (World.emailsSent w2) with (World.emailsSent w).
  match goal with
  | |- context [World.mailer w ?d] => exists d; destruct (World.mailer w d) as [[]|e]
  end; cbn [fst snd World.emailsSent World.with_emailsSent]; repeat split.
Qed.

End WompiEmail.

Lemma wompi_confirmation_email_witness :
  exists email,
    World.emailsSent
      (snd (PurchaseService.resendEmailForPurchase "10"
              (recorded "WP-77" "APPROVED" 1700000030000
                 (snd (@WompiPurchaseService.createPurchase ZNumber ZNumberOrder
                         Scenario.wompiGateway Scenario.wallpapers Scenario.store)))))
    = [] ++ [email]
    /\ EmailData.items email = []
    /\ EmailData.totalAmount email = 25000%Z.
Proof.
  destruct (@wompi_confirmation_email ZNumber ZNumberOrder Scenario.wompiGateway
              Scenario.wallpapers Scenario.store
              (snd (@WompiPurchaseService.createPurchase ZNumber ZNumberOrder
                      Scenario.wompiGateway Scenario.wallpapers Scenario.store))
              ltac:(let r := eval vm_compute in
                      (fst (@WompiPurchaseService.createPurchase ZNumber ZNumberOrder
                              Scenario.wompiGateway Scenario.wallpapers Scenario.store)) in
                    match r with Ok ?x => exact x end)
              "APPROVED" 1700000030000)
    as (email & Hsent & _ & _ & _ & _ & Hitems & Htotal & _).
  - split; [split; repeat constructor|].
    split; [repeat constructor; rewrite list_elem_of_In; simpl; intuition discriminate|].
    split; [repeat constructor; rewrite list_elem_of_In; simpl; intuition discriminate|].
    constructor; [exists Sample.paid; split; [now left|reflexivity]|].
    constructor; [exists Sample.pending; split; [right; now left|reflexivity]|constructor].
  - reflexivity.
  - reflexivity.
  - exists email. split; [exact Hsent|]. split; [exact Hitems|exact Htotal].
Defined.

(** ** Colors that are no list, and references *)

Section ColorsAndReferences.
Context {num : JSNumber}.

(** X27.  The color check when the colors of the product are JSON text
    but no array: for an item with a non-empty selected color that passes
    the checks before the color check, colors that parse to a JSON string
    are searched for the selected color as a substring, so the item is
    accepted exactly when the selected color occurs somewhere in that
    string, and rejected with a [ValidationError] otherwise; colors that
    parse to a number, a boolean, [null] or an object make the check throw a
    [TypeError], which is no [ValidationError]. *)
Theorem color_check_without_array (catalog : list Product.t) (item : CartItem.t)
  (p : Product.t) (color : string) (x : JSON.value) :
  falsy (CartItem.quantity item) || leq_zero (CartItem.quantity item) = false ->
  ProductDataSource.getById catalog (CartItem.productId item) = Some p ->
  Product.status p = "available" ->
  CartItem.selectedColor item = Some color ->
  color <> "" ->
  JSON.parse (PurchaseService.colorsString (Product.colors p)) = Some x ->
  match x with
  | JSON.JArray _ => True
  | JSON.JString s =>
      ((exists v, PurchaseService.validateItem catalog item = Ok v)
       <-> JSString.includes s color = true)
      /\ (JSString.includes s color = false ->
          isValidationError (PurchaseService.validateItem catalog item) = true)
  | _ => PurchaseService.validateItem catalog item = Err TypeError
  end.
Proof.
  intros Hq Hp Hstatus Hcolor Hne Hparse.
  unfold PurchaseService.validateItem.
  rewrite Hq, Hp, Hstatus, Hcolor. cbn [String.eqb negb].
  change (String.eqb "available" "available") with true. cbn [negb].
  apply truthy_nonempty in Hne. rewrite Hne.
  unfold PurchaseService.availableColorsInclude. rewrite Hparse.
  destruct x as [| | | | |]; try exact I; try reflexivity.
  all: cbn [PurchaseService.includes].
  all: try (destruct (JSString.includes _ color) eqn:Hin; split;
            [split; [intros _; reflexivity|intros _; eexists; reflexivity]
            |discriminate
            |split; [intros [v Hv]; discriminate Hv|discriminate]
            |reflexivity]).
Qed.

Lemma ofN_inj (n n' : N) : JSString.ofN n = JSString.ofN n' -> n = n'.
Proof.
  unfold JSString.ofN. intros H.
  apply Stdlib.Numbers.DecimalN.Unsigned.to_uint_inj.
  assert (Hnil : forall m, N.to_uint m <> Decimal.Nil).
  { intros [|q]; [discriminate|apply Stdlib.Numbers.DecimalPos.Unsigned.to_uint_nonnil]. }
  apply (f_equal NilZero.uint_of_string) in H.
  rewrite !NilZero.usu in H by apply Hnil. now injection H.
Qed.

(** X28.  External references are told apart by the clock and the random
    draw only: two references are equal exactly when they were made in the
    same millisecond with the same first nine radix-36 digits drawn.  So two
    purchases that [createPurchase] adds at different times have different
    external references, and two added in the same millisecond with the
    same draw share one, which nothing in [createPurchase] detects. *)
Theorem externalReference_told_apart_by_clock (request1 request2 : CreatePurchaseRequest.t)
  (w1 w2 : World.t) (validated1 validated2 : list ValidatedCartItem.t) :
  PurchaseService.validatePurchaseRequest request1 = Ok tt ->
  PurchaseService.validatePurchaseRequest request2 = Ok tt ->
  PurchaseService.validateAndCalculateItems (World.products w1)
    (CreatePurchaseRequest.items request1) = Ok validated1 ->
  PurchaseService.validateAndCalculateItems (World.products w2)
    (CreatePurchaseRequest.items request2) = Ok validated2 ->
  exists reference1 reference2,
    map Purchase.externalReference
      (World.purchases (snd (PurchaseService.createPurchase request1 w1)))
    = map Purchase.externalReference (World.purchases w1) ++ [reference1]
    /\ map Purchase.externalReference
         (World.purchases (snd (PurchaseService.createPurchase request2 w2)))
       = map Purchase.externalReference (World.purchases w2) ++ [reference2]
    /\ (reference1 = reference2
        <-> World.now w1 = World.now w2
            /\ JSString.substr 2 9 (PurchaseService.Math_random_toString36 w1)
               = JSString.substr 2 9 (PurchaseService.Math_random_toString36 w2))
    /\ (World.now w1 <> World.now w2 -> reference1 <> reference2).
Proof.
  intros Hreq1 Hreq2 Hitems1 Hitems2.
  destruct (createPurchase_run request1 w1 validated1 Hreq1 Hitems1) as (Hrows1 & _).
  destruct (createPurchase_run request2 w2 validated2 Hreq2 Hitems2) as (Hrows2 & _).
  exists (PurchaseService.newExternalReference w1), (PurchaseService.newExternalReference w2).
  split; [exact (Hrows1 _ Purchase.externalReference (fun _ _ => eq_refl))|].
  split; [exact (Hrows2 _ Purchase.externalReference (fun _ _ => eq_refl))|].
  assert (Hiff : PurchaseService.newExternalReference w1
                 = PurchaseService.newExternalReference w2
                 <-> World.now w1 = World.now w2
                     /\ JSString.substr 2 9 (PurchaseService.Math_random_toString36 w1)
                        = JSString.substr 2 9 (PurchaseService.Math_random_toString36 w2)).
  { unfold PurchaseService.newExternalReference. split.
    - intros H. rewrite !append_cons, !append_empty in H.
      injection H as H.
      destruct (digits_hyphen_unique _ _ _ _ (proj2 (ofN_digits (World.now w1)))
                  (proj2 (ofN_digits (World.now w2))) H) as [Ht Hs].
      split; [now apply ofN_inj|exact Hs].
    - intros [-> ->]. reflexivity. }
  split; [exact Hiff|]. intros Hne Heq. apply Hiff in Heq. tauto.
Qed.

End ColorsAndReferences.

Lemma color_check_without_array_witness :
  JSON.parse Scenario.quotedColors = Some (JSON.JString "red,blue")
  /\ (exists v, PurchaseService.validateItem [Scenario.quotedLamp] Scenario.edLamp = Ok v)
  /\ isValidationError
       (PurchaseService.validateItem [Scenario.quotedLamp] Sample.greenLamp) = true.
Proof.
  split; [reflexivity|].
  pose proof (color_check_without_array [Scenario.quotedLamp] Scenario.edLamp
                Scenario.quotedLamp "ed,bl" (JSON.JString "red,blue")
                eq_refl eq_refl eq_refl eq_refl ltac:(discriminate) eq_refl)
    as [Haccepts _].
  pose proof (color_check_without_array [Scenario.quotedLamp] Sample.greenLamp
                Scenario.quotedLamp "green" (JSON.JString "red,blue")
                eq_refl eq_refl eq_refl eq_refl ltac:(discriminate) eq_refl)
    as [_ Hrejects].
  split; [apply Haccepts; reflexivity|apply Hrejects; reflexivity].
Defined.

Lemma externalReference_told_apart_by_clock_witness :
  exists reference1 reference2,
    map Purchase.externalReference
      (World.purchases (snd (PurchaseService.createPurchase Sample.order Sample.shop)))
    = [] ++ [reference1]
    /\ map Purchase.externalReference
         (World.purchases
            (snd (PurchaseService.createPurchase Sample.order
                    (at_time 1700000000001 Sample.shop))))
       = [] ++ [reference2]
    /\ reference1 <> reference2.
Proof.
  destruct (externalReference_told_apart_by_clock Sample.order Sample.order Sample.shop
              (at_time 1700000000001 Sample.shop)
              Scenario.validatedLamps Scenario.validatedLamps
              eq_refl eq_refl eq_refl eq_refl)
    as (reference1 & reference2 & Hfirst & Hsecond & _ & Hapart).
  exists reference1, reference2. split; [exact Hfirst|]. split; [exact Hsecond|].
  apply Hapart. discriminate.
Defined.
